(** * WhatsApp chat sentiment analysis: transcript preprocessing and
      multi-model sentiment fusion

    A shallow embedding of
      - [backend/apps/chat_analysis/preprocessing.py]
        (class [WhatsAppChatPreprocessor]),
      - [backend/apps/sentiment/analyzers.py]
        (the sentiment, emotion and toxicity analyzers and
        [MultiModelSentimentAnalyzer]) and
      - the statistics of [backend/apps/chat_analysis/tasks.py],
    followed by the properties of the specification that concern them.

    Modelling conventions.
      - A Python [str] is a [string]; a character is the code point of the
        [ascii] value, so the texts covered are those whose code points are
        below 256.  The character classes below ([isspace], [isupper],
        [lower], [\d], [\w]) follow Unicode on that range.
      - Python ints are [nat]; the quotient of two ints is an exact rational
        of [Q]; the float scores of the analyzers are real numbers of [R]
        (numpy's [mean] and [std] need a square root).
      - A Python dict is an association list in insertion order; a Python
        [set] is a duplicate-free list whose iteration order is not fixed by
        the language.
      - A call that may raise returns [option]; [None] is the exception.
      - The libraries that the code calls (VADER, TextBlob, transformers,
        urlextract, emoji, langdetect) are parameters: records of what
        each call answers on a text.  The properties hold for every such
        record unless they say which answers they assume. *)

From Stdlib Require Import Bool Arith PeanoNat NArith ZArith List Lia.
From Stdlib Require Import Ascii String DecimalString DecimalNat.
From Stdlib Require Import QArith.
From Stdlib Require Import Reals Lra.
From Stdlib Require Import Permutation Sorted.
Import ListNotations.

Open Scope string_scope.
Open Scope list_scope.
Open Scope nat_scope.

(** ** Python string primitives *)

Module PyStr.

Definition code (c : ascii) : nat := nat_of_ascii c.

Definition in_range (lo hi : nat) (c : ascii) : bool :=
  (lo <=? code c) && (code c <=? hi).

(** [str.isspace] on one character, which is also the regex class [\s]. *)
Definition isspace (c : ascii) : bool :=
  in_range 9 13 c || in_range 28 32 c
  || (code c =? 133) || (code c =? 160).

(** The regex class [\d]. *)
Definition isdigit (c : ascii) : bool := in_range 48 57 c.

(** [c.isupper()] for a one-character string. *)
Definition isupper (c : ascii) : bool :=
  in_range 65 90 c || in_range 192 214 c || in_range 216 222 c.

(** [c.islower()] for a one-character string. *)
Definition islower (c : ascii) : bool :=
  in_range 97 122 c || (code c =? 170) || (code c =? 181)
  || (code c =? 186) || in_range 223 246 c || in_range 248 255 c.

(** The regex class [\w]: alphanumeric characters and the underscore. *)
Definition isword (c : ascii) : bool :=
  isdigit c || in_range 65 90 c || in_range 97 122 c || (code c =? 95)
  || (code c =? 170) || in_range 178 179 c || (code c =? 181)
  || in_range 185 186 c || in_range 188 190 c
  || in_range 192 214 c || in_range 216 246 c || in_range 248 255 c.

Definition lower_char (c : ascii) : ascii :=
  if isupper c then ascii_of_nat (code c + 32) else c.

(** [s.lower()] *)
Fixpoint lower (s : string) : string :=
  match s with
  | EmptyString => EmptyString
  | String c s' => String (lower_char c) (lower s')
  end.

(** [p in s] *)
Fixpoint contains (p s : string) : bool :=
  String.prefix p s ||
  match s with
  | EmptyString => false
  | String _ s' => contains p s'
  end.

Fixpoint mem_char (c : ascii) (chars : string) : bool :=
  match chars with
  | EmptyString => false
  | String d chars' => Ascii.eqb c d || mem_char c chars'
  end.

Fixpoint lstrip_by (p : ascii -> bool) (s : string) : string :=
  match s with
  | EmptyString => EmptyString
  | String c s' => if p c then lstrip_by p s' else s
  end.

(** [s.rstrip()] for the class [p]: when all that follows a character is
    stripped, the character itself is kept only if it is not in [p]. *)
Fixpoint rstrip_by (p : ascii -> bool) (s : string) : string :=
  match s with
  | EmptyString => EmptyString
  | String c s' =>
      match rstrip_by p s' with
      | EmptyString => if p c then EmptyString else String c EmptyString
      | r => String c r
      end
  end.

Definition strip_by (p : ascii -> bool) (s : string) : string :=
  rstrip_by p (lstrip_by p s).

(** [s.strip()] *)
Definition strip (s : string) : string := strip_by isspace s.

(** [s.strip(chars)] *)
Definition strip_chars (chars s : string) : string :=
  strip_by (fun c => mem_char c chars) s.

Fixpoint drop (n : nat) (s : string) : string :=
  match n, s with
  | O, _ => s
  | S _, EmptyString => EmptyString
  | S n', String _ s' => drop n' s'
  end.

Fixpoint take (n : nat) (s : string) : string :=
  match n, s with
  | O, _ => EmptyString
  | S _, EmptyString => EmptyString
  | S n', String c s' => String c (take n' s')
  end.

(** [s.split(sep, 1)]: [None] when [sep] does not occur (the result has
    one part), otherwise the text before and after its first occurrence. *)
Fixpoint split_once (sep s : string) : option (string * string) :=
  if String.prefix sep s then Some (EmptyString, drop (String.length sep) s)
  else
    match s with
    | EmptyString => None
    | String c s' =>
        match split_once sep s' with
        | Some (a, b) => Some (String c a, b)
        | None => None
        end
    end.

(** [s.count(c)] for a one-character [c], and the generator sums
    [sum(1 for c in s if p(c))]. *)
Fixpoint count_if (p : ascii -> bool) (s : string) : nat :=
  match s with
  | EmptyString => 0
  | String c s' => (if p c then 1 else 0) + count_if p s'
  end.

Fixpoint filter (p : ascii -> bool) (s : string) : string :=
  match s with
  | EmptyString => EmptyString
  | String c s' => if p c then String c (filter p s') else filter p s'
  end.

(** The truth value of a string: [not s] holds of the empty string only. *)
Definition is_empty (s : string) : bool :=
  match s with EmptyString => true | _ => false end.

(** Decimal digits of a natural number, as [str(n)] prints them. *)
Definition of_nat (n : nat) : string :=
  NilEmpty.string_of_uint (Nat.to_uint n).

(** The format specification [{n:02d}]: at least two digits, padded with
    zeros on the left. *)
Definition format_02d (n : nat) : string :=
  if n <? 10 then "0" ++ of_nat n else of_nat n.

End PyStr.

(** ** The fragment of Python's [re] used by the timestamp patterns

    Every pattern of [WhatsAppChatPreprocessor.patterns] is a sequence of
    character classes, each repeated between a minimum and a maximum number
    of times (greedily, with backtracking), with one capturing group. *)

Module Regex.

Record item := mk_item { cls : ascii -> bool; rmin : nat; rmax : nat }.

Definition lit (c : ascii) : item := mk_item (Ascii.eqb c) 1 1.
Definition digits (lo hi : nat) : item := mk_item PyStr.isdigit lo hi.
Definition space : item := mk_item PyStr.isspace 1 1.

(** A pattern: the items before the group, inside it and after it. *)
Record pattern := mk_pattern
  { before : list item; group : list item; after : list item }.

(** Number of leading characters of [s] in the class, at most [n]. *)
Fixpoint span (p : ascii -> bool) (n : nat) (s : string) : nat :=
  match n, s with
  | S n', String c s' => if p c then S (span p n' s') else 0
  | _, _ => 0
  end.

Section Backtracking.
Context {A : Type}.

(** Try the continuation after [k] characters, then [k-1], ... down to
    [lo]: the greedy choice first. *)
Fixpoint try_down (k lo : nat) (s : string)
         (cont : string -> option A) : option A :=
  match cont (PyStr.drop k s) with
  | Some r => Some r
  | None =>
      match k with
      | O => None
      | S k' => if k <=? lo then None else try_down k' lo s cont
      end
  end.

Fixpoint match_items (its : list item) (s : string)
         (cont : string -> option A) : option A :=
  match its with
  | [] => cont s
  | it :: rest =>
      let n := span (cls it) (rmax it) s in
      if n <? rmin it then None
      else try_down n (rmin it) s (fun s' => match_items rest s' cont)
  end.
End Backtracking.

(** A match of the pattern at the start of [s]: the text of group 1 and
    the number of characters of the whole match. *)
Definition match_at (p : pattern) (s : string) : option (string * nat) :=
  match_items (before p) s (fun s1 =>
  match_items (group p) s1 (fun s2 =>
  match_items (after p) s2 (fun s3 =>
    Some (PyStr.take (String.length s1 - String.length s2) s1,
          String.length s - String.length s3)))).

(** [re.search(p, s)] as a truth value. *)
Fixpoint search (p : pattern) (s : string) : bool :=
  match match_at p s with
  | Some _ => true
  | None =>
      match s with
      | EmptyString => false
      | String _ s' => search p s'
      end
  end.

(** [re.split(p, s)] for a pattern with one group: the text between the
    matches, with the text of the group of every match in between.
    [skip] characters of the current match are still to be passed;
    [chunk] is the text since the end of the last match. *)
Fixpoint split_from (p : pattern) (s : string) (skip : nat)
         (chunk : string) : list string :=
  match s with
  | EmptyString => [chunk]
  | String c s' =>
      match skip with
      | S k => split_from p s' k chunk
      | O =>
          match match_at p s with
          | Some (g, n) => chunk :: g :: split_from p s' (n - 1) EmptyString
          | None => split_from p s' 0 (chunk ++ String c EmptyString)
          end
      end
  end.

Definition split (p : pattern) (s : string) : list string :=
  split_from p s 0 EmptyString.

(** [re.findall(p, s)] for a pattern with one group: the text of the
    group of every match, from left to right, without overlap. *)
Fixpoint findall_from (p : pattern) (s : string) (skip : nat)
  : list string :=
  match s with
  | EmptyString => []
  | String _ s' =>
      match skip with
      | S k => findall_from p s' k
      | O =>
          match match_at p s with
          | Some (g, n) => g :: findall_from p s' (n - 1)
          | None => findall_from p s' 0
          end
      end
  end.

Definition findall (p : pattern) (s : string) : list string :=
  findall_from p s 0.

(** [re.sub(r'\+\d+', '', s)]: a plus sign followed by digits is removed
    with all the digits that follow.  [indigits] holds while the digits
    of a match are being passed. *)
Fixpoint sub_plus_digits (s : string) (indigits : bool) : string :=
  match s with
  | EmptyString => EmptyString
  | String c s' =>
      if indigits && PyStr.isdigit c then sub_plus_digits s' true
      else if Ascii.eqb c "+"
              && match s' with
                 | String d _ => PyStr.isdigit d
                 | EmptyString => false
                 end
      then sub_plus_digits s' true
      else String c (sub_plus_digits s' false)
  end.

(** [re.sub(r'[^\w\s-]', '', s)] *)
Definition sub_non_word (s : string) : string :=
  PyStr.filter
    (fun c => PyStr.isword c || PyStr.isspace c || Ascii.eqb c "-") s.

(** A class repeated with [+] in a pattern applied to the text [s]: once
    at least, and no more often than [s] has characters. *)
Definition plus (p : ascii -> bool) (s : string) : item :=
  mk_item p 1 (String.length s).

(** [re.sub(p, repl, s)] for a pattern that matches no empty text: every
    match, from left to right and without overlap, is replaced by [repl].
    [skip] characters of the current match are still to be passed. *)
Fixpoint sub_from (p : pattern) (repl s : string) (skip : nat) : string :=
  match s with
  | EmptyString => EmptyString
  | String c s' =>
      match skip with
      | S k => sub_from p repl s' k
      | O =>
          match match_at p s with
          | Some (_, n) => (repl ++ sub_from p repl s' (n - 1))%string
          | None => String c (sub_from p repl s' 0)
          end
      end
  end.

Definition sub (p : pattern) (repl s : string) : string :=
  sub_from p repl s 0.

(** [re.sub(r':[a-z_]+:', '', s)] *)
Definition sub_emoji_names (s : string) : string :=
  sub (mk_pattern []
         [lit ":";
          plus (fun c => PyStr.in_range 97 122 c || Ascii.eqb c "_") s;
          lit ":"] [])
      "" s.

(** [re.sub(r'\s+', ' ', s)] *)
Definition sub_spaces (s : string) : string :=
  sub (mk_pattern [] [plus PyStr.isspace s] []) " " s.

(** [re.sub(r'[^\w\s.,!?-]', '', s)] *)
Definition sub_special (s : string) : string :=
  PyStr.filter
    (fun c => PyStr.isword c || PyStr.isspace c || PyStr.mem_char c ".,!?-")
    s.

End Regex.

(** ** [datetime.strptime] for the directives of [parse_datetime]

    The standard library turns a format into a regular expression (one
    alternation per directive, [\s+] for white space), takes its first
    match at the start of the text, rejects text left over, and builds the
    [datetime], which rejects dates that do not exist. *)

Module Strptime.

Record datetime := mk_datetime
  { year : nat; month : nat; day : nat;
    hour : nat; minute : nat; second : nat }.

Inductive field := Fd | Fm | FY | Fy | FH | FM | FS.

Inductive fitem :=
| Dir (f : field)     (* a directive such as [%d] *)
| Lit (c : ascii)     (* a character of the format *)
| Spaces.             (* white space of the format: [\s+] *)

Definition rng (a b : string) (c : ascii) : bool :=
  match a, b with
  | String lo _, String hi _ =>
      PyStr.in_range (PyStr.code lo) (PyStr.code hi) c
  | _, _ => false
  end.
Definition chr (a : string) (c : ascii) : bool := rng a a c.

(** The alternatives of a directive, in the order of the alternation;
    an alternative is one class per character. *)
Definition alternatives (f : field) : list (list (ascii -> bool)) :=
  match f with
  | Fd => [ [chr "3"; rng "0" "1"]; [rng "1" "2"; PyStr.isdigit];
            [chr "0"; rng "1" "9"]; [rng "1" "9"]; [chr " "; rng "1" "9"] ]
  | Fm => [ [chr "1"; rng "0" "2"]; [chr "0"; rng "1" "9"]; [rng "1" "9"] ]
  | FY => [ [PyStr.isdigit; PyStr.isdigit; PyStr.isdigit; PyStr.isdigit] ]
  | Fy => [ [PyStr.isdigit; PyStr.isdigit] ]
  | FH => [ [chr "2"; rng "0" "3"]; [rng "0" "1"; PyStr.isdigit];
            [PyStr.isdigit] ]
  | FM => [ [rng "0" "5"; PyStr.isdigit]; [PyStr.isdigit] ]
  | FS => [ [chr "6"; rng "0" "1"]; [rng "0" "5"; PyStr.isdigit];
            [PyStr.isdigit] ]
  end.

(** Match one alternative: the value read so far and the rest. *)
Fixpoint match_alt (cs : list (ascii -> bool)) (acc : nat) (s : string)
  : option (nat * string) :=
  match cs with
  | [] => Some (acc, s)
  | p :: cs' =>
      match s with
      | String c s' =>
          if p c then
            match_alt cs'
              (if PyStr.isdigit c then 10 * acc + (PyStr.code c - 48)
               else acc) s'
          else None
      | EmptyString => None
      end
  end.

Definition set_field (f : field) (v : nat) (t : datetime) : datetime :=
  match f with
  | Fd => mk_datetime (year t) (month t) v (hour t) (minute t) (second t)
  | Fm => mk_datetime (year t) v (day t) (hour t) (minute t) (second t)
  | FY => mk_datetime v (month t) (day t) (hour t) (minute t) (second t)
  | Fy => mk_datetime (if v <=? 68 then v + 2000 else v + 1900)
            (month t) (day t) (hour t) (minute t) (second t)
  | FH => mk_datetime (year t) (month t) (day t) v (minute t) (second t)
  | FM => mk_datetime (year t) (month t) (day t) (hour t) v (second t)
  | FS => mk_datetime (year t) (month t) (day t) (hour t) (minute t) v
  end.

(** The rests of [s] after [k], [k-1], ..., 1 characters. *)
Fixpoint rests_down (k : nat) (s : string) : list string :=
  match k with
  | O => []
  | S k' => PyStr.drop k s :: rests_down k' s
  end.

(** All the ways the expression of the format matches at the start of
    [s], in the order a backtracking matcher finds them. *)
Fixpoint matches (fmt : list fitem) (t : datetime) (s : string)
  : list (datetime * string) :=
  match fmt with
  | [] => [(t, s)]
  | Dir f :: fmt' =>
      flat_map
        (fun cs =>
           match match_alt cs 0 s with
           | Some (v, s') => matches fmt' (set_field f v t) s'
           | None => []
           end)
        (alternatives f)
  | Lit c :: fmt' =>
      match s with
      | String d s' => if Ascii.eqb c d then matches fmt' t s' else []
      | EmptyString => []
      end
  | Spaces :: fmt' =>
      flat_map (matches fmt' t)
        (rests_down (Regex.span PyStr.isspace (String.length s) s) s)
  end.

Definition is_leap (y : nat) : bool :=
  ((y mod 4 =? 0) && negb (y mod 100 =? 0)) || (y mod 400 =? 0).

Definition days_in_month (y m : nat) : nat :=
  match m with
  | 2 => if is_leap y then 29 else 28
  | 4 | 6 | 9 | 11 => 30
  | _ => 31
  end.

(** The checks of the [datetime] constructor. *)
Definition valid (t : datetime) : bool :=
  (1 <=? year t) && (year t <=? 9999)
  && (1 <=? month t) && (month t <=? 12)
  && (1 <=? day t) && (day t <=? days_in_month (year t) (month t))
  && (hour t <=? 23) && (minute t <=? 59) && (second t <=? 59).

(** [datetime.strptime(s, fmt)]; [None] is [ValueError]. *)
Definition strptime (s : string) (fmt : list fitem) : option datetime :=
  match matches fmt (mk_datetime 1900 1 1 0 0 0) s with
  | (t, EmptyString) :: _ => if valid t then Some t else None
  | _ => None
  end.

End Strptime.

(** ** Python containers *)

Module PyData.

(** [set(l)]: the distinct elements (in one of the possible orders). *)
Definition set_of (l : list string) : list string := nodup string_dec l.

(** [s.add(x)] *)
Definition set_add (x : string) (s : list string) : list string :=
  if in_dec string_dec x s then s else s ++ [x].

Fixpoint insert_sorted (x : string) (l : list string) : list string :=
  match l with
  | [] => [x]
  | y :: l' => if String.leb x y then x :: l else y :: insert_sorted x l'
  end.

(** [sorted(l)] on strings: ascending by code points. *)
Definition sorted (l : list string) : list string :=
  fold_right insert_sorted [] l.

(** The order of [sorted] on strings. *)
Definition str_le (a b : string) : Prop := String.leb a b = true.

(** [enumerate(l)] *)
Definition enumerate {A : Type} (l : list A) : list (nat * A) :=
  combine (seq 0 (List.length l)) l.

(** A dict with string keys, in insertion order. *)
Definition dict (V : Type) := list (string * V).

(** [d[k] = v] *)
Fixpoint dict_set {V : Type} (k : string) (v : V) (d : dict V) : dict V :=
  match d with
  | [] => [(k, v)]
  | (k', v') :: d' =>
      if String.eqb k k' then (k, v) :: d' else (k', v') :: dict_set k v d'
  end.

(** [d.get(k)] *)
Fixpoint dict_get {V : Type} (k : string) (d : dict V) : option V :=
  match d with
  | [] => None
  | (k', v) :: d' => if String.eqb k k' then Some v else dict_get k d'
  end.

End PyData.

(** ** [WhatsAppChatPreprocessor] *)

Module Preprocessing.
Import Regex.

(** The date and time shared by the android and the web pattern:
    [\d{1,2}/\d{1,2}/\d{2,4},\s\d{1,2}:\d{2}] *)
Definition date_time : list item :=
  [digits 1 2; lit "/"; digits 1 2; lit "/"; digits 2 4; lit ",";
   space; digits 1 2; lit ":"; digits 2 2].

(** [(\d{1,2}/\d{1,2}/\d{2,4},\s\d{1,2}:\d{2})\s-\s] *)
Definition android_pattern : pattern :=
  mk_pattern [] date_time [space; lit "-"; space].

(** [\[(\d{1,2}/\d{1,2}/\d{2,4},\s\d{1,2}:\d{2}:\d{2})\]\s] *)
Definition ios_pattern : pattern :=
  mk_pattern [lit "["] (date_time ++ [lit ":"; digits 2 2])
             [lit "]"; space].

(** [self.patterns], in the order of the dict. *)
Definition patterns : list (string * pattern) :=
  [("android", android_pattern); ("ios", ios_pattern);
   ("web", android_pattern)].

Definition system_patterns : list string :=
  ["Messages and calls are end-to-end encrypted";
   "created group";
   "added you";
   "left";
   "joined using this group\'s invite link";
   "changed the group description";
   "changed the subject";
   "You deleted this message";
   "This message was deleted";
   "<Media omitted>";
   "image omitted";
   "video omitted";
   "audio omitted";
   "document omitted";
   "Contact card omitted";
   "Location:"].

Fixpoint patterns_get (name : string) (ps : list (string * pattern))
  : option pattern :=
  match ps with
  | [] => None
  | (n, p) :: ps' => if String.eqb name n then Some p else patterns_get name ps'
  end.

Fixpoint first_matching (ps : list (string * pattern)) (s : string)
  : option string :=
  match ps with
  | [] => None
  | (n, p) :: ps' => if search p s then Some n else first_matching ps' s
  end.

Definition detect_format (text : string) : string :=
  match first_matching patterns (PyStr.take 1000 text) with
  | Some format_name => format_name
  | None => "android"
  end.

(** [self.patterns.get(format_type, self.patterns['android'])] *)
Definition pattern_for (format_type : string) : pattern :=
  match patterns_get format_type patterns with
  | Some p => p
  | None => android_pattern
  end.

Definition extract_messages_and_dates (text format_type : string)
  : list string * list string :=
  let pattern := pattern_for format_type in
  let messages := tl (split pattern text) in
  let dates := findall pattern text in
  let min_length := Nat.min (List.length messages) (List.length dates) in
  (firstn min_length messages, firstn min_length dates).

Import Strptime.

(** The formats of [parse_datetime], in its order. *)
Definition formats : list (list fitem) :=
  let date a b c := [Dir a; Lit "/"; Dir b; Lit "/"; Dir c; Lit ","; Spaces] in
  let hm := [Dir FH; Lit ":"; Dir FM] in
  [ date Fd Fm FY ++ hm;
    date Fm Fd FY ++ hm;
    date Fd Fm Fy ++ hm;
    date Fm Fd Fy ++ hm;
    date Fd Fm FY ++ hm ++ [Lit ":"; Dir FS];
    date Fm Fd FY ++ hm ++ [Lit ":"; Dir FS] ].

Fixpoint first_parse (date_str : string) (fmts : list (list fitem))
  : option datetime :=
  match fmts with
  | [] => None
  | fmt :: fmts' =>
      match strptime date_str fmt with
      | Some t => Some t
      | None => first_parse date_str fmts'
      end
  end.

Definition parse_datetime (date_str format_type : string)
  : option datetime :=
  first_parse (PyStr.strip_chars " -[]" date_str) formats.

Definition extract_user_and_message (message_text : string)
  : string * string :=
  match PyStr.split_once ": " message_text with
  | Some (part0, part1) =>
      let username := PyStr.strip part0 in
      let message := PyStr.strip part1 in
      let username := PyStr.strip (sub_plus_digits username false) in
      let username := PyStr.strip (sub_non_word username) in
      (username, message)
  | None => ("System", PyStr.strip message_text)
  end.

Definition is_system_message (message : string) : bool :=
  let message_lower := PyStr.lower message in
  existsb (fun pattern => PyStr.contains (PyStr.lower pattern) message_lower)
          system_patterns.

(** The calls of [clean_text_for_analysis] and [detect_language] into
    other libraries: what each call answers on a text, [None] when it
    raises.  [remove_urls] is the call [self.url_extractor.remove_urls];
    an extractor object that has no method of that name raises
    [AttributeError] at every call.  [demojize] is [emoji.demojize] and
    [detect] is [langdetect.detect]. *)
Record libraries := mk_libraries
  { remove_urls : string -> option string;
    demojize : string -> option string;
    detect : string -> option string }.

(** [None] when a call into a library raises. *)
Definition clean_text_for_analysis (L : libraries) (text : string)
  : option string :=
  if PyStr.is_empty text then Some ""
  else
    match remove_urls L text with
    | None => None
    | Some text =>
        match demojize L text with
        | None => None
        | Some text =>
            let text := sub_emoji_names text in
            let text := PyStr.strip (sub_spaces text) in
            Some (sub_special text)
        end
    end.

Definition language_map : PyData.dict string :=
  [("en", "english"); ("hi", "hindi"); ("ur", "urdu"); ("ar", "arabic")].

(** Every exception in the body is caught and answered by ['unknown']. *)
Definition detect_language (L : libraries) (text : string) : string :=
  if PyStr.is_empty text || (String.length (PyStr.strip text) <? 3)
  then "unknown"
  else
    match clean_text_for_analysis L text with
    | None => "unknown"
    | Some clean_text =>
        if String.length (PyStr.strip clean_text) <? 3 then "unknown"
        else
          match detect L clean_text with
          | None => "unknown"
          | Some detected =>
              match PyData.dict_get detected language_map with
              | Some language => language
              | None => detected
              end
          end
    end.

(** The quotient of two ints, the divisor not zero. *)
Definition int_div (a b : nat) : Q := Z.of_nat a # Pos.of_nat b.

(** The features of [extract_features] that are computed from the
    characters of the text.  [word_count] is [Validation.word_count]
    below; the emoji counts are 0 on the texts covered here; the URL
    counts, which [find_urls] and [has_urls] of the extractor give, are
    not part of the record. *)
Record features := mk_features
  { char_count : nat;
    exclamation_count : nat;
    question_count : nat;
    caps_ratio : Q }.

Definition extract_features (message : string) : features :=
  {| char_count := String.length message;
     exclamation_count := PyStr.count_if (Ascii.eqb "!") message;
     question_count := PyStr.count_if (Ascii.eqb "?") message;
     caps_ratio :=
       if PyStr.is_empty message then 0%Q
       else int_div (PyStr.count_if PyStr.isupper message)
                    (String.length message) |}.

Definition reserved (participant : string) : bool :=
  existsb (String.eqb (PyStr.lower participant))
          ["system"; "group notification"].

Definition anonymize_participants (participants : list string)
  : PyData.dict string :=
  fold_left
    (fun anonymized '(i, participant) =>
       if reserved participant
       then PyData.dict_set participant participant anonymized
       else PyData.dict_set participant
              ("User_" ++ PyStr.format_02d (i + 1))%string anonymized)
    (PyData.enumerate (PyData.sorted (PyData.set_of participants)))
    [].

Inductive message_type := text | media | system.

(** The three-way decision of [preprocess] on the message content,
    with the user name it leaves. *)
Definition classify (username message_content : string)
  : message_type * string :=
  if is_system_message message_content then (system, "System")
  else if PyStr.contains "<Media omitted>" message_content
          || PyStr.contains "omitted" (PyStr.lower message_content)
       then (media, username)
       else (text, username).

(** A row of the data frame.  The columns [hour] and [day_of_week] are
    functions of the timestamp and are left out. *)
Record processed_message := mk_message
  { timestamp : datetime;
    username : string;
    msg_type : message_type;
    original_text : string;
    cleaned_text : string;
    language : string;
    msg_features : features;
    anonymized_username : option string }.

(** The state of the loop of [preprocess]: the list
    [processed_messages] and the set [participants]. *)
Definition loop_state : Type := list processed_message * list string.

(** One turn of the loop over [zip(messages, dates)].  At a [continue]
    the state is as it was.  An exception in the body of the [try] is
    caught and the loop goes on with what was changed before it:
    [participants.add] comes before the call of
    [clean_text_for_analysis], the [append] after it. *)
Definition process_message (L : libraries) (format_type : string)
           (st : loop_state) (pair : string * string) : loop_state :=
  let '(processed_messages, participants) := st in
  let '(message_text, date_str) := pair in
  match parse_datetime date_str format_type with
  | None => st
  | Some ts =>
      let '(user, message_content) :=
        extract_user_and_message message_text in
      if PyStr.is_empty (PyStr.strip message_content) then st
      else
        let '(mtype, user) := classify user message_content in
        let participants := PyData.set_add user participants in
        let features := extract_features message_content in
        let language :=
          match mtype with
          | text => detect_language L message_content
          | _ => "unknown"
          end in
        match clean_text_for_analysis L message_content with
        | None => (processed_messages, participants)
        | Some cleaned_text =>
            (processed_messages
               ++ [ {| timestamp := ts;
                       username := user;
                       msg_type := mtype;
                       original_text := message_content;
                       cleaned_text := cleaned_text;
                       language := language;
                       msg_features := features;
                       anonymized_username := None |} ],
             participants)
        end
  end.

(** The loop: the rows appended and the set of participants. *)
Definition process_all (L : libraries) (format_type : string)
           (pairs : list (string * string)) : loop_state :=
  fold_left (process_message L format_type) pairs ([], []).

Record summary := mk_summary
  { total_messages : nat;
    total_participants : nat;
    format_type_of : string;
    participant_mapping : PyData.dict string }.

Inductive result :=
| Success (dataframe : list processed_message) (s : summary)
| Failure (error : string).

Definition preprocess (L : libraries) (file_content : string)
           (anonymize : bool) : result :=
  let format_type := detect_format file_content in
  let '(messages, dates) :=
    extract_messages_and_dates file_content format_type in
  match messages with
  | [] => Failure "No messages found in the chat file"
  | _ =>
      let '(processed_messages, participants) :=
        process_all L format_type (combine messages dates) in
      match processed_messages with
      | [] => Failure "No valid messages found after preprocessing"
      | _ =>
          let participant_mapping :=
            if anonymize then anonymize_participants participants else [] in
          let df :=
            map (fun m =>
                   mk_message (timestamp m) (username m) (msg_type m)
                     (original_text m) (cleaned_text m) (language m)
                     (msg_features m)
                     (if anonymize
                      then PyData.dict_get (username m) participant_mapping
                      else Some (username m)))
                processed_messages in
          Success df
            {| total_messages := List.length df;
               total_participants := List.length participants;
               format_type_of := format_type;
               participant_mapping := participant_mapping |}
      end
  end.

End Preprocessing.

(** ** The sentiment analyzers and their ensemble *)

Module Analyzers.
Local Open Scope R_scope.

(** The dict every analyzer returns; a missing or [None] score is
    [None].  The extra keys of some analyzers ([detailed_scores],
    [subjectivity], [all_scores]) are not read by the ensemble. *)
Record SentimentResult := mk_result
  { score : option R; label : string; confidence : R }.

(** [{'score': 0.0, 'label': 'neutral', 'confidence': 0.0}] *)
Definition neutral_result : SentimentResult :=
  mk_result (Some 0) "neutral" 0.

(** A member of the pool: [BaseSentimentAnalyzer].  [analyze_sentiment]
    is [None] when the call raises. *)
Record analyzer := mk_analyzer
  { name : string;
    supported_languages : list string;
    analyze_sentiment : string -> option SentimentResult }.

Definition is_language_supported (a : analyzer) (language : string) : bool :=
  existsb (String.eqb language) (supported_languages a).

Definition preprocess_text (text : string) : string :=
  if PyStr.is_empty text then "" else PyStr.strip text.

(** The libraries behind the analyzers: whether a model loads, and what
    it answers on a text ([None]: it raises). *)
Record engines := mk_engines
  { vader_loads : bool;
    polarity_scores : string -> option R;            (* the compound score *)
    textblob_sentiment : string -> option (R * R);   (* polarity, subjectivity *)
    transformers_available : bool;
    roberta_loads : bool;
    roberta_pipeline : string -> option (list (string * R)) }.

Section Pool.
Variable E : engines.

Definition vader_analyze (text : string) : option SentimentResult :=
  if negb (vader_loads E) then None
  else
    let text := preprocess_text text in
    if PyStr.is_empty text then Some neutral_result
    else
      match polarity_scores E text with
      | Some compound_score =>
          let label :=
            if Rge_dec compound_score 0.05 then "positive"
            else if Rle_dec compound_score (-0.05) then "negative"
            else "neutral" in
          Some (mk_result (Some compound_score) label
                          (Rabs compound_score))
      | None => Some neutral_result
      end.

Definition textblob_analyze (text : string) : option SentimentResult :=
  let text := preprocess_text text in
  if PyStr.is_empty text then Some neutral_result
  else
    match textblob_sentiment E text with
    | Some (polarity, subjectivity) =>
        let label :=
          if Rgt_dec polarity 0.1 then "positive"
          else if Rlt_dec polarity (-0.1) then "negative"
          else "neutral" in
        Some (mk_result (Some polarity) label subjectivity)
    | None => Some neutral_result
    end.

Definition label_map : PyData.dict string :=
  [("POSITIVE", "positive"); ("NEGATIVE", "negative");
   ("NEUTRAL", "neutral"); ("LABEL_0", "negative");
   ("LABEL_1", "neutral"); ("LABEL_2", "positive")].

(** [max(results, key=lambda x: x['score'])]: the first of the
    highest. *)
Fixpoint max_by_score (best : string * R) (results : list (string * R))
  : string * R :=
  match results with
  | [] => best
  | x :: results' =>
      max_by_score (if Rlt_dec (snd best) (snd x) then x else best)
                   results'
  end.

Definition transformer_analyze (text : string) : option SentimentResult :=
  if negb (transformers_available E && roberta_loads E) then None
  else
    let text := preprocess_text text in
    if PyStr.is_empty text then Some neutral_result
    else
      let text :=
        if 512 <? String.length text then PyStr.take 512 text else text in
      match roberta_pipeline E text with
      | Some (x :: results) =>
          let best_result := max_by_score x results in
          let label :=
            match PyData.dict_get (fst best_result) label_map with
            | Some l => l
            | None => PyStr.lower (fst best_result)
            end in
          let confidence := snd best_result in
          let score :=
            if String.eqb label "positive" then confidence
            else if String.eqb label "negative" then - confidence
            else 0 in
          Some (mk_result (Some score) label confidence)
      | _ => Some neutral_result
      end.

Definition VADERAnalyzer : analyzer :=
  mk_analyzer "VADER" ["en"; "hinglish"] vader_analyze.
Definition TextBlobAnalyzer : analyzer :=
  mk_analyzer "TextBlob" ["en"] textblob_analyze.
Definition TransformerAnalyzer : analyzer :=
  mk_analyzer "Transformer" ["en"] transformer_analyze.

(** [MultiModelSentimentAnalyzer._initialize_analyzers]: the dict
    [self.analyzers], in insertion order. *)
Definition initialize_analyzers (use_transformers : bool)
  : PyData.dict analyzer :=
  [("vader", VADERAnalyzer); ("textblob", TextBlobAnalyzer)]
  ++ (if use_transformers && transformers_available E
      then [("roberta", TransformerAnalyzer)] else []).
End Pool.

(** [np.mean] and [np.std] (the population standard deviation) of a
    list of floats. *)
Definition np_sum (l : list R) : R := fold_right Rplus 0 l.
Definition np_mean (l : list R) : R := np_sum l / INR (List.length l).
Definition np_std (l : list R) : R :=
  let arrmean := np_mean l in
  sqrt (np_mean (map (fun x => (x - arrmean) * (x - arrmean)) l)).

(** [max(iterable, key=key)]: the first element whose key is the
    greatest; [None] (it raises) on an empty iterable. *)
Fixpoint max_by_key (key : string -> nat) (best : string)
         (l : list string) : string :=
  match l with
  | [] => best
  | x :: l' => max_by_key key (if (key best <? key x)%nat then x else best) l'
  end.

Definition py_max (key : string -> nat) (l : list string) : option string :=
  match l with
  | [] => None
  | x :: l' => Some (max_by_key key x l')
  end.

(** The dict [ensemble_sentiment], read with [.get]: a key that is
    absent is [None]. *)
Record ensemble := mk_ensemble
  { e_score : option R;
    e_label : option string;
    e_confidence : option R;
    e_model_agreement : option bool }.

Definition empty_dict : ensemble := mk_ensemble None None None None.

(** The dict of [analyze_text], without the emotion and the toxicity
    results: they are computed after the ensemble, each inside its own
    [try], and do not touch it. *)
Record results := mk_results
  { r_text : string;
    r_language : string;
    sentiment_results : PyData.dict SentimentResult;
    ensemble_sentiment : ensemble;
    error : option string }.

Definition _empty_result : results :=
  {| r_text := "";
     r_language := "unknown";
     sentiment_results := [];
     ensemble_sentiment := mk_ensemble (Some 0) (Some "neutral") (Some 0) None;
     error := None |}.

Section Ensemble.
(** The order in which a set of labels is iterated. *)
Variable set_iter : list string -> list string.

(** One turn of the loop over [self.analyzers.items()]. *)
Definition score_with (text language : string)
           (acc : PyData.dict SentimentResult * list R * list string)
           (entry : string * analyzer)
  : PyData.dict SentimentResult * list R * list string :=
  let '(sentiment_results, sentiment_scores, sentiment_labels) := acc in
  let '(name, analyzer) := entry in
  if is_language_supported analyzer language then
    match analyze_sentiment analyzer text with
    | Some result =>
        let sentiment_results :=
          PyData.dict_set name result sentiment_results in
        match score result with
        | Some s => (sentiment_results, sentiment_scores ++ [s],
                      sentiment_labels ++ [label result])
        | None => (sentiment_results, sentiment_scores, sentiment_labels)
        end
    | None => acc
    end
  else acc.

Definition analyze_text (analyzers : PyData.dict analyzer)
           (text language : string) : results :=
  if PyStr.is_empty text then _empty_result
  else
    let '(sentiment_results, sentiment_scores, sentiment_labels) :=
      fold_left (score_with text language) analyzers ([], [], []) in
    match sentiment_scores with
    | [] => mk_results text language sentiment_results empty_dict None
    | _ =>
        let ensemble_score := np_mean sentiment_scores in
        match py_max (fun l => count_occ string_dec sentiment_labels l)
                     (set_iter sentiment_labels) with
        | Some ensemble_label =>
            let ensemble_confidence := np_std sentiment_scores in
            mk_results text language sentiment_results
              (mk_ensemble
                 (Some ensemble_score)
                 (Some ensemble_label)
                 (Some (1 - Rmin ensemble_confidence 1))
                 (Some (List.length (set_iter sentiment_labels) =? 1)%nat))
              None
        | None =>
            mk_results text language sentiment_results empty_dict
              (Some "max() arg is an empty sequence")
        end
    end.
End Ensemble.

End Analyzers.

(** ** The statements of the specification, in its own words *)

Module Spec.

(** A character that has a case. *)
Definition cased (c : ascii) : bool := PyStr.isupper c || PyStr.islower c.

(** "[caps_ratio] denominator uses character count of [body_original]
    excluding case-insensitive characters": upper-case characters over
    the characters that have a case. *)
Definition caps_ratio_cased (body : string) : Q :=
  if PyStr.is_empty body then 0%Q
  else Preprocessing.int_div (PyStr.count_if PyStr.isupper body)
                             (PyStr.count_if cased body).

(** "assigns [User_01, User_02, ...] in sorted order, skipping reserved
    labels": the counter advances on the labels that are not reserved. *)
Fixpoint number_skipping (next : nat) (labels : list string)
  : PyData.dict string :=
  match labels with
  | [] => []
  | p :: labels' =>
      if Preprocessing.reserved p
      then (p, p) :: number_skipping next labels'
      else (p, ("User_" ++ PyStr.format_02d next)%string)
             :: number_skipping (S next) labels'
  end.

Definition build_map (raw_labels : list string) : PyData.dict string :=
  number_skipping 1 (PyData.sorted (PyData.set_of raw_labels)).

(** The identifier the code gives to the label at position [i] (from 0)
    of the sorted labels. *)
Definition anonymized_name (i : nat) (participant : string) : string :=
  if Preprocessing.reserved participant then participant
  else ("User_" ++ PyStr.format_02d (i + 1))%string.

(** The elements at the positions 0, 2, 4, ... of a list. *)
Fixpoint evens {A : Type} (l : list A) : list A :=
  match l with
  | [] => []
  | a :: l' => a :: match l' with [] => [] | _ :: l'' => evens l'' end
  end.

(** A pair of a chunk and a timestamp gives a row: the timestamp
    parses, the body of the chunk is not blank, and the cleaning of the
    body returns. *)
Definition accepted (L : Preprocessing.libraries) (format_type : string)
           (pair : string * string) : bool :=
  match Preprocessing.parse_datetime (snd pair) format_type with
  | None => false
  | Some _ =>
      let body := snd (Preprocessing.extract_user_and_message (fst pair)) in
      negb (PyStr.is_empty (PyStr.strip body))
      && match Preprocessing.clean_text_for_analysis L body with
         | Some _ => true
         | None => false
         end
  end.

(** What the turns of the loop of [preprocess] append and add, each
    taken from the empty state: the rows, and the users. *)
Definition kept_rows (L : Preprocessing.libraries) (format_type : string)
           (pairs : list (string * string))
  : list Preprocessing.processed_message :=
  flat_map
    (fun pair => fst (Preprocessing.process_message L format_type ([], []) pair))
    pairs.

Definition seen_users (L : Preprocessing.libraries) (format_type : string)
           (pairs : list (string * string)) : list string :=
  flat_map
    (fun pair => snd (Preprocessing.process_message L format_type ([], []) pair))
    pairs.

(** "[score > 0.1 -> positive], [score < -0.1 -> negative], else
    [neutral]" *)
Definition threshold_label (score : R) : string :=
  if Rgt_dec score 0.1 then "positive"
  else if Rlt_dec score (-0.1) then "negative"
  else "neutral".

(** "arithmetic mean of all contributing scores" *)
Definition arithmetic_mean (scores : list R) : R :=
  (fold_right Rplus 0 scores / INR (List.length scores))%R.

(** "population standard deviation": the square root of the mean of the
    squared deviations from the mean. *)
Definition population_stddev (scores : list R) : R :=
  sqrt (arithmetic_mean
          (map (fun x => Rsqr (x - arithmetic_mean scores)) scores)).

(** "the label of the scorer ordered first in pool-registration order
    among tied labels": the first label, in the order of the scorers,
    that no other label outnumbers. *)
Definition most_frequent_first (labels : list string) : option string :=
  Analyzers.py_max (fun l => count_occ string_dec labels l) labels.

(** The verdicts that contribute to the ensemble: those of the scorers
    that support the language, answer, and give a score. *)
Definition contributing (analyzers : PyData.dict Analyzers.analyzer)
           (text language : string) : list (R * string) :=
  flat_map
    (fun entry : string * Analyzers.analyzer =>
       if Analyzers.is_language_supported (snd entry) language then
         match Analyzers.analyze_sentiment (snd entry) text with
         | Some r =>
             match Analyzers.score r with
             | Some s => [(s, Analyzers.label r)]
             | None => []
             end
         | None => []
         end
       else [])
    analyzers.

(** What the language promises of the iteration of [set(l)]: every
    distinct element once, in some order. *)
Definition iterates_set (set_iter : list string -> list string) : Prop :=
  forall l, Permutation (set_iter l) (PyData.set_of l).

(** The labels and the scores of the contributing verdicts. *)
Definition contributing_scores (analyzers : PyData.dict Analyzers.analyzer)
           (text language : string) : list R :=
  map fst (contributing analyzers text language).

Definition contributing_labels (analyzers : PyData.dict Analyzers.analyzer)
           (text language : string) : list string :=
  map snd (contributing analyzers text language).

End Spec.

(** ** Inputs of the examples *)

Module Examples.

(** The line feed. *)
Definition LF : string := String (ascii_of_nat 10) EmptyString.

(** A transcript of two lines: the first has a date that is no date and
    no body, the second is a regular message. *)
Definition first_line : string := "99/99/2023, 10:30 - ".
Definition second_line : string := "12/25/2023, 10:31 - John: Hello".
Definition transcript : string := (first_line ++ LF ++ second_line)%string.

(** A transcript of two regular messages, the first one a media marker. *)
Definition media_transcript : string :=
  ("12/25/2023, 10:30 - John: <Media omitted>" ++ LF
   ++ "12/25/2023, 10:31 - Jane: ok")%string.

(** An extractor object without a method [remove_urls]; the other
    calls return. *)
Definition no_remove_urls : Preprocessing.libraries :=
  Preprocessing.mk_libraries (fun _ => None) (fun text => Some text)
                             (fun _ => Some "en").

(** Libraries that return: no URL and no emoji is found in the text,
    and the language detected is English. *)
Definition plain_libraries : Preprocessing.libraries :=
  Preprocessing.mk_libraries (fun text => Some text) (fun text => Some text)
                             (fun _ => Some "en").

(** Libraries that load and answer the same on every text: VADER the
    compound score [compound], TextBlob the polarity [polarity], the
    transformer the classes [classes]. *)
Definition constant_engines (compound polarity : R)
           (classes : list (string * R)) : Analyzers.engines :=
  Analyzers.mk_engines true (fun _ => Some compound)
    (fun _ => Some (polarity, 0.5%R))
    true true (fun _ => Some classes).

(** A text of [n] letters. *)
Fixpoint letters (n : nat) : string :=
  match n with
  | O => EmptyString
  | S n' => String "a" (letters n')
  end.

(** Two texts that differ after their first 512 characters. *)
Definition long_text_1 : string := (letters 512 ++ " one")%string.
Definition long_text_2 : string := (letters 512 ++ " two and more")%string.

(** Two iteration orders of a set: by first occurrence, and the reverse. *)
Definition first_seen (l : list string) : list string := PyData.set_of l.
Definition last_seen (l : list string) : list string := rev (PyData.set_of l).

End Examples.

(** ** More of [WhatsAppChatPreprocessor] *)

Module Validation.
Import Regex Preprocessing.

(** [message.split()]: the maximal runs of characters that are not white
    space.  [word] is the run being read. *)
Fixpoint split_ws (s : string) (word : string) : list string :=
  match s with
  | EmptyString => if PyStr.is_empty word then [] else [word]
  | String c s' =>
      if PyStr.isspace c then
        if PyStr.is_empty word then split_ws s' EmptyString
        else word :: split_ws s' EmptyString
      else split_ws s' (word ++ String c EmptyString)
  end.

(** The feature [word_count] of [extract_features]:
    [len(message.split())]. *)
Definition word_count (message : string) : nat :=
  List.length (split_ws message EmptyString).

(** The dict that [validate_chat_file] returns. *)
Record validation_result := mk_validation
  { is_valid : bool;
    format : option string;
    issues : list string;
    warnings : list string }.

Definition validate_chat_file (file_content : string) : validation_result :=
  if String.length file_content <? 100 then
    mk_validation false None
      ["File too small to be a valid chat export"] []
  else
    match first_matching patterns (PyStr.take 2000 file_content) with
    | None =>
        mk_validation false None
          ["No valid WhatsApp timestamp pattern found"] []
    | Some format_detected =>
        let messages :=
          fst (extract_messages_and_dates file_content format_detected) in
        if List.length messages <? 5 then
          mk_validation false None
            ["Too few messages found (minimum 5 required)"] []
        else
          let warnings :=
            (if (50 * 1024 * 1024 <? N.of_nat (String.length file_content))%N
             then ["Large file size may take longer to process"] else [])
            ++ (if (100000 <? N.of_nat (List.length messages))%N
                then ["Large number of messages may take longer to process"]
                else []) in
          mk_validation true (Some format_detected) [] warnings
    end.

End Validation.

(** ** The emotion and the toxicity analyzers *)

Module Detectors.
Local Open Scope R_scope.

(** What [EmotionAnalyzer.analyze_emotion] returns: on a text that is
    empty, a flat dict of the six emotions; otherwise the dict with the
    keys [emotion_scores], [dominant_emotion] and [confidence]. *)
Inductive emotion_result :=
| FlatScores (scores : PyData.dict R)
| Emotions (emotion_scores : PyData.dict R)
           (dominant_emotion : option string) (confidence : R).

Definition emotions : list string :=
  ["joy"; "sadness"; "anger"; "fear"; "surprise"; "disgust"].

Definition zero_scores : PyData.dict R := map (fun e => (e, 0)) emotions.

(** One turn of the loop over the classes of the pipeline. *)
Definition emotion_step (acc : PyData.dict R * option string * R)
           (result : string * R) : PyData.dict R * option string * R :=
  let '(emotion_scores, dominant_emotion, max_score) := acc in
  let emotion := PyStr.lower (fst result) in
  let score := snd result in
  let emotion_scores := PyData.dict_set emotion score emotion_scores in
  if Rgt_dec score max_score then (emotion_scores, Some emotion, score)
  else (emotion_scores, dominant_emotion, max_score).

(** [loads]: whether [load_model] succeeds; [pipeline]: the classes the
    model gives to a text, [None] when it raises.  The result is [None]
    when [analyze_emotion] raises. *)
Definition analyze_emotion (loads : bool)
           (pipeline : string -> option (list (string * R)))
           (text : string) : option emotion_result :=
  if negb loads then None
  else if PyStr.is_empty text then Some (FlatScores zero_scores)
  else
    let text :=
      if (512 <? String.length text)%nat then PyStr.take 512 text else text in
    match pipeline text with
    | Some results =>
        let '(emotion_scores, dominant_emotion, max_score) :=
          fold_left emotion_step results ([], None, 0) in
        Some (Emotions emotion_scores dominant_emotion max_score)
    | None => Some (Emotions zero_scores (Some "neutral") 0)
    end.

Definition toxic_words : list string :=
  ["hate"; "stupid"; "idiot"; "kill"; "die"; "death"].

(** [sum(1 for word in toxic_words if word in text_lower)] *)
Definition toxic_count (text : string) : nat :=
  List.length
    (List.filter (fun word => PyStr.contains word (PyStr.lower text))
                 toxic_words).

Definition _rule_based_toxicity (text : string) : R * bool :=
  let toxicity_score := Rmin (INR (toxic_count text) * 0.3) 1 in
  (toxicity_score, if Rgt_dec toxicity_score 0.5 then true else false).

(** [pipeline]: [None] when no model is loaded (the rule-based path);
    otherwise the label and the score the model gives to a text, [None]
    when it raises. *)
Definition analyze_toxicity
           (pipeline : option (string -> option (string * R)))
           (text : string) : R * bool :=
  if PyStr.is_empty text then (0, false)
  else
    match pipeline with
    | Some model =>
        let text :=
          if (512 <? String.length text)%nat then PyStr.take 512 text
          else text in
        match model text with
        | Some (result_label, result_score) =>
            if String.eqb result_label "TOXIC"
            then (result_score,
                  if Rgt_dec result_score 0.5 then true else false)
            else (1 - result_score, false)
        | None => (0, false)
        end
    | None => _rule_based_toxicity text
    end.

End Detectors.

(** ** The statistics of [process_whatsapp_chat] *)

Module Tasks.
Local Open Scope R_scope.

(** [d.get(k, 0)] on a dict of counts. *)
Definition count_of (k : string) (d : PyData.dict nat) : nat :=
  match PyData.dict_get k d with
  | Some v => v
  | None => 0%nat
  end.

(** [{k: v for k, v in d.items() if k != 'unknown'}] *)
Definition without_unknown (d : PyData.dict nat) : PyData.dict nat :=
  List.filter (fun kv => negb (String.eqb (fst kv) "unknown")) d.

Definition _get_dominant_language (language_counts : PyData.dict nat)
  : string :=
  match language_counts with
  | [] => "unknown"
  | _ =>
      let filtered_counts := without_unknown language_counts in
      match Analyzers.py_max (fun k => count_of k filtered_counts)
                             (map fst filtered_counts) with
      | Some language => language
      | None => "unknown"
      end
  end.

(** The loop [emotion_counts[emotion] = emotion_counts.get(emotion, 0) + 1]. *)
Definition count_emotions (emotions : list string) : PyData.dict nat :=
  fold_left
    (fun emotion_counts emotion =>
       PyData.dict_set emotion (count_of emotion emotion_counts + 1)%nat
                       emotion_counts)
    emotions [].

(** [max(emotion_counts, key=emotion_counts.get)], computed when
    [emotion_data] is not empty; [None] otherwise. *)
Definition dominant_emotion (emotion_data : list string) : option string :=
  match emotion_data with
  | [] => None
  | _ =>
      let emotion_counts := count_emotions emotion_data in
      Analyzers.py_max (fun k => count_of k emotion_counts)
                       (map fst emotion_counts)
  end.

(** [sum(1 for score in sentiment_scores if p(score))] *)
Definition count_scores (p : R -> bool) (scores : list R) : nat :=
  List.length (List.filter p scores).

(** The overall score and label of a conversation; [None] when no
    message has a score. *)
Definition overall_sentiment (sentiment_scores : list R)
  : option (R * string) :=
  match sentiment_scores with
  | [] => None
  | _ =>
      let overall_sentiment_score :=
        fold_right Rplus 0 sentiment_scores
        / INR (List.length sentiment_scores) in
      let positive_count :=
        count_scores (fun score => if Rgt_dec score 0.1 then true else false)
                     sentiment_scores in
      let negative_count :=
        count_scores (fun score => if Rlt_dec score (-0.1) then true else false)
                     sentiment_scores in
      Some (overall_sentiment_score,
            if (negative_count <? positive_count)%nat then "positive"
            else if (positive_count <? negative_count)%nat then "negative"
            else "neutral")
  end.

End Tasks.

(** ** Predicates of the statements *)

Module Facts.

(** Every character of the string is in the class. *)
Fixpoint all_chars (p : ascii -> bool) (s : string) : bool :=
  match s with
  | EmptyString => true
  | String c s' => p c && all_chars p s'
  end.

(** The first occurrences of the elements of a list, in order. *)
Fixpoint first_occurrences (l : list string) : list string :=
  match l with
  | [] => []
  | x :: l' =>
      x :: List.filter (fun y => negb (String.eqb y x)) (first_occurrences l')
  end.

(** The set that [participants.add] builds from the users, in order. *)
Definition participants_of (users : list string) : list string :=
  fold_left (fun participants user => PyData.set_add user participants)
            users [].

(** What [process_message] puts in a row. *)
Definition row_inv (L : Preprocessing.libraries)
           (m : Preprocessing.processed_message) : Prop :=
  Preprocessing.original_text m <> ""
  /\ PyStr.strip (Preprocessing.original_text m) = Preprocessing.original_text m
  /\ (Preprocessing.msg_type m = Preprocessing.system
      <-> Preprocessing.is_system_message (Preprocessing.original_text m) = true)
  /\ (Preprocessing.msg_type m = Preprocessing.system ->
      Preprocessing.username m = "System")
  /\ Strptime.valid (Preprocessing.timestamp m) = true
  /\ Preprocessing.msg_features m
     = Preprocessing.extract_features (Preprocessing.original_text m)
  /\ Preprocessing.clean_text_for_analysis L (Preprocessing.original_text m)
     = Some (Preprocessing.cleaned_text m)
  /\ Preprocessing.language m
     = match Preprocessing.msg_type m with
       | Preprocessing.text =>
           Preprocessing.detect_language L (Preprocessing.original_text m)
       | _ => "unknown"
       end.

(** The characters that [extract_user_and_message] leaves in a user
    name: [\w], [\s] and the hyphen. *)
Definition name_char (c : ascii) : bool :=
  PyStr.isword c || PyStr.isspace c || Ascii.eqb c "-".

(** The characters that are not white space. *)
Definition not_space (c : ascii) : bool := negb (PyStr.isspace c).

(** The number of characters of a list of words. *)
Fixpoint total_length (words : list string) : nat :=
  match words with
  | [] => 0
  | w :: words' => String.length w + total_length words'
  end.

(** The invariant of the loop of [analyze_emotion] over the classes
    read so far. *)
Definition emotion_inv (done : list (string * R))
           (st : PyData.dict R * option string * R) : Prop :=
  let '(_, dominant, max_score) := st in
  (0 <= max_score)%R
  /\ (forall x, In x done -> (snd x <= max_score)%R)
  /\ (dominant = None -> max_score = 0%R)
  /\ (forall e, dominant = Some e ->
        (0 < max_score)%R
        /\ exists pre l post,
            done = pre ++ (l, max_score) :: post
            /\ PyStr.lower l = e
            /\ forall x, In x pre -> (snd x < max_score)%R).

(** The backslash, and the system pattern that has one: the source
    writes it in a raw string, where [\'] keeps its backslash. *)
Definition backslash : ascii := ascii_of_nat 92.

Definition invite_link_pattern : string :=
  nth 4 Preprocessing.system_patterns EmptyString.

End Facts.

(** * Properties *)

Import PyStr PyData Regex Strptime Preprocessing.

(** ** Feature extraction: [caps_ratio] *)

Lemma count_if_le_length (p : ascii -> bool) (s : string) :
  PyStr.count_if p s <= String.length s.
Proof.
  induction s as [|c s IH]; simpl; [lia|].
  destruct (p c); lia.
Qed.

Lemma count_if_app (p : ascii -> bool) (s t : string) :
  PyStr.count_if p (s ++ t) = PyStr.count_if p s + PyStr.count_if p t.
Proof.
  induction s as [|c s IH]; simpl; [reflexivity|].
  rewrite IH. lia.
Qed.

Lemma string_length_app (s t : string) :
  String.length (s ++ t) = String.length s + String.length t.
Proof.
  induction s as [|c s IH]; simpl; [reflexivity|].
  now rewrite IH.
Qed.

Lemma Zpos_of_nat_S (n : nat) : Z.pos (Pos.of_nat (S n)) = Z.of_nat (S n).
Proof.
  rewrite <- Pos.of_nat_succ, Zpos_P_of_succ_nat. lia.
Qed.

Lemma caps_ratio_nonempty (message : string) :
  message <> "" ->
  caps_ratio (extract_features message)
  = int_div (PyStr.count_if PyStr.isupper message) (String.length message).
Proof.
  destruct message; [congruence|reflexivity].
Qed.

(** C10, as the code has it: [caps_ratio] is the number of upper-case
    characters over the number of all the characters of the body, and 0
    on the empty body.  A character without case (a numeral, a punctuation
    mark) adds nothing to the numerator and one to the denominator. *)
Theorem caps_ratio_over_all_characters :
  forall message : string,
    (message = "" -> caps_ratio (extract_features message) = 0%Q)
    /\ (message <> "" ->
        (caps_ratio (extract_features message)
         == inject_Z (Z.of_nat (PyStr.count_if PyStr.isupper message))
            / inject_Z (Z.of_nat (String.length message)))%Q)
    /\ (forall c : ascii,
          PyStr.isupper c = false ->
          caps_ratio (extract_features (message ++ String c ""))
          = int_div (PyStr.count_if PyStr.isupper message)
                    (S (String.length message)))
    /\ (0 <= caps_ratio (extract_features message) <= 1)%Q.
Proof.
  intros message. repeat split.
  - intros ->. reflexivity.
  - intros Hne. rewrite caps_ratio_nonempty by assumption.
    unfold int_div. rewrite Qmake_Qdiv.
    destruct message as [|c s]; [congruence|].
    simpl String.length. rewrite Zpos_of_nat_S. reflexivity.
  - intros c Hc. rewrite caps_ratio_nonempty by (destruct message; discriminate).
    rewrite count_if_app, string_length_app. simpl. rewrite Hc.
    f_equal; lia.
  - destruct message as [|c s]; [unfold Qle; simpl; lia|].
    rewrite caps_ratio_nonempty by discriminate.
    unfold int_div, Qle. simpl Qnum. simpl Qden. lia.
  - destruct message as [|c s]; [unfold Qle; simpl; lia|].
    rewrite caps_ratio_nonempty by discriminate.
    pose proof (count_if_le_length PyStr.isupper (String c s)) as Hle.
    unfold int_div, Qle. cbn [Qnum Qden String.length] in *.
    rewrite Zpos_of_nat_S. lia.
Qed.

Lemma caps_ratio_over_all_characters_witness :
  (caps_ratio (extract_features "Hi 5!")
   == inject_Z (Z.of_nat (PyStr.count_if PyStr.isupper "Hi 5!"))
      / inject_Z (Z.of_nat (String.length "Hi 5!")))%Q
  /\ caps_ratio (extract_features ("Hi" ++ "5")) = int_div 1 3.
Proof.
  split.
  - destruct (caps_ratio_over_all_characters "Hi 5!") as (_ & H & _).
    apply H. discriminate.
  - destruct (caps_ratio_over_all_characters "Hi") as (_ & _ & H & _).
    apply (H "5"%char). reflexivity.
Defined.

(** C10 as stated fails: on ["A1"] the code divides by the two characters
    of the body, not by the one character that has a case. *)
Lemma caps_ratio_not_over_cased_characters :
  ~ (caps_ratio (extract_features "A1") == Spec.caps_ratio_cased "A1")%Q.
Proof.
  vm_compute. discriminate.
Qed.

(** ** Sorting the set of participants *)

Lemma ascii_compare_refl (c : ascii) : Ascii.compare c c = Eq.
Proof. unfold Ascii.compare. apply N.compare_refl. Qed.

Lemma ascii_compare_lt_trans (a b c : ascii) :
  Ascii.compare a b = Lt -> Ascii.compare b c = Lt -> Ascii.compare a c = Lt.
Proof.
  unfold Ascii.compare. rewrite !N.compare_lt_iff. apply N.lt_trans.
Qed.

Lemma str_le_refl (a : string) : str_le a a.
Proof.
  unfold str_le, String.leb.
  induction a as [|c a IH]; simpl; [reflexivity|].
  now rewrite ascii_compare_refl.
Qed.

Lemma str_le_trans (a b c : string) : str_le a b -> str_le b c -> str_le a c.
Proof.
  unfold str_le, String.leb. revert b c.
  induction a as [|x a IH]; intros [|y b] [|z c]; simpl; try easy.
  destruct (Ascii.compare x y) eqn:Hxy; destruct (Ascii.compare y z) eqn:Hyz;
    try easy.
  - apply Ascii.compare_eq_iff in Hxy, Hyz. subst.
    rewrite ascii_compare_refl. apply IH.
  - apply Ascii.compare_eq_iff in Hxy. subst. now rewrite Hyz.
  - apply Ascii.compare_eq_iff in Hyz. subst. now rewrite Hxy.
  - now rewrite (ascii_compare_lt_trans _ _ _ Hxy Hyz).
Qed.

Lemma str_le_antisym (a b : string) : str_le a b -> str_le b a -> a = b.
Proof. apply String.leb_antisym. Qed.

Lemma str_le_total (a b : string) : str_le a b \/ str_le b a.
Proof. apply String.leb_total. Qed.

Lemma insert_sorted_In (x a : string) (l : list string) :
  In x (insert_sorted a l) <-> x = a \/ In x l.
Proof.
  induction l as [|y l IH]; simpl.
  - intuition.
  - destruct (String.leb a y); simpl; rewrite ?IH; intuition.
Qed.

Lemma sorted_In (x : string) (l : list string) : In x (sorted l) <-> In x l.
Proof.
  induction l as [|a l IH]; simpl; [reflexivity|].
  rewrite insert_sorted_In, IH. intuition.
Qed.

Lemma insert_sorted_StronglySorted (a : string) (l : list string) :
  StronglySorted str_le l -> StronglySorted str_le (insert_sorted a l).
Proof.
  induction 1 as [|y l Hl IH Hy]; simpl.
  - repeat constructor.
  - destruct (String.leb a y) eqn:Hay.
    + constructor; [constructor; assumption|].
      constructor; [exact Hay|].
      rewrite Forall_forall in *. intros z Hz.
      apply (str_le_trans a y z); auto.
    + constructor; [assumption|].
      rewrite Forall_forall in *. intros z Hz.
      apply insert_sorted_In in Hz. destruct Hz as [->|Hz]; auto.
      destruct (str_le_total a y) as [H|H]; [|exact H].
      unfold str_le in H. congruence.
Qed.

Lemma sorted_StronglySorted (l : list string) : StronglySorted str_le (sorted l).
Proof.
  induction l as [|a l IH]; simpl; [constructor|].
  now apply insert_sorted_StronglySorted.
Qed.

Lemma insert_sorted_NoDup (a : string) (l : list string) :
  ~ In a l -> NoDup l -> NoDup (insert_sorted a l).
Proof.
  induction l as [|y l IH]; simpl; intros Hin Hnd.
  - repeat constructor. easy.
  - destruct (String.leb a y).
    + constructor; [simpl; tauto|assumption].
    + inversion Hnd as [|? ? Hy Hl]; subst.
      constructor; [|apply IH; tauto].
      rewrite insert_sorted_In. intros [->|H]; tauto.
Qed.

Lemma sorted_NoDup (l : list string) : NoDup l -> NoDup (sorted l).
Proof.
  induction 1 as [|a l Ha Hl IH]; simpl; [constructor|].
  apply insert_sorted_NoDup; [|assumption].
  now rewrite sorted_In.
Qed.

(** Two sorted lists without duplicates that have the same elements are
    the same list. *)
Lemma sorted_unique (l1 : list string) :
  forall l2,
    StronglySorted str_le l1 -> StronglySorted str_le l2 ->
    NoDup l1 -> NoDup l2 ->
    (forall x, In x l1 <-> In x l2) ->
    l1 = l2.
Proof.
  induction l1 as [|a l1 IH]; intros [|b l2] S1 S2 N1 N2 Hin.
  - reflexivity.
  - exfalso. apply (Hin b). now left.
  - exfalso. apply (Hin a). now left.
  - inversion S1 as [|? ? S1' F1]; inversion S2 as [|? ? S2' F2]; subst.
    inversion N1 as [|? ? Ha N1']; inversion N2 as [|? ? Hb N2']; subst.
    rewrite Forall_forall in F1, F2.
    assert (a = b) as ->.
    { assert (Hab : str_le a b).
      { destruct (proj2 (Hin b) (or_introl eq_refl)) as [->|H];
          [apply str_le_refl|now apply F1]. }
      assert (Hba : str_le b a).
      { destruct (proj1 (Hin a) (or_introl eq_refl)) as [->|H];
          [apply str_le_refl|now apply F2]. }
      now apply str_le_antisym. }
    f_equal. apply IH; auto.
    intros x. split; intros Hx.
    + destruct (proj1 (Hin x) (or_intror Hx)) as [->|H]; tauto.
    + destruct (proj2 (Hin x) (or_intror Hx)) as [->|H]; tauto.
Qed.

Lemma sorted_set_of_ext (l1 l2 : list string) :
  (forall x, In x l1 <-> In x l2) ->
  sorted (set_of l1) = sorted (set_of l2).
Proof.
  intros H. apply sorted_unique.
  - apply sorted_StronglySorted.
  - apply sorted_StronglySorted.
  - apply sorted_NoDup, NoDup_nodup.
  - apply sorted_NoDup, NoDup_nodup.
  - intros x. unfold set_of. rewrite !sorted_In, !nodup_In. apply H.
Qed.

(** The order in which the set is iterated does not matter to [sorted]. *)
Lemma sorted_any_iteration_order (l l' : list string) :
  Permutation l' (set_of l) -> sorted l' = sorted (set_of l).
Proof.
  intros HP. apply sorted_unique.
  - apply sorted_StronglySorted.
  - apply sorted_StronglySorted.
  - apply sorted_NoDup.
    apply (Permutation_NoDup (Permutation_sym HP)), NoDup_nodup.
  - apply sorted_NoDup, NoDup_nodup.
  - intros x. rewrite !sorted_In. split; intros Hx.
    + now apply (Permutation_in _ HP).
    + now apply (Permutation_in _ (Permutation_sym HP)).
Qed.

(** ** Anonymization *)

(** C7: two lists of raw labels with the same set of labels get the same
    mapping from [anonymize_participants], whatever the order and the
    repetitions of the labels. *)
Theorem anonymize_participants_stable :
  forall participants1 participants2 : list string,
    (forall p, In p participants1 <-> In p participants2) ->
    anonymize_participants participants1 = anonymize_participants participants2.
Proof.
  intros l1 l2 H. unfold anonymize_participants.
  now rewrite (sorted_set_of_ext l1 l2 H).
Qed.

Lemma anonymize_participants_stable_witness :
  anonymize_participants ["Zed"; "Alice"; "Zed"; "Bob"]
  = anonymize_participants ["Bob"; "Zed"; "Alice"; "Alice"].
Proof.
  apply (anonymize_participants_stable
           ["Zed"; "Alice"; "Zed"; "Bob"] ["Bob"; "Zed"; "Alice"; "Alice"]).
  intros p. simpl. tauto.
Defined.

Lemma dict_set_fresh {V : Type} (k : string) (v : V) (d : dict V) :
  ~ In k (map fst d) -> dict_set k v d = d ++ [(k, v)].
Proof.
  induction d as [|[k' v'] d IH]; simpl; intros Hk; [reflexivity|].
  destruct (String.eqb_spec k k') as [->|Hne]; [tauto|].
  rewrite IH by tauto. reflexivity.
Qed.

Lemma dict_get_nth {V : Type} (d : dict V) :
  NoDup (map fst d) ->
  forall i k v, nth_error d i = Some (k, v) -> dict_get k d = Some v.
Proof.
  induction d as [|[k' v'] d IH]; intros Hnd i k v Hi.
  - destruct i; discriminate.
  - simpl in Hnd. inversion Hnd as [|? ? Hk' Hd]; subst.
    destruct i as [|i]; simpl in *.
    + injection Hi as -> ->. now rewrite String.eqb_refl.
    + destruct (String.eqb_spec k k') as [->|Hne]; [|now apply (IH Hd i)].
      exfalso. apply Hk'. apply nth_error_In in Hi.
      now apply (in_map fst) in Hi.
Qed.

Lemma anonymize_fold (ps : list (nat * string)) :
  forall acc : dict string,
    NoDup (map snd ps) ->
    (forall p, In p (map snd ps) -> ~ In p (map fst acc)) ->
    fold_left
      (fun anonymized '(i, participant) =>
         if reserved participant
         then dict_set participant participant anonymized
         else dict_set participant
                ("User_" ++ PyStr.format_02d (i + 1))%string anonymized)
      ps acc
    = acc ++ map (fun ip => (snd ip, Spec.anonymized_name (fst ip) (snd ip))) ps.
Proof.
  induction ps as [|[i p] ps IH]; intros acc Hnd Hfresh;
    cbn [fold_left map fst snd].
  - now rewrite app_nil_r.
  - cbn [map snd] in Hnd, Hfresh. inversion Hnd as [|? ? Hp Hps]; subst.
    assert (Hstep :
              (if reserved p then dict_set p p acc
               else dict_set p ("User_" ++ PyStr.format_02d (i + 1))%string acc)
              = acc ++ [(p, Spec.anonymized_name i p)]).
    { unfold Spec.anonymized_name.
      destruct (reserved p); apply dict_set_fresh, Hfresh; now left. }
    rewrite Hstep, IH; [now rewrite <- app_assoc|assumption|].
    intros q Hq. rewrite map_app, in_app_iff. simpl.
    intros [H|[<-|[]]]; [|contradiction].
    apply (Hfresh q); [now right|assumption].
Qed.

Lemma enumerate_snd {A : Type} (l : list A) : map snd (enumerate l) = l.
Proof.
  unfold enumerate. generalize 0 as start.
  induction l as [|a l IH]; intros start; simpl; [reflexivity|].
  now rewrite IH.
Qed.

Lemma enumerate_nth {A : Type} (l : list A) (i : nat) (a : A) :
  nth_error l i = Some a -> nth_error (enumerate l) i = Some (i, a).
Proof.
  unfold enumerate.
  assert (H : forall start,
             nth_error l i = Some a ->
             nth_error (combine (seq start (List.length l)) l) i
             = Some (start + i, a)).
  { revert i. induction l as [|b l IH]; intros [|i] start Hi;
      simpl in *; try discriminate.
    - injection Hi as ->. now rewrite Nat.add_0_r.
    - rewrite (IH i (S start) Hi). f_equal. f_equal. lia. }
  apply (H 0).
Qed.

Lemma anonymize_participants_map (participants : list string) :
  anonymize_participants participants
  = map (fun ip => (snd ip, Spec.anonymized_name (fst ip) (snd ip)))
        (enumerate (sorted (set_of participants))).
Proof.
  unfold anonymize_participants.
  rewrite anonymize_fold; [reflexivity| |intros p _ []].
  rewrite enumerate_snd. apply sorted_NoDup, NoDup_nodup.
Qed.

Lemma anonymize_participants_keys (participants : list string) :
  map fst (anonymize_participants participants)
  = sorted (set_of participants).
Proof.
  rewrite anonymize_participants_map, map_map. simpl.
  apply enumerate_snd.
Qed.

(** C8, as the code has it: the keys of the mapping are the distinct
    labels in ascending order; a reserved label (compared without case)
    is mapped to itself; a label that is not reserved is mapped to
    [User_NN], where [NN] is its position, from 1, among all the sorted
    labels, the reserved ones included. *)
Theorem anonymize_participants_numbering :
  forall participants : list string,
    let labels := sorted (set_of participants) in
    StronglySorted str_le labels
    /\ NoDup labels
    /\ (forall p, In p labels <-> In p participants)
    /\ map fst (anonymize_participants participants) = labels
    /\ reserved "System" = true
    /\ reserved "Group Notification" = true
    /\ (forall i p,
          nth_error labels i = Some p ->
          dict_get p (anonymize_participants participants)
          = Some (if reserved p then p
                  else ("User_" ++ PyStr.format_02d (i + 1))%string)).
Proof.
  intros participants labels. subst labels.
  split; [apply sorted_StronglySorted|].
  split; [apply sorted_NoDup, NoDup_nodup|].
  split; [intros p; unfold set_of; now rewrite sorted_In, nodup_In|].
  split; [apply anonymize_participants_keys|].
  split; [reflexivity|].
  split; [reflexivity|].
  intros i p Hi.
  apply (dict_get_nth (anonymize_participants participants)) with (i := i).
  - rewrite anonymize_participants_keys. apply sorted_NoDup, NoDup_nodup.
  - rewrite anonymize_participants_map.
    rewrite nth_error_map, (enumerate_nth _ i p Hi). reflexivity.
Qed.

Lemma anonymize_participants_numbering_witness :
  dict_get "Zed" (anonymize_participants ["Zed"; "System"; "Alice"])
  = Some "User_03"
  /\ dict_get "System" (anonymize_participants ["Zed"; "System"; "Alice"])
     = Some "System".
Proof.
  destruct (anonymize_participants_numbering ["Zed"; "System"; "Alice"])
    as (_ & _ & _ & _ & _ & _ & H).
  split.
  - apply (H 2 "Zed"). reflexivity.
  - apply (H 1 "System"). reflexivity.
Defined.

(** C8 as stated fails: a reserved label takes a number, so the labels
    after it are not numbered consecutively.  With the participants
    Alice, System and Zed, Zed is [User_03], not [User_02]. *)
Lemma anonymize_participants_numbers_reserved :
  anonymize_participants ["Alice"; "System"; "Zed"]
  = [("Alice", "User_01"); ("System", "System"); ("Zed", "User_03")]
  /\ Spec.build_map ["Alice"; "System"; "Zed"]
     = [("Alice", "User_01"); ("System", "System"); ("Zed", "User_02")]
  /\ anonymize_participants ["Alice"; "System"; "Zed"]
     <> Spec.build_map ["Alice"; "System"; "Zed"].
Proof.
  split; [reflexivity|]. split; [reflexivity|].
  vm_compute. discriminate.
Qed.

(** ** Splitting the transcript *)

Lemma evens_cons {A : Type} (a : A) (l : list A) :
  Spec.evens (a :: l) = a :: Spec.evens (tl l).
Proof. destruct l; reflexivity. Qed.

Lemma split_from_length (p : pattern) (s : string) :
  forall skip chunk,
    List.length (split_from p s skip chunk)
    = 2 * List.length (findall_from p s skip) + 1.
Proof.
  induction s as [|c s IH]; intros skip chunk; simpl; [reflexivity|].
  destruct skip as [|k]; [|apply IH].
  destruct (match_at p (String c s)) as [[g n]|]; simpl; [|apply IH].
  rewrite IH. lia.
Qed.

(** The list that [re.split] returns has the timestamps of [re.findall]
    at its odd positions: the pattern has a capturing group. *)
Lemma split_from_evens (p : pattern) (s : string) :
  forall skip chunk,
    Spec.evens (tl (split_from p s skip chunk)) = findall_from p s skip.
Proof.
  induction s as [|c s IH]; intros skip chunk; simpl; [reflexivity|].
  destruct skip as [|k]; [|apply IH].
  destruct (match_at p (String c s)) as [[g n]|]; [|apply IH].
  cbn [tl]. rewrite evens_cons. f_equal. apply IH.
Qed.

Lemma split_tail_length (p : pattern) (s : string) :
  List.length (tl (split p s)) = 2 * List.length (findall p s).
Proof.
  unfold split, findall.
  pose proof (split_from_length p s 0 "") as H.
  destruct (split_from p s 0 "") as [|x l]; simpl in *; lia.
Qed.

(** C9: the two lists of [extract_messages_and_dates] have the same
    length, the smaller of the lengths of what [re.split] (without its
    first element) and [re.findall] return, and each is the beginning of
    its list; the function returns for every text and every format. *)
Theorem extract_messages_and_dates_equal_length :
  forall text format_type : string,
    let split_result := tl (split (pattern_for format_type) text) in
    let found := findall (pattern_for format_type) text in
    let shorter := Nat.min (List.length split_result) (List.length found) in
    let messages := fst (extract_messages_and_dates text format_type) in
    let dates := snd (extract_messages_and_dates text format_type) in
    List.length messages = List.length dates
    /\ List.length messages = shorter
    /\ messages = firstn shorter split_result
    /\ dates = firstn shorter found
    /\ (exists excess, split_result = messages ++ excess)
    /\ (exists excess, found = dates ++ excess).
Proof.
  intros text format_type. cbv zeta.
  unfold extract_messages_and_dates. cbn [fst snd].
  set (sr := tl (split (pattern_for format_type) text)).
  set (fd := findall (pattern_for format_type) text).
  rewrite !length_firstn.
  repeat split; try lia.
  - exists (skipn (Nat.min (List.length sr) (List.length fd)) sr).
    now rewrite firstn_skipn.
  - exists (skipn (Nat.min (List.length sr) (List.length fd)) fd).
    now rewrite firstn_skipn.
Qed.

(** The timestamps are the shorter list, so no timestamp is dropped, and
    the "messages" kept are the first half of the split result: the
    timestamps themselves at the positions 0, 2, 4, ... *)
Lemma extract_messages_and_dates_interleaved (text format_type : string) :
  let messages := fst (extract_messages_and_dates text format_type) in
  let dates := snd (extract_messages_and_dates text format_type) in
  dates = findall (pattern_for format_type) text
  /\ List.length messages = List.length dates
  /\ Spec.evens (tl (split (pattern_for format_type) text)) = dates.
Proof.
  cbv zeta. unfold extract_messages_and_dates. cbn [fst snd].
  rewrite split_tail_length.
  replace (Nat.min (2 * List.length (findall (pattern_for format_type) text))
                   (List.length (findall (pattern_for format_type) text)))
    with (List.length (findall (pattern_for format_type) text)) by lia.
  rewrite firstn_all. repeat split.
  - rewrite length_firstn, split_tail_length. lia.
  - apply split_from_evens.
Qed.

(** ** Classifying the message *)

Lemma prefix_lower (p s : string) :
  String.prefix p s = true ->
  String.prefix (PyStr.lower p) (PyStr.lower s) = true.
Proof.
  revert s. induction p as [|a p IH]; intros [|b s]; simpl; try easy.
  destruct (ascii_dec a b) as [->|]; [|discriminate].
  intros H. destruct (ascii_dec (lower_char b) (lower_char b)); [|congruence].
  now apply IH.
Qed.

Lemma contains_lower (p s : string) :
  PyStr.contains p s = true ->
  PyStr.contains (PyStr.lower p) (PyStr.lower s) = true.
Proof.
  induction s as [|c s IH]; simpl; rewrite !orb_true_iff.
  - intros [H|H]; [|discriminate]. left. now apply (prefix_lower p "").
  - intros [H|H]; [left; now apply (prefix_lower p (String c s))|].
    right. now apply IH.
Qed.

(** A body that contains the media marker is a system message: the
    marker is one of [system_patterns], which are tried first. *)
Lemma media_marker_never_media (user body : string) :
  PyStr.contains "<Media omitted>" body = true ->
  classify user body = (system, "System").
Proof.
  intros H. unfold classify.
  assert (Hsys : is_system_message body = true); [|now rewrite Hsys].
  unfold is_system_message. apply existsb_exists.
  exists "<Media omitted>". split.
  - unfold system_patterns. simpl. tauto.
  - now apply contains_lower.
Qed.

(** ** The ensemble *)

Import Analyzers.

Lemma fold_score_with (text language : string)
      (analyzers : dict analyzer) :
  forall res sc lb,
  exists res',
    fold_left (score_with text language) analyzers (res, sc, lb)
    = (res',
       sc ++ Spec.contributing_scores analyzers text language,
       lb ++ Spec.contributing_labels analyzers text language).
Proof.
  unfold Spec.contributing_scores, Spec.contributing_labels.
  induction analyzers as [|[n a] analyzers IH]; intros res sc lb.
  - exists res. simpl. now rewrite !app_nil_r.
  - cbn [fold_left Spec.contributing flat_map snd]. unfold score_with at 2.
    destruct (is_language_supported a language).
    + destruct (analyze_sentiment a text) as [r|].
      * destruct (score r) as [s0|].
        -- destruct (IH (dict_set n r res) (sc ++ [s0]) (lb ++ [label r]))
             as [res' Hres].
           exists res'. rewrite Hres, !map_app, <- !app_assoc. reflexivity.
        -- destruct (IH (dict_set n r res) sc lb) as [res' Hres].
           exists res'. rewrite Hres. reflexivity.
      * destruct (IH res sc lb) as [res' Hres].
        exists res'. rewrite Hres. reflexivity.
    + destruct (IH res sc lb) as [res' Hres].
      exists res'. rewrite Hres. reflexivity.
Qed.

(** [analyze_text] on a text that is not empty, in terms of the
    contributing verdicts. *)
Lemma analyze_text_unfold (set_iter : list string -> list string)
      (analyzers : dict analyzer) (text language : string) :
  PyStr.is_empty text = false ->
  exists res,
    analyze_text set_iter analyzers text language
    = let scores := Spec.contributing_scores analyzers text language in
      let labels := Spec.contributing_labels analyzers text language in
      match scores with
      | [] => mk_results text language res empty_dict None
      | _ =>
          match py_max (fun l => count_occ string_dec labels l)
                       (set_iter labels) with
          | Some ensemble_label =>
              mk_results text language res
                (mk_ensemble (Some (np_mean scores)) (Some ensemble_label)
                   (Some (1 - Rmin (np_std scores) 1)%R)
                   (Some (List.length (set_iter labels) =? 1)))
                None
          | None =>
              mk_results text language res empty_dict
                (Some "max() arg is an empty sequence")
          end
      end.
Proof.
  intros Hne. unfold analyze_text. rewrite Hne.
  destruct (fold_score_with text language analyzers [] [] []) as [res Hres].
  unfold dict in *. rewrite Hres. cbn [app]. exists res. reflexivity.
Qed.

Lemma contributing_lengths (analyzers : dict analyzer) (text language : string) :
  List.length (Spec.contributing_scores analyzers text language)
  = List.length (Spec.contributing_labels analyzers text language).
Proof.
  unfold Spec.contributing_scores, Spec.contributing_labels.
  now rewrite !length_map.
Qed.

(** [max] returns the first of the elements whose key is the greatest. *)
Lemma max_by_key_first (key : string -> nat) (l : list string) :
  forall best,
  exists pre post,
    best :: l = pre ++ max_by_key key best l :: post
    /\ (forall y, In y pre -> key y < key (max_by_key key best l))
    /\ (forall y, In y post -> key y <= key (max_by_key key best l)).
Proof.
  induction l as [|x l IH]; intros best.
  - exists [], []. simpl. repeat split; intros y [].
  - cbn [max_by_key]. destruct (Nat.ltb_spec (key best) (key x)) as [Hlt|Hge].
    + destruct (IH x) as (pre & post & Heq & Hpre & Hpost).
      remember (max_by_key key x l) as r eqn:Hr. clear Hr.
      assert (Hx : key x <= key r).
      { assert (Hin : In x (pre ++ r :: post)) by (rewrite <- Heq; now left).
        apply in_app_iff in Hin. destruct Hin as [H|[H|H]].
        - apply Nat.lt_le_incl. now apply Hpre.
        - rewrite H. lia.
        - now apply Hpost. }
      exists (best :: pre), post. repeat split.
      * simpl. now rewrite Heq.
      * intros y [<-|Hy]; [lia|now apply Hpre].
      * assumption.
    + destruct (IH best) as (pre & post & Heq & Hpre & Hpost).
      remember (max_by_key key best l) as r eqn:Hr. clear Hr.
      destruct pre as [|b pre]; simpl in Heq; injection Heq as Hb Hl.
      * exists [], (x :: post). repeat split.
        -- simpl. now rewrite <- Hb, Hl.
        -- intros y [].
        -- intros y [<-|Hy]; [rewrite <- Hb; lia|now apply Hpost].
      * subst b. exists (best :: x :: pre), post. repeat split.
        -- simpl. now rewrite Hl.
        -- assert (Hbest : key best < key r) by (apply Hpre; now left).
           intros y [<-|[<-|Hy]]; [assumption|lia|apply Hpre; now right].
        -- assumption.
Qed.

Lemma py_max_first (key : string -> nat) (l : list string) :
  l <> [] ->
  exists r pre post,
    py_max key l = Some r
    /\ l = pre ++ r :: post
    /\ (forall y, In y pre -> key y < key r)
    /\ (forall y, In y post -> key y <= key r).
Proof.
  destruct l as [|x l]; [congruence|]. intros _.
  destruct (max_by_key_first key l x) as (pre & post & H).
  exists (max_by_key key x l), pre, post. split; [reflexivity|exact H].
Qed.

Lemma contributing_nonempty (analyzers : dict analyzer)
      (text language : string) :
  Spec.contributing analyzers text language <> [] ->
  Spec.contributing_scores analyzers text language <> []
  /\ Spec.contributing_labels analyzers text language <> [].
Proof.
  unfold Spec.contributing_scores, Spec.contributing_labels.
  destruct (Spec.contributing analyzers text language); [congruence|].
  intros _. split; discriminate.
Qed.

Section SetIteration.
Variable set_iter : list string -> list string.
Hypothesis set_iter_ok : Spec.iterates_set set_iter.

Lemma iterates_set_nonempty (l : list string) : l <> [] -> set_iter l <> [].
Proof.
  intros Hl Hnil. pose proof (set_iter_ok l) as Hset. rewrite Hnil in Hset.
  apply Permutation_nil in Hset.
  destruct l as [|a l]; [congruence|].
  assert (Hin : In a (set_of (a :: l))) by (apply nodup_In; now left).
  rewrite Hset in Hin. destruct Hin.
Qed.

Lemma iterates_set_In (l : list string) (x : string) :
  In x (set_iter l) <-> In x l.
Proof.
  pose proof (set_iter_ok l) as Hset. unfold set_of in Hset.
  rewrite <- (nodup_In string_dec l x). split; intros H.
  - now apply (Permutation_in _ Hset).
  - now apply (Permutation_in _ (Permutation_sym Hset)).
Qed.

(** The label elected on a list of labels that is not empty. *)
Lemma elected_label (labels : list string) :
  labels <> [] ->
  exists l pre post,
    py_max (fun l => count_occ string_dec labels l) (set_iter labels) = Some l
    /\ In l labels
    /\ (forall l', count_occ string_dec labels l'
                   <= count_occ string_dec labels l)
    /\ set_iter labels = pre ++ l :: post
    /\ (forall y, In y pre ->
                  count_occ string_dec labels y
                  < count_occ string_dec labels l).
Proof.
  intros Hne.
  destruct (py_max_first (fun l => count_occ string_dec labels l)
              (set_iter labels) (iterates_set_nonempty labels Hne))
    as (r & pre & post & Hmax & Heq & Hpre & Hpost).
  exists r, pre, post.
  assert (Hr : In r (set_iter labels)) by (rewrite Heq; apply in_elt).
  split; [exact Hmax|]. split; [now apply iterates_set_In|].
  split; [|split; assumption].
  intros l'. destruct (in_dec string_dec l' labels) as [Hin|Hnin].
  - apply iterates_set_In in Hin.
    rewrite Heq in Hin. apply in_app_iff in Hin.
    destruct Hin as [H|[H|H]].
    + apply Nat.lt_le_incl. now apply Hpre.
    + rewrite H. lia.
    + now apply Hpost.
  - apply (count_occ_not_In string_dec) in Hnin. rewrite Hnin. lia.
Qed.

(** [analyze_text] when some scorer contributes. *)
Lemma analyze_text_contributing (analyzers : dict analyzer)
      (text language : string) :
  PyStr.is_empty text = false ->
  Spec.contributing analyzers text language <> [] ->
  let scores := Spec.contributing_scores analyzers text language in
  let labels := Spec.contributing_labels analyzers text language in
  exists res l,
    py_max (fun l => count_occ string_dec labels l) (set_iter labels) = Some l
    /\ analyze_text set_iter analyzers text language
       = mk_results text language res
           (mk_ensemble (Some (np_mean scores)) (Some l)
              (Some (1 - Rmin (np_std scores) 1)%R)
              (Some (List.length (set_iter labels) =? 1)))
           None.
Proof.
  intros Hne Hc. cbv zeta.
  destruct (contributing_nonempty _ _ _ Hc) as [Hs Hl].
  destruct (analyze_text_unfold set_iter analyzers text language Hne)
    as [res Hres].
  destruct (elected_label _ Hl) as (l & _ & _ & Hmax & _).
  exists res, l. split; [exact Hmax|].
  rewrite Hres. cbv zeta. rewrite Hmax.
  destruct (Spec.contributing_scores analyzers text language);
    [congruence|reflexivity].
Qed.

End SetIteration.

Ltac decide_reals :=
  repeat match goal with
    | |- context [Rge_dec ?a ?b] => destruct (Rge_dec a b); try (exfalso; lra)
    | |- context [Rgt_dec ?a ?b] => destruct (Rgt_dec a b); try (exfalso; lra)
    | |- context [Rle_dec ?a ?b] => destruct (Rle_dec a b); try (exfalso; lra)
    | |- context [Rlt_dec ?a ?b] => destruct (Rlt_dec a b); try (exfalso; lra)
    end.

Lemma np_mean_arithmetic_mean (scores : list R) :
  np_mean scores = Spec.arithmetic_mean scores.
Proof. reflexivity. Qed.

Lemma np_std_population_stddev (scores : list R) :
  np_std scores = Spec.population_stddev scores.
Proof.
  unfold np_std, Spec.population_stddev. cbv zeta.
  rewrite !np_mean_arithmetic_mean. do 2 f_equal.
Qed.

(** C5: when at least one scorer contributes, the score of the ensemble
    is the arithmetic mean of the contributing scores, and its confidence
    is 1 minus the smaller of their population standard deviation and 1. *)
Theorem ensemble_score_and_confidence :
  forall (set_iter : list string -> list string)
         (analyzers : dict analyzer) (text language : string),
    Spec.iterates_set set_iter ->
    PyStr.is_empty text = false ->
    Spec.contributing analyzers text language <> [] ->
    let scores := Spec.contributing_scores analyzers text language in
    let fused := ensemble_sentiment
                   (analyze_text set_iter analyzers text language) in
    e_score fused = Some (Spec.arithmetic_mean scores)
    /\ e_confidence fused
       = Some (1 - Rmin (Spec.population_stddev scores) 1)%R.
Proof.
  intros set_iter analyzers text language Hset Hne Hc. cbv zeta.
  destruct (analyze_text_contributing set_iter Hset analyzers text language
              Hne Hc) as (res & l & _ & ->).
  cbn [ensemble_sentiment e_score e_confidence].
  now rewrite np_std_population_stddev.
Qed.

(** The confidence of the ensemble lies between 0 and 1. *)
Lemma ensemble_confidence_bounds (scores : list R) :
  (0 <= 1 - Rmin (np_std scores) 1 <= 1)%R.
Proof.
  assert (H0 : (0 <= np_std scores)%R) by apply sqrt_pos.
  unfold Rmin. destruct (Rle_dec (np_std scores) 1); lra.
Qed.

Lemma example_contributing (compound polarity : R) :
  (compound >= 0.05)%R -> (polarity < -0.1)%R ->
  Spec.contributing
    (initialize_analyzers (Examples.constant_engines compound polarity [])
                          false)
    "hm" "en"
  = [(compound, "positive"); (polarity, "negative")].
Proof.
  intros Hc Hp. unfold Spec.contributing, initialize_analyzers.
  simpl. unfold vader_analyze, textblob_analyze. simpl.
  decide_reals. reflexivity.
Qed.

Lemma first_seen_iterates_set : Spec.iterates_set Examples.first_seen.
Proof. intros l. apply Permutation_refl. Qed.

Lemma last_seen_iterates_set : Spec.iterates_set Examples.last_seen.
Proof. intros l. apply Permutation_sym, Permutation_rev. Qed.

Lemma ensemble_score_and_confidence_witness :
  let analyzers :=
    initialize_analyzers (Examples.constant_engines 0.5 (-0.5) []) false in
  let fused := ensemble_sentiment
                 (analyze_text Examples.first_seen analyzers "hm" "en") in
  e_score fused = Some (Spec.arithmetic_mean [0.5; -0.5]%R)
  /\ e_confidence fused
     = Some (1 - Rmin (Spec.population_stddev [0.5; -0.5]%R) 1)%R.
Proof.
  cbv zeta.
  assert (Hc : Spec.contributing
                 (initialize_analyzers
                    (Examples.constant_engines 0.5 (-0.5) []) false)
                 "hm" "en"
               = [(0.5, "positive"); (-0.5, "negative")]%R)
    by (apply example_contributing; lra).
  pose proof (ensemble_score_and_confidence Examples.first_seen
                (initialize_analyzers
                   (Examples.constant_engines 0.5 (-0.5) []) false)
                "hm" "en" first_seen_iterates_set eq_refl) as H.
  unfold Spec.contributing_scores in H. rewrite Hc in H.
  apply H. discriminate.
Defined.

(** C6, as the code has it: when at least one scorer contributes, the
    label of the ensemble is one of the contributing labels, no label
    occurs more often among them, and of the labels that occur as often it
    is the one that comes first when the set of the labels is iterated. *)
Theorem ensemble_label_most_frequent :
  forall (set_iter : list string -> list string)
         (analyzers : dict analyzer) (text language : string),
    Spec.iterates_set set_iter ->
    PyStr.is_empty text = false ->
    Spec.contributing analyzers text language <> [] ->
    let labels := Spec.contributing_labels analyzers text language in
    let fused := ensemble_sentiment
                   (analyze_text set_iter analyzers text language) in
    exists l pre post,
      e_label fused = Some l
      /\ In l labels
      /\ (forall l', count_occ string_dec labels l'
                     <= count_occ string_dec labels l)
      /\ set_iter labels = pre ++ l :: post
      /\ (forall l', In l' pre ->
                     count_occ string_dec labels l'
                     < count_occ string_dec labels l).
Proof.
  intros set_iter analyzers text language Hset Hne Hc. cbv zeta.
  destruct (contributing_nonempty _ _ _ Hc) as [_ Hl].
  destruct (elected_label set_iter Hset _ Hl)
    as (l & pre & post & Hmax & Hin & Hmost & Heq & Hpre).
  destruct (analyze_text_contributing set_iter Hset analyzers text language
              Hne Hc) as (res & l0 & Hmax0 & ->).
  rewrite Hmax in Hmax0. injection Hmax0 as <-.
  exists l, pre, post. cbn [ensemble_sentiment e_label]. auto.
Qed.

Lemma ensemble_label_most_frequent_witness :
  let analyzers :=
    initialize_analyzers (Examples.constant_engines 0.5 (-0.5) []) false in
  exists l,
    e_label (ensemble_sentiment
               (analyze_text Examples.first_seen analyzers "hm" "en"))
    = Some l
    /\ In l ["positive"; "negative"].
Proof.
  cbv zeta.
  assert (Hc : Spec.contributing
                 (initialize_analyzers
                    (Examples.constant_engines 0.5 (-0.5) []) false)
                 "hm" "en"
               = [(0.5, "positive"); (-0.5, "negative")]%R)
    by (apply example_contributing; lra).
  pose proof (ensemble_label_most_frequent Examples.first_seen
                (initialize_analyzers
                   (Examples.constant_engines 0.5 (-0.5) []) false)
                "hm" "en" first_seen_iterates_set eq_refl) as H.
  unfold Spec.contributing_labels in H. rewrite Hc in H.
  destruct H as (l & _ & _ & Hl & Hin & _); [discriminate|].
  exists l. split; assumption.
Defined.

(** C6 as stated fails on ties: VADER, registered first, says positive,
    TextBlob says negative, and a set that iterates ["negative"] first
    makes the ensemble negative. *)
Lemma ensemble_tie_not_by_registration :
  let analyzers :=
    initialize_analyzers (Examples.constant_engines 0.5 (-0.5) []) false in
  Spec.iterates_set Examples.last_seen
  /\ Spec.contributing_labels analyzers "hm" "en" = ["positive"; "negative"]
  /\ Spec.most_frequent_first ["positive"; "negative"] = Some "positive"
  /\ e_label (ensemble_sentiment
                (analyze_text Examples.last_seen analyzers "hm" "en"))
     = Some "negative".
Proof.
  cbv zeta.
  assert (Hc : Spec.contributing
                 (initialize_analyzers
                    (Examples.constant_engines 0.5 (-0.5) []) false)
                 "hm" "en"
               = [(0.5, "positive"); (-0.5, "negative")]%R)
    by (apply example_contributing; lra).
  split; [apply last_seen_iterates_set|].
  split; [unfold Spec.contributing_labels; now rewrite Hc|].
  split; [reflexivity|].
  destruct (analyze_text_unfold Examples.last_seen
              (initialize_analyzers
                 (Examples.constant_engines 0.5 (-0.5) []) false)
              "hm" "en" eq_refl) as [res ->].
  unfold Spec.contributing_scores, Spec.contributing_labels.
  rewrite Hc. reflexivity.
Qed.

(** ** The ensemble without contributors *)

(** C3, as the code has it: [analyze_text] never reports an error; on
    the empty text it returns the neutral verdict with score 0 and
    confidence 0; on a text that is not empty and to which no scorer
    contributes, the ensemble is the empty dict, with no score, no label
    and no confidence. *)
Theorem analyze_text_without_contributors :
  forall (set_iter : list string -> list string)
         (analyzers : dict analyzer) (text language : string),
    Spec.iterates_set set_iter ->
    let r := analyze_text set_iter analyzers text language in
    error r = None
    /\ (text = "" ->
        ensemble_sentiment r
        = mk_ensemble (Some 0%R) (Some "neutral") (Some 0%R) None)
    /\ (text <> "" ->
        Spec.contributing analyzers text language = [] ->
        ensemble_sentiment r = empty_dict).
Proof.
  intros set_iter analyzers text language Hset. cbv zeta.
  destruct text as [|c text].
  - repeat split; try reflexivity. congruence.
  - set (t := String c text).
    assert (Hne : PyStr.is_empty t = false) by reflexivity.
    repeat split.
    + destruct (Spec.contributing analyzers t language) as [|v vs] eqn:Hc.
      * destruct (analyze_text_unfold set_iter analyzers t language Hne)
          as [res ->].
        unfold Spec.contributing_scores. now rewrite Hc.
      * assert (Hc' : Spec.contributing analyzers t language <> [])
          by (rewrite Hc; discriminate).
        destruct (analyze_text_contributing set_iter Hset analyzers t language
                    Hne Hc') as (res & lbl & _ & ->).
        reflexivity.
    + discriminate.
    + intros _ Hc.
      destruct (analyze_text_unfold set_iter analyzers t language Hne)
        as [res ->].
      unfold Spec.contributing_scores. now rewrite Hc.
Qed.

Lemma example_contributing_none (E : engines) (use_transformers : bool)
      (text : string) :
  Spec.contributing (initialize_analyzers E use_transformers) text "hindi"
  = [].
Proof.
  unfold Spec.contributing, initialize_analyzers.
  destruct (use_transformers && transformers_available E); reflexivity.
Qed.

Lemma analyze_text_without_contributors_witness :
  let analyzers :=
    initialize_analyzers (Examples.constant_engines 0.5 0.5 []) false in
  ensemble_sentiment (analyze_text Examples.first_seen analyzers "" "en")
  = mk_ensemble (Some 0%R) (Some "neutral") (Some 0%R) None
  /\ ensemble_sentiment
       (analyze_text Examples.first_seen analyzers "hello" "hindi")
     = empty_dict.
Proof.
  cbv zeta. split.
  - destruct (analyze_text_without_contributors Examples.first_seen
                (initialize_analyzers
                   (Examples.constant_engines 0.5 0.5 []) false)
                "" "en" first_seen_iterates_set) as (_ & H & _).
    apply H. reflexivity.
  - destruct (analyze_text_without_contributors Examples.first_seen
                (initialize_analyzers
                   (Examples.constant_engines 0.5 0.5 []) false)
                "hello" "hindi" first_seen_iterates_set) as (_ & _ & H).
    apply H; [discriminate|apply example_contributing_none].
Defined.

Lemma example_contributing_blank (compound polarity : R) :
  Spec.contributing
    (initialize_analyzers (Examples.constant_engines compound polarity [])
                          false)
    "   " "en"
  = [(0%R, "neutral"); (0%R, "neutral")].
Proof. reflexivity. Qed.

(** C3 as stated fails.  A text in a language that no scorer supports has
    no contributor, and its ensemble is the empty dict, not the neutral
    verdict.  A text of blanks in a supported language is not without
    contributors: every scorer answers the neutral verdict on it, and the
    ensemble of these has confidence 1. *)
Lemma no_contributor_not_neutral_verdict :
  let analyzers :=
    initialize_analyzers (Examples.constant_engines 0.5 0.5 []) false in
  Spec.contributing analyzers "hello" "hindi" = []
  /\ ensemble_sentiment
       (analyze_text Examples.first_seen analyzers "hello" "hindi")
     = mk_ensemble None None None None
  /\ ensemble_sentiment
       (analyze_text Examples.first_seen analyzers "hello" "hindi")
     <> mk_ensemble (Some 0%R) (Some "neutral") (Some 0%R) None
  /\ (exists s c,
        ensemble_sentiment
          (analyze_text Examples.first_seen analyzers "   " "en")
        = mk_ensemble (Some s) (Some "neutral") (Some c) (Some true)
        /\ s = 0%R /\ c = 1%R).
Proof.
  cbv zeta.
  assert (H : ensemble_sentiment
                (analyze_text Examples.first_seen
                   (initialize_analyzers
                      (Examples.constant_engines 0.5 0.5 []) false)
                   "hello" "hindi")
              = mk_ensemble None None None None).
  { destruct (analyze_text_unfold Examples.first_seen
                (initialize_analyzers
                   (Examples.constant_engines 0.5 0.5 []) false)
                "hello" "hindi" eq_refl) as [res ->].
    reflexivity. }
  split; [reflexivity|]. split; [exact H|]. split; [rewrite H; discriminate|].
  destruct (analyze_text_unfold Examples.first_seen
              (initialize_analyzers
                 (Examples.constant_engines 0.5 0.5 []) false)
              "   " "en" eq_refl) as [res ->].
  unfold Spec.contributing_scores, Spec.contributing_labels.
  rewrite example_contributing_blank. cbn [map fst snd].
  eexists. eexists. split; [reflexivity|]. split.
  - unfold np_mean, np_sum. simpl. lra.
  - assert (Hstd : np_std [0%R; 0%R] = 0%R).
    { unfold np_std, np_mean, np_sum. cbn [map fold_right List.length INR].
      match goal with |- sqrt ?x = _ => replace x with 0%R by lra end.
      apply sqrt_0. }
    rewrite Hstd. unfold Rmin. destruct (Rle_dec 0 1); lra.
Qed.

(** ** Labels and thresholds *)

Lemma threshold_label_cases (s : R) :
  ((s > 0.1)%R -> Spec.threshold_label s = "positive")
  /\ ((s < -0.1)%R -> Spec.threshold_label s = "negative")
  /\ ((-0.1 <= s <= 0.1)%R -> Spec.threshold_label s = "neutral").
Proof.
  unfold Spec.threshold_label.
  repeat split; intros H; decide_reals; reflexivity.
Qed.

Lemma textblob_thresholds (E : engines) (text : string) (r : SentimentResult) :
  textblob_analyze E text = Some r ->
  exists s, score r = Some s /\ label r = Spec.threshold_label s.
Proof.
  unfold textblob_analyze, Spec.threshold_label.
  destruct (PyStr.is_empty (preprocess_text text)).
  - intros [= <-]. exists 0%R. split; [reflexivity|].
    simpl. decide_reals. reflexivity.
  - destruct (textblob_sentiment E (preprocess_text text)) as [[p sub]|].
    + intros [= <-]. exists p. split; reflexivity.
    + intros [= <-]. exists 0%R. split; [reflexivity|].
      simpl. decide_reals. reflexivity.
Qed.

Lemma vader_thresholds (E : engines) (text : string) (r : SentimentResult) :
  vader_analyze E text = Some r ->
  exists s,
    score r = Some s
    /\ ((s >= 0.05)%R -> label r = "positive")
    /\ ((s <= -0.05)%R -> label r = "negative")
    /\ ((-0.05 < s < 0.05)%R -> label r = "neutral").
Proof.
  unfold vader_analyze.
  destruct (negb (vader_loads E)); [discriminate|].
  assert (Hneutral :
            exists s,
              score neutral_result = Some s
              /\ ((s >= 0.05)%R -> label neutral_result = "positive")
              /\ ((s <= -0.05)%R -> label neutral_result = "negative")
              /\ ((-0.05 < s < 0.05)%R -> label neutral_result = "neutral")).
  { exists 0%R. simpl. repeat split; intros; try reflexivity; lra. }
  destruct (PyStr.is_empty (preprocess_text text)).
  - now intros [= <-].
  - destruct (polarity_scores E (preprocess_text text)) as [c|].
    + intros [= <-]. exists c. cbn [score label].
      repeat split; intros H; decide_reals; reflexivity.
    + now intros [= <-].
Qed.

Lemma preprocess_text_strip (text : string) :
  preprocess_text text = PyStr.strip text.
Proof. destruct text; reflexivity. Qed.

Lemma take_all (n : nat) (s : string) :
  String.length s <= n -> PyStr.take n s = s.
Proof.
  revert n. induction s as [|c s IH]; intros [|n] H; simpl in *;
    try reflexivity; try lia.
  rewrite IH by lia. reflexivity.
Qed.

(** [text[:512]] when the text is longer, the text itself otherwise:
    in both cases the first 512 characters. *)
Lemma truncate_512 (text : string) :
  (if 512 <? String.length text then PyStr.take 512 text else text)
  = PyStr.take 512 text.
Proof.
  destruct (Nat.ltb_spec 512 (String.length text)) as [H|H];
    [reflexivity|].
  symmetry. now apply take_all.
Qed.

(** [max(results, key=lambda x: x['score'])] is the first class of the
    greatest score. *)
Lemma max_by_score_first (results : list (string * R)) :
  forall best,
  exists pre post,
    best :: results = pre ++ max_by_score best results :: post
    /\ (forall y, In y pre ->
                  (snd y < snd (max_by_score best results))%R)
    /\ (forall y, In y post ->
                  (snd y <= snd (max_by_score best results))%R).
Proof.
  induction results as [|x results IH]; intros best.
  - exists [], []. simpl. repeat split; intros y [].
  - cbn [max_by_score]. destruct (Rlt_dec (snd best) (snd x)) as [Hlt|Hge].
    + destruct (IH x) as (pre & post & Heq & Hpre & Hpost).
      remember (max_by_score x results) as r eqn:Hr. clear Hr.
      assert (Hx : (snd x <= snd r)%R).
      { assert (Hin : In x (pre ++ r :: post)) by (rewrite <- Heq; now left).
        apply in_app_iff in Hin. destruct Hin as [H|[H|H]].
        - left. now apply Hpre.
        - rewrite H. lra.
        - now apply Hpost. }
      exists (best :: pre), post. repeat split.
      * simpl. now rewrite Heq.
      * intros y [<-|Hy]; [lra|now apply Hpre].
      * assumption.
    + destruct (IH best) as (pre & post & Heq & Hpre & Hpost).
      remember (max_by_score best results) as r eqn:Hr. clear Hr.
      destruct pre as [|b pre]; simpl in Heq; injection Heq as Hb Hl.
      * exists [], (x :: post). repeat split.
        -- simpl. now rewrite <- Hb, Hl.
        -- intros y [].
        -- intros y [<-|Hy]; [rewrite <- Hb; lra|now apply Hpost].
      * subst b. exists (best :: x :: pre), post. repeat split.
        -- simpl. now rewrite Hl.
        -- assert (Hbest : (snd best < snd r)%R) by (apply Hpre; now left).
           intros y [<-|[<-|Hy]]; [assumption|lra|apply Hpre; now right].
        -- assumption.
Qed.

(** The transformer on a text that is not blank, when the model answers
    with classes: the confidence is the score of the first class of the
    greatest score, and the label is the label of that class, read in
    [label_map] or put in lower case. *)
Lemma transformer_best_class (E : engines) (text : string)
      (r : SentimentResult) (x : string * R) (results : list (string * R)) :
  transformer_analyze E text = Some r ->
  PyStr.is_empty (PyStr.strip text) = false ->
  roberta_pipeline E (PyStr.take 512 (PyStr.strip text))
  = Some (x :: results) ->
  exists pre best post,
    x :: results = pre ++ best :: post
    /\ (forall y, In y pre -> (snd y < snd best)%R)
    /\ (forall y, In y post -> (snd y <= snd best)%R)
    /\ confidence r = snd best
    /\ label r = match dict_get (fst best) label_map with
                 | Some l => l
                 | None => PyStr.lower (fst best)
                 end.
Proof.
  unfold transformer_analyze.
  destruct (negb (transformers_available E && roberta_loads E));
    [discriminate|].
  rewrite preprocess_text_strip, truncate_512.
  intros Hr Hne Hp. rewrite Hne, Hp in Hr. injection Hr as <-.
  destruct (max_by_score_first results x) as (pre & post & Heq & Hpre & Hpost).
  exists pre, (max_by_score x results), post.
  cbn [confidence label]. repeat split; assumption.
Qed.

(** Without classes, or when the model raises, the transformer answers
    the neutral verdict. *)
Lemma transformer_without_classes (E : engines) (text : string)
      (r : SentimentResult) :
  transformer_analyze E text = Some r ->
  roberta_pipeline E (PyStr.take 512 (PyStr.strip text)) = Some []
  \/ roberta_pipeline E (PyStr.take 512 (PyStr.strip text)) = None ->
  r = neutral_result.
Proof.
  unfold transformer_analyze.
  destruct (negb (transformers_available E && roberta_loads E));
    [discriminate|].
  rewrite preprocess_text_strip, truncate_512.
  destruct (PyStr.is_empty (PyStr.strip text)); [now intros [= <-]|].
  intros Hr [Hp|Hp]; rewrite Hp in Hr; now injection Hr as <-.
Qed.

Lemma transformer_score_from_label (E : engines) (text : string)
      (r : SentimentResult) :
  transformer_analyze E text = Some r ->
  exists s,
    score r = Some s
    /\ (label r = "positive" -> s = confidence r)
    /\ (label r = "negative" -> s = (- confidence r)%R)
    /\ (label r <> "positive" -> label r <> "negative" -> s = 0%R).
Proof.
  unfold transformer_analyze.
  destruct (negb (transformers_available E && roberta_loads E));
    [discriminate|].
  assert (Hneutral :
            exists s,
              score neutral_result = Some s
              /\ (label neutral_result = "positive" ->
                  s = confidence neutral_result)
              /\ (label neutral_result = "negative" ->
                  s = (- confidence neutral_result)%R)
              /\ (label neutral_result <> "positive" ->
                  label neutral_result <> "negative" -> s = 0%R)).
  { exists 0%R. simpl. repeat split; intros; try reflexivity; discriminate. }
  destruct (PyStr.is_empty (preprocess_text text)); [now intros [= <-]|].
  destruct (roberta_pipeline E _) as [[|x results]|]; try now intros [= <-].
  intros [= <-]. cbn [score label confidence].
  match goal with
  | |- context [String.eqb ?l "positive"] => generalize l
  end.
  intros lbl. eexists. split; [reflexivity|].
  destruct (String.eqb_spec lbl "positive") as [Hp|Hp].
  - subst lbl. repeat split; intros; try reflexivity; try discriminate.
    contradiction.
  - destruct (String.eqb_spec lbl "negative") as [Hn|Hn];
      repeat split; intros; try reflexivity; try contradiction;
      subst lbl; discriminate.
Qed.

(** C1, as the code has it.  TextBlob labels by the thresholds of the
    specification: positive above 0.1, negative below -0.1, neutral
    otherwise.  VADER labels by its own thresholds: positive from 0.05,
    negative down from -0.05, neutral in between.  The transformer takes
    the label of its best class, the first class of the greatest score
    that the model gives to the first 512 characters of the stripped
    text, with the score of that class as confidence, and derives the
    score from the label; without classes it answers the neutral verdict.
    The ensemble does not label by a threshold on its score: its label is
    the neutral one of the empty result, or a label that occurs most
    often among the contributing labels. *)
Theorem labels_of_scorers_and_ensemble :
  (forall (E : engines) (text : string) (r : SentimentResult),
      textblob_analyze E text = Some r ->
      exists s,
        score r = Some s
        /\ ((s > 0.1)%R -> label r = "positive")
        /\ ((s < -0.1)%R -> label r = "negative")
        /\ ((-0.1 <= s <= 0.1)%R -> label r = "neutral"))
  /\ (forall (E : engines) (text : string) (r : SentimentResult),
         vader_analyze E text = Some r ->
         exists s,
           score r = Some s
           /\ ((s >= 0.05)%R -> label r = "positive")
           /\ ((s <= -0.05)%R -> label r = "negative")
           /\ ((-0.05 < s < 0.05)%R -> label r = "neutral"))
  /\ (forall (E : engines) (text : string) (r : SentimentResult),
         transformer_analyze E text = Some r ->
         (exists s,
             score r = Some s
             /\ (label r = "positive" -> s = confidence r)
             /\ (label r = "negative" -> s = (- confidence r)%R)
             /\ (label r <> "positive" -> label r <> "negative" ->
                 s = 0%R))
         /\ (forall x results,
                PyStr.is_empty (PyStr.strip text) = false ->
                roberta_pipeline E (PyStr.take 512 (PyStr.strip text))
                = Some (x :: results) ->
                exists pre best post,
                  x :: results = pre ++ best :: post
                  /\ (forall y, In y pre -> (snd y < snd best)%R)
                  /\ (forall y, In y post -> (snd y <= snd best)%R)
                  /\ confidence r = snd best
                  /\ label r = match dict_get (fst best) label_map with
                               | Some l => l
                               | None => PyStr.lower (fst best)
                               end)
         /\ (roberta_pipeline E (PyStr.take 512 (PyStr.strip text))
             = Some []
             \/ roberta_pipeline E (PyStr.take 512 (PyStr.strip text))
                = None ->
             r = neutral_result))
  /\ (forall (set_iter : list string -> list string)
             (analyzers : dict analyzer) (text language l : string),
         Spec.iterates_set set_iter ->
         e_label (ensemble_sentiment
                    (analyze_text set_iter analyzers text language))
         = Some l ->
         (text = "" /\ l = "neutral")
         \/ (In l (Spec.contributing_labels analyzers text language)
             /\ forall l',
                 count_occ string_dec
                   (Spec.contributing_labels analyzers text language) l'
                 <= count_occ string_dec
                      (Spec.contributing_labels analyzers text language) l)).
Proof.
  split; [|split; [|split]].
  - intros E text r H.
    destruct (textblob_thresholds E text r H) as (s & Hs & Hl).
    exists s. split; [exact Hs|]. rewrite Hl. apply threshold_label_cases.
  - exact vader_thresholds.
  - intros E text r H.
    split; [exact (transformer_score_from_label E text r H)|].
    split.
    + intros x results Hne Hp.
      exact (transformer_best_class E text r x results H Hne Hp).
    + exact (transformer_without_classes E text r H).
  - intros set_iter analyzers text language l Hset.
    destruct text as [|c text].
    + intros [= <-]. left. split; reflexivity.
    + set (t := String c text).
      assert (Hne : PyStr.is_empty t = false) by reflexivity.
      destruct (Spec.contributing analyzers t language) as [|v vs] eqn:Hc.
      * destruct (analyze_text_unfold set_iter analyzers t language Hne)
          as [res ->].
        unfold Spec.contributing_scores. rewrite Hc. discriminate.
      * assert (Hc' : Spec.contributing analyzers t language <> [])
          by (rewrite Hc; discriminate).
        destruct (contributing_nonempty _ _ _ Hc') as [_ Hl].
        destruct (elected_label set_iter Hset _ Hl)
          as (l1 & pre & post & Hmax & Hin & Hmost & _).
        destruct (analyze_text_contributing set_iter Hset analyzers t language
                    Hne Hc') as (res & l0 & Hmax0 & ->).
        rewrite Hmax in Hmax0. injection Hmax0 as <-.
        intros [= <-]. right. split; assumption.
Qed.

Lemma example_textblob :
  textblob_analyze (Examples.constant_engines 0 0.5 []) "ok"
  = Some (mk_result (Some 0.5%R) "positive" 0.5%R).
Proof.
  unfold textblob_analyze. simpl. decide_reals. reflexivity.
Qed.

Lemma example_vader :
  vader_analyze (Examples.constant_engines 0.07 0 []) "ok"
  = Some (mk_result (Some 0.07%R) "positive" (Rabs 0.07)).
Proof.
  unfold vader_analyze. simpl. decide_reals. reflexivity.
Qed.

Lemma example_transformer :
  transformer_analyze
    (Examples.constant_engines 0 0
       [("LABEL_0", 0.2%R); ("LABEL_2", 0.7%R); ("LABEL_1", 0.1%R)])
    "ok"
  = Some (mk_result (Some 0.7%R) "positive" 0.7%R).
Proof.
  unfold transformer_analyze. simpl.
  destruct (Rlt_dec 0.2 0.7) as [_|H]; [|exfalso; lra]. cbn [snd].
  destruct (Rlt_dec 0.7 0.1) as [H|_]; [exfalso; lra|]. reflexivity.
Qed.

Lemma labels_of_scorers_and_ensemble_witness :
  (exists s,
      Some 0.5%R = Some s
      /\ ((s > 0.1)%R -> "positive" = "positive")
      /\ ((s < -0.1)%R -> "positive" = "negative")
      /\ ((-0.1 <= s <= 0.1)%R -> "positive" = "neutral"))
  /\ (exists s,
         Some 0.07%R = Some s
         /\ ((s >= 0.05)%R -> "positive" = "positive")
         /\ ((s <= -0.05)%R -> "positive" = "negative")
         /\ ((-0.05 < s < 0.05)%R -> "positive" = "neutral"))
  /\ (exists pre best post,
         [("LABEL_0", 0.2%R); ("LABEL_2", 0.7%R); ("LABEL_1", 0.1%R)]
         = pre ++ best :: post
         /\ (forall y, In y pre -> (snd y < snd best)%R)
         /\ (forall y, In y post -> (snd y <= snd best)%R)
         /\ 0.7%R = snd best
         /\ "positive" = match dict_get (fst best) label_map with
                         | Some l => l
                         | None => PyStr.lower (fst best)
                         end).
Proof.
  destruct labels_of_scorers_and_ensemble as (Htb & Hv & Ht & _).
  split; [|split].
  - apply (Htb (Examples.constant_engines 0 0.5 []) "ok"
               (mk_result (Some 0.5%R) "positive" 0.5%R)).
    apply example_textblob.
  - apply (Hv (Examples.constant_engines 0.07 0 []) "ok"
              (mk_result (Some 0.07%R) "positive" (Rabs 0.07))).
    apply example_vader.
  - destruct (Ht (Examples.constant_engines 0 0
                    [("LABEL_0", 0.2%R); ("LABEL_2", 0.7%R);
                     ("LABEL_1", 0.1%R)])
                 "ok" (mk_result (Some 0.7%R) "positive" 0.7%R)
                 example_transformer) as (_ & Hbest & _).
    apply (Hbest ("LABEL_0", 0.2%R) [("LABEL_2", 0.7%R); ("LABEL_1", 0.1%R)]);
      reflexivity.
Defined.

Lemma example_contributing_three :
  Spec.contributing
    (initialize_analyzers
       (Examples.constant_engines 0 0 [("LABEL_2", 0.9%R)]) true)
    "ok" "en"
  = [(0%R, "neutral"); (0%R, "neutral"); (0.9%R, "positive")].
Proof.
  unfold Spec.contributing, initialize_analyzers. simpl.
  unfold vader_analyze, textblob_analyze, transformer_analyze. simpl.
  decide_reals. reflexivity.
Qed.

(** C1 as stated fails.  VADER labels the compound score 0.07 positive,
    and 0.07 is not above 0.1.  The ensemble of two neutral verdicts of
    score 0 and one positive verdict of score 0.9 is labelled neutral,
    and its score 0.3 is above 0.1. *)
Lemma labels_not_by_uniform_threshold :
  vader_analyze (Examples.constant_engines 0.07 0 []) "ok"
  = Some (mk_result (Some 0.07%R) "positive" (Rabs 0.07))
  /\ Spec.threshold_label 0.07 = "neutral"
  /\ (exists s,
        e_score
          (ensemble_sentiment
             (analyze_text Examples.first_seen
                (initialize_analyzers
                   (Examples.constant_engines 0 0 [("LABEL_2", 0.9%R)]) true)
                "ok" "en"))
        = Some s
        /\ s = 0.3%R
        /\ Spec.threshold_label s = "positive")
  /\ e_label
       (ensemble_sentiment
          (analyze_text Examples.first_seen
             (initialize_analyzers
                (Examples.constant_engines 0 0 [("LABEL_2", 0.9%R)]) true)
             "ok" "en"))
     = Some "neutral".
Proof.
  split; [apply example_vader|].
  split; [unfold Spec.threshold_label; decide_reals; reflexivity|].
  destruct (analyze_text_unfold Examples.first_seen
              (initialize_analyzers
                 (Examples.constant_engines 0 0 [("LABEL_2", 0.9%R)]) true)
              "ok" "en" eq_refl) as [res ->].
  unfold Spec.contributing_scores, Spec.contributing_labels.
  rewrite example_contributing_three. cbn [map fst snd].
  split; [|reflexivity].
  eexists. split; [reflexivity|].
  assert (Hmean : np_mean [0%R; 0%R; 0.9%R] = 0.3%R).
  { unfold np_mean, np_sum. simpl. lra. }
  rewrite Hmean. split; [reflexivity|].
  unfold Spec.threshold_label. decide_reals. reflexivity.
Qed.

(** * Further properties of the preprocessor *)

(** ** Stripping *)

Lemma lstrip_by_head (p : ascii -> bool) (s : string) (c : ascii) (r : string) :
  PyStr.lstrip_by p s = String c r -> p c = false.
Proof.
  induction s as [|a s IH]; simpl; [discriminate|].
  destruct (p a) eqn:Hpa; [exact IH|].
  intros [= <- _]. exact Hpa.
Qed.

Lemma lstrip_by_fixed (p : ascii -> bool) (s : string) :
  match s with String c _ => p c = false | EmptyString => True end ->
  PyStr.lstrip_by p s = s.
Proof.
  destruct s as [|c s]; simpl; [reflexivity|].
  now intros ->.
Qed.

Lemma rstrip_by_idempotent (p : ascii -> bool) (s : string) :
  PyStr.rstrip_by p (PyStr.rstrip_by p s) = PyStr.rstrip_by p s.
Proof.
  induction s as [|c s IH]; simpl; [reflexivity|].
  destruct (PyStr.rstrip_by p s) as [|d r] eqn:Hr.
  - destruct (p c) eqn:Hc; simpl; [reflexivity|now rewrite Hc].
  - cbn [PyStr.rstrip_by]. cbn [PyStr.rstrip_by] in IH.
    destruct (PyStr.rstrip_by p r) as [|e r'] eqn:Hr'.
    + destruct (p d); [discriminate|]. now rewrite IH.
    + now rewrite IH.
Qed.

Lemma rstrip_by_head (p : ascii -> bool) (s : string) :
  match s with String c _ => p c = false | EmptyString => True end ->
  match PyStr.rstrip_by p s with
  | String c _ => p c = false
  | EmptyString => True
  end.
Proof.
  destruct s as [|c s]; simpl; [trivial|]. intros Hc.
  destruct (PyStr.rstrip_by p s); [now rewrite Hc|exact Hc].
Qed.

Lemma lstrip_by_head_ok (p : ascii -> bool) (s : string) :
  match PyStr.lstrip_by p s with
  | String c _ => p c = false
  | EmptyString => True
  end.
Proof.
  destruct (PyStr.lstrip_by p s) as [|c r] eqn:H; [trivial|].
  exact (lstrip_by_head p s c r H).
Qed.

(** Stripping twice is stripping once. *)
Lemma strip_by_idempotent (p : ascii -> bool) (s : string) :
  PyStr.strip_by p (PyStr.strip_by p s) = PyStr.strip_by p s.
Proof.
  unfold PyStr.strip_by.
  rewrite (lstrip_by_fixed p (PyStr.rstrip_by p (PyStr.lstrip_by p s))).
  - apply rstrip_by_idempotent.
  - apply rstrip_by_head, lstrip_by_head_ok.
Qed.

Lemma all_chars_lstrip (q p : ascii -> bool) (s : string) :
  Facts.all_chars q s = true -> Facts.all_chars q (PyStr.lstrip_by p s) = true.
Proof.
  induction s as [|c s IH]; simpl; [trivial|].
  rewrite andb_true_iff. intros [Hc Hs].
  destruct (p c); [now apply IH|]. simpl. now rewrite Hc, Hs.
Qed.

Lemma all_chars_rstrip (q p : ascii -> bool) (s : string) :
  Facts.all_chars q s = true -> Facts.all_chars q (PyStr.rstrip_by p s) = true.
Proof.
  induction s as [|c s IH]; simpl; [trivial|].
  rewrite andb_true_iff. intros [Hc Hs]. specialize (IH Hs).
  destruct (PyStr.rstrip_by p s) as [|a s0].
  - destruct (p c); simpl; [reflexivity|now rewrite Hc].
  - change (q c && Facts.all_chars q (String a s0) = true).
    now rewrite Hc, IH.
Qed.

Lemma all_chars_strip (q : ascii -> bool) (s : string) :
  Facts.all_chars q s = true -> Facts.all_chars q (PyStr.strip s) = true.
Proof.
  intros H. unfold PyStr.strip, PyStr.strip_by.
  now apply all_chars_rstrip, all_chars_lstrip.
Qed.

Lemma all_chars_filter (q : ascii -> bool) (s : string) :
  Facts.all_chars q (PyStr.filter q s) = true.
Proof.
  induction s as [|c s IH]; simpl; [reflexivity|].
  destruct (q c) eqn:Hc; [|exact IH]. simpl. now rewrite Hc, IH.
Qed.

(** The user name and the body that [extract_user_and_message] returns.
    The body is stripped.  Without a colon followed by a space the user is
    ["System"] and the body is the stripped text.  With one, the user name
    is stripped and keeps only word characters, white space and hyphens
    (so no plus sign and no punctuation), and the body is the stripped
    text after the first such colon. *)
Theorem extract_user_and_message_sanitized :
  forall message_text : string,
    let username := fst (extract_user_and_message message_text) in
    let message := snd (extract_user_and_message message_text) in
    PyStr.strip message = message
    /\ (PyStr.split_once ": " message_text = None ->
        username = "System" /\ message = PyStr.strip message_text)
    /\ (forall part0 part1,
          PyStr.split_once ": " message_text = Some (part0, part1) ->
          message = PyStr.strip part1
          /\ PyStr.strip username = username
          /\ Facts.all_chars Facts.name_char username = true
          /\ PyStr.contains "+" username = false).
Proof.
  intros message_text. cbv zeta. unfold extract_user_and_message.
  destruct (PyStr.split_once ": " message_text) as [[part0 part1]|];
    cbn [fst snd].
  - split; [apply strip_by_idempotent|]. split; [discriminate|].
    intros p0 p1 [= <- <-].
    set (u := PyStr.strip
                (sub_non_word
                   (PyStr.strip
                      (sub_plus_digits (PyStr.strip part0) false)))).
    assert (Hall : Facts.all_chars Facts.name_char u = true).
    { apply all_chars_strip. unfold sub_non_word.
      apply (all_chars_filter Facts.name_char). }
    split; [reflexivity|]. split; [apply strip_by_idempotent|].
    split; [exact Hall|].
    clearbody u. induction u as [|c u IH]; [reflexivity|].
    simpl in Hall. apply andb_true_iff in Hall. destruct Hall as [Hc Hu].
    cbn [PyStr.contains String.prefix].
    destruct (ascii_dec "+" c) as [<-|Hne]; [discriminate Hc|].
    simpl. now apply IH.
  - split; [apply strip_by_idempotent|]. split; [now split|].
    intros p0 p1 H. discriminate H.
Qed.

Lemma extract_user_and_message_sanitized_witness :
  snd (extract_user_and_message "+92 300 1234567 (Ali!): hi: there ")
  = PyStr.strip "hi: there "
  /\ Facts.all_chars Facts.name_char
       (fst (extract_user_and_message "+92 300 1234567 (Ali!): hi: there "))
     = true.
Proof.
  destruct (extract_user_and_message_sanitized
              "+92 300 1234567 (Ali!): hi: there ") as (_ & _ & H).
  destruct (H "+92 300 1234567 (Ali!)" "hi: there " eq_refl)
    as (Hm & _ & Hu & _).
  split; assumption.
Defined.

(** ** Detecting the format and splitting *)

(** [detect_format] answers ["android"] or ["ios"], never ["web"]: the
    web pattern is the android pattern and is tried after it.  It answers
    ["ios"] exactly when the first 1000 characters have a match of the
    ios pattern and none of the android pattern. *)
Theorem detect_format_android_or_ios :
  forall text : string,
    (detect_format text = "android" \/ detect_format text = "ios")
    /\ detect_format text <> "web"
    /\ (detect_format text = "ios" <->
        search android_pattern (PyStr.take 1000 text) = false
        /\ search ios_pattern (PyStr.take 1000 text) = true).
Proof.
  intros text. unfold detect_format, patterns. cbn [first_matching].
  destruct (search android_pattern (PyStr.take 1000 text));
    destruct (search ios_pattern (PyStr.take 1000 text));
    repeat split; auto; try discriminate;
    intros H; try discriminate H; destruct H; discriminate.
Qed.

Lemma nth_error_evens {A : Type} (i : nat) :
  forall l : list A, nth_error (Spec.evens l) i = nth_error l (2 * i).
Proof.
  induction i as [|i IH]; intros l.
  - destruct l; reflexivity.
  - replace (2 * S i) with (S (S (2 * i))) by lia.
    destruct l as [|a [|b l]]; cbn [Spec.evens nth_error].
    + reflexivity.
    + now destruct i.
    + apply IH.
Qed.

(** What [extract_messages_and_dates] pairs.  No timestamp is ever cut
    off: the dates are all the timestamps of the text.  The list of
    "messages" has at its positions 0, 2, 4, ... the timestamps
    themselves: the chunk at position [2 * i] is the timestamp number
    [i]. *)
Theorem extract_messages_and_dates_pairs_timestamps :
  forall (text format_type : string) (i : nat),
    let messages := fst (extract_messages_and_dates text format_type) in
    let dates := snd (extract_messages_and_dates text format_type) in
    dates = findall (pattern_for format_type) text
    /\ (2 * i < List.length messages ->
        nth_error messages (2 * i) = nth_error dates i).
Proof.
  intros text format_type i. cbv zeta.
  unfold extract_messages_and_dates. cbn [fst snd].
  rewrite split_tail_length.
  set (found := findall (pattern_for format_type) text).
  replace (Nat.min (2 * List.length found) (List.length found))
    with (List.length found) by lia.
  rewrite firstn_all. split; [reflexivity|].
  rewrite length_firstn. intros Hi.
  rewrite nth_error_firstn.
  destruct (Nat.ltb_spec (2 * i) (List.length found)) as [_|Hge]; [|lia].
  rewrite <- nth_error_evens. f_equal. apply split_from_evens.
Qed.

Lemma extract_messages_and_dates_pairs_timestamps_witness :
  nth_error (fst (extract_messages_and_dates Examples.media_transcript
                    "android")) (2 * 0)
  = nth_error (snd (extract_messages_and_dates Examples.media_transcript
                      "android")) 0.
Proof.
  apply (extract_messages_and_dates_pairs_timestamps
           Examples.media_transcript "android" 0).
  vm_compute. lia.
Defined.

(** ** More on the anonymization *)

Lemma of_nat_inj (n m : nat) : PyStr.of_nat n = PyStr.of_nat m -> n = m.
Proof.
  unfold PyStr.of_nat. intros H.
  apply (f_equal NilEmpty.uint_of_string) in H.
  rewrite !NilEmpty.usu in H. injection H as H.
  apply (f_equal Nat.of_uint) in H.
  now rewrite !DecimalNat.Unsigned.of_to in H.
Qed.

Lemma format_02d_padded (n m : nat) :
  ("0" ++ PyStr.of_nat n)%string = PyStr.of_nat m -> n = m.
Proof.
  unfold PyStr.of_nat. intros H.
  apply (f_equal NilEmpty.uint_of_string) in H.
  rewrite NilEmpty.usu in H.
  change (NilEmpty.uint_of_string
            ("0" ++ NilEmpty.string_of_uint (Nat.to_uint n)))
    with (match NilEmpty.uint_of_string
                  (NilEmpty.string_of_uint (Nat.to_uint n)) with
          | Some d => Some (Decimal.D0 d)
          | None => None
          end) in H.
  rewrite NilEmpty.usu in H. injection H as H.
  apply (f_equal Nat.of_uint) in H.
  rewrite DecimalNat.Unsigned.of_to in H. rewrite <- H.
  change (Nat.of_uint (Decimal.D0 (Nat.to_uint n)))
    with (Nat.of_uint (Nat.to_uint n)).
  now rewrite DecimalNat.Unsigned.of_to.
Qed.

Lemma format_02d_inj (n m : nat) :
  PyStr.format_02d n = PyStr.format_02d m -> n = m.
Proof.
  unfold PyStr.format_02d.
  destruct (Nat.ltb_spec n 10) as [Hn|Hn];
    destruct (Nat.ltb_spec m 10) as [Hm|Hm]; intros H.
  - injection H as H. now apply of_nat_inj.
  - apply format_02d_padded in H. lia.
  - symmetry in H. apply format_02d_padded in H. lia.
  - now apply of_nat_inj.
Qed.

Lemma reserved_not_user_id (x : string) :
  reserved ("User_" ++ x) = false.
Proof. reflexivity. Qed.

Lemma anonymized_name_inj (i j : nat) (p q : string) :
  Spec.anonymized_name i p = Spec.anonymized_name j q -> p = q \/ i = j.
Proof.
  unfold Spec.anonymized_name.
  destruct (reserved p) eqn:Hp; destruct (reserved q) eqn:Hq; intros H.
  - now left.
  - subst p. now rewrite reserved_not_user_id in Hp.
  - subst q. now rewrite reserved_not_user_id in Hq.
  - right. injection H as H. apply format_02d_inj in H. lia.
Qed.

Lemma anonymized_names_NoDup (l : list string) :
  forall start,
    NoDup l ->
    NoDup (map (fun ip => Spec.anonymized_name (fst ip) (snd ip))
               (combine (seq start (List.length l)) l)).
Proof.
  induction l as [|a l IH]; intros start Hnd; simpl; [constructor|].
  inversion Hnd as [|? ? Ha Hl]; subst.
  constructor; [|now apply IH].
  rewrite in_map_iff. intros ([j q] & Heq & Hin). cbn [fst snd] in Heq.
  pose proof (in_combine_l _ _ _ _ Hin) as Hj.
  pose proof (in_combine_r _ _ _ _ Hin) as Hq.
  apply in_seq in Hj.
  destruct (anonymized_name_inj j start q a Heq) as [Hqa|Hjs];
    [subst q; contradiction|lia].
Qed.

Lemma dict_get_None {V : Type} (k : string) (d : dict V) :
  dict_get k d = None <-> ~ In k (map fst d).
Proof.
  induction d as [|[k' v] d IH]; simpl; [tauto|].
  destruct (String.eqb_spec k k') as [->|Hne].
  - split; [discriminate|]. intros H. exfalso. apply H. now left.
  - rewrite IH. split; [intros H [E|E]; [congruence|tauto]|tauto].
Qed.

(** [anonymize_participants] as a lookup table.  It has one entry for
    every distinct participant and none for anybody else; it never gives
    two participants the same name; a participant that is not reserved
    gets a name [User_NN] that no reserved participant keeps. *)
Theorem anonymize_participants_lookup :
  forall participants : list string,
    let mapping := anonymize_participants participants in
    (forall p, dict_get p mapping = None <-> ~ In p participants)
    /\ List.length mapping = List.length (set_of participants)
    /\ NoDup (map snd mapping)
    /\ (forall p q v,
          dict_get p mapping = Some v -> dict_get q mapping = Some v ->
          p = q)
    /\ (forall p v,
          dict_get p mapping = Some v ->
          if reserved p then v = p
          else reserved v = false
               /\ exists n, 1 <= n <= List.length mapping
                            /\ v = ("User_" ++ PyStr.format_02d n)%string).
Proof.
  intros participants. cbv zeta.
  assert (Hkeys := anonymize_participants_keys participants).
  assert (Hlabels : NoDup (sorted (set_of participants)))
    by apply sorted_NoDup, NoDup_nodup.
  assert (Hvals : NoDup (map snd (anonymize_participants participants))).
  { rewrite anonymize_participants_map, map_map. cbn [snd].
    apply (anonymized_names_NoDup _ 0 Hlabels). }
  assert (Hlen : List.length (anonymize_participants participants)
                 = List.length (sorted (set_of participants)))
    by (rewrite <- Hkeys; now rewrite length_map).
  assert (Hget : forall p v,
             dict_get p (anonymize_participants participants) = Some v ->
             exists i,
               nth_error (anonymize_participants participants) i = Some (p, v)
               /\ i < List.length (anonymize_participants participants)
               /\ v = Spec.anonymized_name i p).
  { intros p v Hp.
    assert (Hin : In p (sorted (set_of participants))).
    { rewrite <- Hkeys. destruct (in_dec string_dec p
        (map fst (anonymize_participants participants))) as [H|H]; [exact H|].
      apply dict_get_None in H. congruence. }
    destruct (In_nth_error _ _ Hin) as [i Hi].
    exists i.
    assert (Hnth : nth_error (anonymize_participants participants) i
                   = Some (p, Spec.anonymized_name i p)).
    { rewrite anonymize_participants_map, nth_error_map,
        (enumerate_nth _ i p Hi). reflexivity. }
    assert (Hv : dict_get p (anonymize_participants participants)
                 = Some (Spec.anonymized_name i p)).
    { apply (dict_get_nth _) with (i := i); [|exact Hnth].
      rewrite Hkeys. exact Hlabels. }
    rewrite Hp in Hv. injection Hv as ->.
    split; [exact Hnth|]. split; [|reflexivity].
    apply nth_error_Some. rewrite Hnth. discriminate. }
  split; [|split; [|split; [exact Hvals|split]]].
  - intros p. rewrite dict_get_None, Hkeys, sorted_In.
    unfold set_of. now rewrite nodup_In.
  - rewrite Hlen.
    apply Permutation_length.
    apply NoDup_Permutation; [exact Hlabels|apply NoDup_nodup|].
    intros x. apply sorted_In.
  - intros p q v Hp Hq.
    destruct (Hget p v Hp) as (i & Hi & _ & _).
    destruct (Hget q v Hq) as (j & Hj & _ & _).
    assert (Hij : i = j).
    { apply (proj1 (NoDup_nth_error _) Hvals).
      - rewrite length_map. apply nth_error_Some. rewrite Hi. discriminate.
      - now rewrite !nth_error_map, Hi, Hj. }
    subst j. rewrite Hi in Hj. now injection Hj.
  - intros p v Hp. destruct (Hget p v Hp) as (i & _ & Hi & ->).
    unfold Spec.anonymized_name. destruct (reserved p); [reflexivity|].
    split; [apply reserved_not_user_id|].
    exists (i + 1). split; [lia|reflexivity].
Qed.

Lemma anonymize_participants_lookup_witness :
  dict_get "Bob" (anonymize_participants ["Zed"; "System"; "Alice"]) = None
  /\ (reserved "User_03" = false
      /\ exists n,
          1 <= n <= List.length
                      (anonymize_participants ["Zed"; "System"; "Alice"])
          /\ "User_03" = ("User_" ++ PyStr.format_02d n)%string).
Proof.
  destruct (anonymize_participants_lookup ["Zed"; "System"; "Alice"])
    as (Hnone & _ & _ & _ & Hval).
  split.
  - apply Hnone. simpl. intros [H|[H|[H|[]]]]; discriminate.
  - apply (Hval "Zed" "User_03"). reflexivity.
Defined.

(** ** The loop of [preprocess] *)

Lemma set_add_In (x y : string) (s : list string) :
  In x (set_add y s) <-> x = y \/ In x s.
Proof.
  unfold set_add. destruct (in_dec string_dec y s) as [Hy|Hy].
  - split; [tauto|]. intros [->|H]; assumption.
  - rewrite in_app_iff. simpl. intuition.
Qed.

Lemma set_add_NoDup (y : string) (s : list string) :
  NoDup s -> NoDup (set_add y s).
Proof.
  intros Hs. unfold set_add. destruct (in_dec string_dec y s) as [Hy|Hy].
  - exact Hs.
  - apply NoDup_app; [exact Hs|repeat constructor; easy|].
    intros x Hx [<-|[]]. contradiction.
Qed.

Lemma participants_fold (users : list string) :
  forall acc,
    NoDup acc ->
    NoDup (fold_left (fun participants user => set_add user participants)
                     users acc)
    /\ forall x,
        In x (fold_left
                (fun participants user => set_add user participants)
                users acc)
        <-> In x acc \/ In x users.
Proof.
  induction users as [|u users IH]; intros acc Hacc; cbn [fold_left].
  - split; [exact Hacc|]. intros x. simpl. tauto.
  - destruct (IH (set_add u acc) (set_add_NoDup _ _ Hacc)) as [Hnd Hin].
    split; [exact Hnd|]. intros x. rewrite Hin, set_add_In. simpl. intuition.
Qed.

Lemma participants_of_spec (users : list string) :
  NoDup (Facts.participants_of users)
  /\ forall x, In x (Facts.participants_of users) <-> In x users.
Proof.
  destruct (participants_fold users [] (NoDup_nil _)) as [Hnd Hin].
  split; [exact Hnd|]. intros x. unfold Facts.participants_of.
  rewrite Hin. simpl. tauto.
Qed.


Lemma strptime_valid (s : string) (fmt : list fitem) (t : datetime) :
  strptime s fmt = Some t -> valid t = true.
Proof.
  unfold strptime.
  destruct (matches fmt (mk_datetime 1900 1 1 0 0 0) s) as [|[t' r] ms];
    [discriminate|].
  destruct r; [|discriminate].
  destruct (valid t') eqn:Hv; [|discriminate].
  now intros [= <-].
Qed.

Lemma first_parse_valid (s : string) (fmts : list (list fitem)) (t : datetime) :
  first_parse s fmts = Some t -> valid t = true.
Proof.
  induction fmts as [|fmt fmts IH]; simpl; [discriminate|].
  destruct (strptime s fmt) as [t'|] eqn:Hs; [|exact IH].
  intros [= <-]. exact (strptime_valid _ _ _ Hs).
Qed.

Lemma extract_body_stripped (message_text : string) :
  PyStr.strip (snd (extract_user_and_message message_text))
  = snd (extract_user_and_message message_text).
Proof.
  unfold extract_user_and_message.
  destruct (PyStr.split_once ": " message_text) as [[a b]|]; cbn [snd];
    apply strip_by_idempotent.
Qed.

Lemma classify_system (user body : string) (mtype : message_type)
      (user' : string) :
  classify user body = (mtype, user') ->
  (mtype = system <-> is_system_message body = true)
  /\ (mtype = system -> user' = "System").
Proof.
  unfold classify.
  destruct (is_system_message body);
    [|destruct (PyStr.contains "<Media omitted>" body
                || PyStr.contains "omitted" (PyStr.lower body))];
    intros [= <- <-]; split; try split; intros E;
    try reflexivity; discriminate E.
Qed.

(** One turn of the loop from the empty state: nothing happens, or a
    user is added and the row is lost to an exception of the cleaning, or
    a row is appended and its user added. *)
Lemma process_message_cases (L : libraries) (format_type : string)
      (pair : string * string) :
  (process_message L format_type ([], []) pair = ([], [])
   /\ Spec.accepted L format_type pair = false)
  \/ (exists user body,
        process_message L format_type ([], []) pair = ([], [user])
        /\ Spec.accepted L format_type pair = false
        /\ clean_text_for_analysis L body = None)
  \/ (exists m,
        process_message L format_type ([], []) pair = ([m], [username m])
        /\ Spec.accepted L format_type pair = true
        /\ Facts.row_inv L m).
Proof.
  destruct pair as [message_text date_str].
  unfold process_message, Spec.accepted. cbn [fst snd].
  destruct (parse_datetime date_str format_type) as [ts|] eqn:Hts;
    [|left; split; reflexivity].
  pose proof (extract_body_stripped message_text) as Hstrip.
  destruct (extract_user_and_message message_text) as [user body].
  cbn [snd] in Hstrip |- *.
  destruct (PyStr.is_empty (PyStr.strip body)) eqn:Hempty;
    [left; split; reflexivity|].
  cbn [negb andb]. rewrite Hstrip in Hempty.
  assert (Hne : body <> "") by (intros ->; discriminate Hempty).
  pose proof (first_parse_valid _ _ _ Hts) as Hvalid.
  destruct (classify user body) as [mtype user'] eqn:Hcl.
  destruct (classify_system _ _ _ _ Hcl) as [Hsys Huser].
  change (set_add user' []) with [user'].
  destruct (clean_text_for_analysis L body) as [cleaned|] eqn:Hclean.
  - right. right. cbn [app].
    exists (mk_message ts user' mtype body cleaned
              match mtype with
              | text => detect_language L body
              | _ => "unknown"
              end
              (extract_features body) None).
    split; [reflexivity|]. split; [reflexivity|]. unfold Facts.row_inv.
    cbn [original_text msg_type username timestamp msg_features
         cleaned_text language].
    split; [exact Hne|]. split; [exact Hstrip|]. split; [exact Hsys|].
    split; [exact Huser|]. split; [exact Hvalid|]. split; [reflexivity|].
    split; [exact Hclean|]. reflexivity.
  - right. left. exists user', body. repeat split. exact Hclean.
Qed.

(** A turn from any state is the turn from the empty state, put after
    the state. *)
Lemma process_message_state (L : libraries) (format_type : string)
      (rows : list processed_message) (participants : list string)
      (pair : string * string) :
  process_message L format_type (rows, participants) pair
  = (rows ++ fst (process_message L format_type ([], []) pair),
     fold_left (fun participants user => set_add user participants)
               (snd (process_message L format_type ([], []) pair))
               participants).
Proof.
  destruct pair as [message_text date_str]. unfold process_message.
  destruct (parse_datetime date_str format_type) as [ts|];
    [|cbn [fst snd fold_left]; now rewrite app_nil_r].
  destruct (extract_user_and_message message_text) as [user body].
  destruct (PyStr.is_empty (PyStr.strip body));
    [cbn [fst snd fold_left]; now rewrite app_nil_r|].
  destruct (classify user body) as [mtype user'].
  change (set_add user' []) with [user'].
  destruct (clean_text_for_analysis L body) as [cleaned|];
    cbn [fst snd fold_left app].
  - reflexivity.
  - now rewrite app_nil_r.
Qed.

Lemma process_all_fold (L : libraries) (format_type : string)
      (pairs : list (string * string)) :
  forall rows participants,
    fold_left (process_message L format_type) pairs (rows, participants)
    = (rows ++ Spec.kept_rows L format_type pairs,
       fold_left (fun participants user => set_add user participants)
                 (Spec.seen_users L format_type pairs) participants).
Proof.
  induction pairs as [|pair pairs IH]; intros rows participants;
    cbn [fold_left Spec.kept_rows Spec.seen_users flat_map].
  - now rewrite app_nil_r.
  - rewrite process_message_state, IH, <- app_assoc, fold_left_app.
    reflexivity.
Qed.

Lemma process_all_eq (L : libraries) (format_type : string)
      (pairs : list (string * string)) :
  process_all L format_type pairs
  = (Spec.kept_rows L format_type pairs,
     Facts.participants_of (Spec.seen_users L format_type pairs)).
Proof.
  unfold process_all. now rewrite process_all_fold.
Qed.

(** As many rows as pairs that are accepted. *)
Lemma kept_rows_accepted (L : libraries) (format_type : string)
      (pairs : list (string * string)) :
  List.length (Spec.kept_rows L format_type pairs)
  = List.length (List.filter (Spec.accepted L format_type) pairs).
Proof.
  induction pairs as [|pair pairs IH]; [reflexivity|].
  cbn [Spec.kept_rows flat_map List.filter]. rewrite length_app.
  change (flat_map _ pairs) with (Spec.kept_rows L format_type pairs).
  rewrite IH.
  destruct (process_message_cases L format_type pair)
    as [[E A]|[(u & body & E & A & _)|(m & E & A & _)]];
    rewrite E, A; reflexivity.
Qed.





Lemma kept_rows_In (L : libraries) (format_type : string)
      (pairs : list (string * string)) (m : processed_message) :
  In m (Spec.kept_rows L format_type pairs) ->
  Facts.row_inv L m
  /\ In (username m) (Spec.seen_users L format_type pairs).
Proof.
  unfold Spec.kept_rows, Spec.seen_users. rewrite in_flat_map.
  intros (pair & Hpair & Hm).
  destruct (process_message_cases L format_type pair)
    as [[E _]|[(u & body & E & _)|(m' & E & _ & Hinv)]];
    rewrite E in Hm; cbn [fst] in Hm; try (now destruct Hm).
  destruct Hm as [<-|[]]. split; [exact Hinv|].
  apply in_flat_map. exists pair. split; [exact Hpair|].
  rewrite E. now left.
Qed.

(** Without [remove_urls], no pair is accepted. *)
Lemma accepted_without_remove_urls (L : libraries) (format_type : string)
      (pairs : list (string * string)) :
  (forall text, remove_urls L text = None) ->
  List.filter (Spec.accepted L format_type) pairs = [].
Proof.
  intros Hraise. induction pairs as [|pair pairs IH]; [reflexivity|].
  cbn [List.filter]. rewrite IH.
  assert (Hno : Spec.accepted L format_type pair = false);
    [|now rewrite Hno].
  unfold Spec.accepted.
  destruct (parse_datetime (snd pair) format_type); [|reflexivity].
  cbv zeta.
  destruct (snd (extract_user_and_message (fst pair))) as [|c body].
  - reflexivity.
  - unfold clean_text_for_analysis. cbn [PyStr.is_empty].
    rewrite Hraise. apply andb_false_r.
Qed.

(** The outcome of [preprocess] in terms of the rows and the users of
    the turns of its loop. *)
Lemma preprocess_outcome (L : libraries) (file_content : string)
      (anonymize : bool) :
  let format_type := detect_format file_content in
  let messages := fst (extract_messages_and_dates file_content format_type) in
  let dates := snd (extract_messages_and_dates file_content format_type) in
  let rows := Spec.kept_rows L format_type (combine messages dates) in
  let participants :=
    Facts.participants_of
      (Spec.seen_users L format_type (combine messages dates)) in
  let mapping :=
    if anonymize then anonymize_participants participants else [] in
  let df :=
    map (fun m =>
           mk_message (timestamp m) (username m) (msg_type m)
             (original_text m) (cleaned_text m) (language m)
             (msg_features m)
             (if anonymize then dict_get (username m) mapping
              else Some (username m)))
        rows in
  preprocess L file_content anonymize
  = match findall (pattern_for format_type) file_content with
    | [] => Failure "No messages found in the chat file"
    | _ :: _ =>
        match rows with
        | [] => Failure "No valid messages found after preprocessing"
        | _ :: _ =>
            Success df
              (mk_summary (List.length df) (List.length participants)
                          format_type mapping)
        end
    end.
Proof.
  cbv zeta. unfold preprocess.
  destruct (extract_messages_and_dates_interleaved
              file_content (detect_format file_content)) as (Hd & Hl & _).
  destruct (extract_messages_and_dates file_content
              (detect_format file_content)) as [messages dates].
  cbn [fst snd] in *. rewrite process_all_eq, <- Hd.
  destruct messages as [|m messages], dates as [|d dates];
    try discriminate Hl; [reflexivity|].
  destruct (Spec.kept_rows L (detect_format file_content)
              (combine (m :: messages) (d :: dates))) as [|row rows];
    reflexivity.
Qed.

(** A successful [preprocess] in terms of the rows it keeps. *)
Lemma preprocess_success (L : libraries) (file_content : string)
      (anonymize : bool) (df : list processed_message) (s : summary) :
  preprocess L file_content anonymize = Success df s ->
  let format_type := detect_format file_content in
  let messages := fst (extract_messages_and_dates file_content format_type) in
  let dates := snd (extract_messages_and_dates file_content format_type) in
  let rows := Spec.kept_rows L format_type (combine messages dates) in
  let participants :=
    Facts.participants_of
      (Spec.seen_users L format_type (combine messages dates)) in
  let mapping :=
    if anonymize then anonymize_participants participants else [] in
  rows <> []
  /\ df = map (fun m =>
                 mk_message (timestamp m) (username m) (msg_type m)
                   (original_text m) (cleaned_text m) (language m)
                   (msg_features m)
                   (if anonymize then dict_get (username m) mapping
                    else Some (username m)))
              rows
  /\ s = mk_summary (List.length df) (List.length participants)
                    format_type mapping.
Proof.
  cbv zeta. rewrite preprocess_outcome.
  destruct (findall _ file_content); [discriminate|].
  destruct (Spec.kept_rows L (detect_format file_content) _) as [|row rows];
    [discriminate|].
  intros [= <- <-]. split; [discriminate|]. split; reflexivity.
Qed.

Lemma media_marker_system (body : string) :
  PyStr.contains "<Media omitted>" body = true ->
  is_system_message body = true.
Proof.
  intros H. pose proof (media_marker_never_media "" body H) as Hc.
  destruct (classify_system _ _ _ _ Hc) as [Hsys _]. now apply Hsys.
Qed.

(** C2 on the code.  A body that is, or contains, ["<Media omitted>"] is
    classified [system], not [media], and the speaker is replaced by
    ["System"]: the marker is one of the system patterns, which are tried
    first.  So whatever the libraries answer, a row of [preprocess] with
    the marker in its text is typed [system] with the user ["System"].
    Whether the message counts in [total_messages] is decided by the
    cleaning that follows: with an extractor whose [remove_urls] raises
    at every call the row is not appended, and [preprocess] fails on the
    transcript with the marker. *)
Theorem media_marker_classified_system :
  (forall user, classify user "<Media omitted>" = (system, "System"))
  /\ (forall user body,
         PyStr.contains "<Media omitted>" body = true ->
         classify user body = (system, "System"))
  /\ (forall (L : libraries) (file_content : string) (anonymize : bool)
             (rows : list processed_message) (s : summary),
         preprocess L file_content anonymize = Success rows s ->
         forall m,
           In m rows ->
           PyStr.contains "<Media omitted>" (original_text m) = true ->
           msg_type m = system /\ username m = "System")
  /\ (forall (L : libraries) (anonymize : bool),
         (forall text, remove_urls L text = None) ->
         preprocess L Examples.media_transcript anonymize
         = Failure "No valid messages found after preprocessing").
Proof.
  split; [intros user; now apply media_marker_never_media|].
  split; [exact media_marker_never_media|].
  split.
  - intros L file_content anonymize rows s H m Hm Hmarker.
    destruct (preprocess_success _ _ _ _ _ H) as (_ & Hdf & _).
    rewrite Hdf in Hm. apply in_map_iff in Hm.
    destruct Hm as (m0 & <- & Hm0).
    cbn [msg_type username original_text] in *.
    destruct (kept_rows_In _ _ _ _ Hm0) as [(_ & _ & Hsys & Huser & _) _].
    assert (Hs : msg_type m0 = system)
      by (apply Hsys; now apply media_marker_system).
    split; [exact Hs|now apply Huser].
  - intros L anonymize Hraise. rewrite preprocess_outcome.
    pose proof (kept_rows_accepted L (detect_format Examples.media_transcript)
                  (combine
                     (fst (extract_messages_and_dates
                             Examples.media_transcript
                             (detect_format Examples.media_transcript)))
                     (snd (extract_messages_and_dates
                             Examples.media_transcript
                             (detect_format Examples.media_transcript)))))
      as Hlen.
    rewrite (accepted_without_remove_urls _ _ _ Hraise) in Hlen.
    apply length_zero_iff_nil in Hlen. rewrite Hlen.
    vm_compute. reflexivity.
Qed.

(** ** The failure policy of [preprocess] *)

(** The policy on the pairs that the extraction hands to the loop.  A
    pair is accepted when its timestamp parses, the body of its chunk is
    not blank and [clean_text_for_analysis] returns on the body.
    [preprocess] fails exactly when no pair is accepted, with the message
    of the empty file when the text has no timestamp; otherwise it
    counts one message for every accepted pair.  With an extractor whose
    [remove_urls] raises at every call no pair is accepted, and
    [preprocess] fails on every file. *)
Lemma preprocess_failure_policy (L : libraries) (file_content : string)
      (anonymize : bool) :
  let format_type := detect_format file_content in
  let messages := fst (extract_messages_and_dates file_content format_type) in
  let dates := snd (extract_messages_and_dates file_content format_type) in
  let kept :=
    List.filter (Spec.accepted L format_type) (combine messages dates) in
  let error :=
    match findall (pattern_for format_type) file_content with
    | [] => "No messages found in the chat file"
    | _ :: _ => "No valid messages found after preprocessing"
    end in
  (kept = [] -> preprocess L file_content anonymize = Failure error)
  /\ (kept <> [] ->
      exists df s,
        preprocess L file_content anonymize = Success df s
        /\ total_messages s = List.length kept)
  /\ ((forall text, remove_urls L text = None) ->
      preprocess L file_content anonymize = Failure error).
Proof.
  cbv zeta.
  pose proof (kept_rows_accepted L (detect_format file_content)
                (combine
                   (fst (extract_messages_and_dates file_content
                           (detect_format file_content)))
                   (snd (extract_messages_and_dates file_content
                           (detect_format file_content))))) as Hlen.
  assert (Hfail :
            List.filter (Spec.accepted L (detect_format file_content))
              (combine
                 (fst (extract_messages_and_dates file_content
                         (detect_format file_content)))
                 (snd (extract_messages_and_dates file_content
                         (detect_format file_content)))) = [] ->
            preprocess L file_content anonymize
            = Failure
                match findall (pattern_for (detect_format file_content))
                              file_content with
                | [] => "No messages found in the chat file"
                | _ :: _ => "No valid messages found after preprocessing"
                end).
  { intros Hnil. rewrite Hnil in Hlen. apply length_zero_iff_nil in Hlen.
    rewrite preprocess_outcome, Hlen.
    now destruct (findall _ file_content). }
  split; [exact Hfail|]. split.
  - intros Hne. rewrite preprocess_outcome.
    destruct (findall (pattern_for (detect_format file_content))
                      file_content) as [|d ds] eqn:Hfound.
    { exfalso. apply Hne.
      destruct (extract_messages_and_dates_interleaved
                  file_content (detect_format file_content)) as (Hd & _).
      cbv zeta in Hd. rewrite Hd, Hfound.
      now destruct (fst (extract_messages_and_dates file_content
                           (detect_format file_content))). }
    destruct (Spec.kept_rows L (detect_format file_content) _)
      as [|row rows] eqn:Hrows.
    { exfalso. apply Hne. apply length_zero_iff_nil. now rewrite <- Hlen. }
    eexists. eexists. split; [reflexivity|].
    cbn [total_messages]. now rewrite length_map, Hlen.
  - intros Hraise. apply Hfail. now apply accepted_without_remove_urls.
Qed.

Lemma preprocess_failure_policy_witness :
  (exists df s,
      preprocess Examples.plain_libraries Examples.media_transcript true
      = Success df s
      /\ total_messages s = 2)
  /\ preprocess Examples.no_remove_urls Examples.media_transcript true
     = Failure "No valid messages found after preprocessing".
Proof.
  split.
  - pose proof (preprocess_failure_policy Examples.plain_libraries
                  Examples.media_transcript true) as H.
    cbv zeta in H. destruct H as (_ & H & _).
    destruct H as (df & s & Hp & Hn); [vm_compute; discriminate|].
    exists df, s. split; [exact Hp|]. rewrite Hn. vm_compute. reflexivity.
  - pose proof (preprocess_failure_policy Examples.no_remove_urls
                  Examples.media_transcript true) as H.
    cbv zeta in H. destruct H as (_ & _ & H).
    rewrite H; [vm_compute; reflexivity|]. intros text. reflexivity.
Defined.

(** C4 on the code: the second line of the transcript is a regular
    message (its timestamp parses, its body is not empty), and yet
    [preprocess] fails, whatever the libraries answer: the timestamp of
    the first line is paired with itself, the timestamp of the second
    line with the empty text after the first one, and the message of the
    second line with nothing. *)
Theorem preprocess_fails_with_valid_line :
  extract_messages_and_dates Examples.second_line "android"
  = (["12/25/2023, 10:31"], ["12/25/2023, 10:31"])
  /\ parse_datetime "12/25/2023, 10:31" "android"
     = Some (mk_datetime 2023 12 25 10 31 0)
  /\ extract_user_and_message "John: Hello" = ("John", "Hello")
  /\ extract_messages_and_dates Examples.transcript "android"
     = (["99/99/2023, 10:30"; Examples.LF],
        ["99/99/2023, 10:30"; "12/25/2023, 10:31"])
  /\ (forall (L : libraries) (st : loop_state),
         process_message L "android" st
           ("99/99/2023, 10:30", "99/99/2023, 10:30")
         = st)
  /\ (forall (L : libraries) (st : loop_state),
         process_message L "android" st (Examples.LF, "12/25/2023, 10:31")
         = st)
  /\ (forall (L : libraries) (anonymize : bool),
        preprocess L Examples.transcript anonymize
        = Failure "No valid messages found after preprocessing").
Proof.
  repeat apply conj; try (vm_compute; reflexivity).
  - intros L [rows participants]. vm_compute. reflexivity.
  - intros L [rows participants]. vm_compute. reflexivity.
Qed.

(** ** The rows of [preprocess] *)



Lemma anonymize_participants_has (participants : list string) (p : string) :
  In p participants ->
  exists i,
    dict_get p (anonymize_participants participants)
    = Some (Spec.anonymized_name i p).
Proof.
  intros Hp.
  assert (Hin : In p (sorted (set_of participants)))
    by (unfold set_of; now rewrite sorted_In, nodup_In).
  destruct (In_nth_error _ _ Hin) as [i Hi]. exists i.
  apply (dict_get_nth _) with (i := i).
  - rewrite anonymize_participants_keys. apply sorted_NoDup, NoDup_nodup.
  - rewrite anonymize_participants_map, nth_error_map,
      (enumerate_nth _ i p Hi). reflexivity.
Qed.

(** The anonymized user names of the rows, whatever the libraries
    answer.  When anonymization is asked for, the mapping of the summary
    is that of the set of participants of the loop, which has
    [total_participants] members and among them the user of every row;
    every row has an anonymized name, which is the one the mapping gives
    to its user, and the rows of the system keep the name ["System"].
    When it is not asked for, the mapping is empty and every row keeps
    its user name. *)
Theorem preprocess_anonymized_usernames :
  forall (L : libraries) (file_content : string)
         (df : list processed_message) (s : summary),
    (preprocess L file_content true = Success df s ->
     (exists participants,
         participant_mapping s = anonymize_participants participants
         /\ NoDup participants
         /\ List.length participants = total_participants s
         /\ incl (map username df) participants)
     /\ forall row,
         In row df ->
         exists v,
           anonymized_username row = Some v
           /\ dict_get (username row) (participant_mapping s) = Some v
           /\ (msg_type row = system -> v = "System"))
    /\ (preprocess L file_content false = Success df s ->
        participant_mapping s = []
        /\ forall row,
            In row df -> anonymized_username row = Some (username row)).
Proof.
  intros L file_content df s. split; intros H;
    destruct (preprocess_success _ _ _ _ _ H) as (Hne & Hdf & Hs).
  - set (fmt := detect_format file_content) in *.
    set (rows := Spec.kept_rows L fmt _) in *.
    set (seen := Spec.seen_users L fmt _) in *.
    destruct (participants_of_spec seen) as [Hnd Hin].
    assert (Hrows : forall m, In m rows ->
                              In (username m) (Facts.participants_of seen)
                              /\ (msg_type m = system ->
                                  username m = "System")).
    { intros m Hm.
      destruct (kept_rows_In _ _ _ _ Hm) as [(_ & _ & _ & Huser & _) Hseen].
      split; [now apply Hin|exact Huser]. }
    rewrite Hs. cbn [participant_mapping total_participants]. split.
    { exists (Facts.participants_of seen).
      split; [reflexivity|]. split; [exact Hnd|]. split; [reflexivity|].
      intros x Hx. rewrite Hdf, map_map in Hx. cbn [username] in Hx.
      apply in_map_iff in Hx. destruct Hx as (m & <- & Hm).
      now apply Hrows. }
    intros row Hrow. rewrite Hdf in Hrow. apply in_map_iff in Hrow.
    destruct Hrow as (m & <- & Hm).
    cbn [anonymized_username username msg_type].
    destruct (Hrows m Hm) as [Hu Huser].
    destruct (anonymize_participants_has _ _ Hu) as [i Hi].
    exists (Spec.anonymized_name i (username m)).
    split; [exact Hi|]. split; [exact Hi|].
    intros Hsys. now rewrite (Huser Hsys).
  - rewrite Hs. cbn [participant_mapping]. split; [reflexivity|].
    intros row Hrow. rewrite Hdf in Hrow. apply in_map_iff in Hrow.
    destruct Hrow as (m & <- & _). reflexivity.
Qed.

Lemma preprocess_anonymized_usernames_witness :
  exists df s,
    preprocess Examples.plain_libraries Examples.media_transcript true
    = Success df s
    /\ forall row,
        In row df ->
        exists v,
          anonymized_username row = Some v
          /\ dict_get (username row) (participant_mapping s) = Some v
          /\ (msg_type row = system -> v = "System").
Proof.
  destruct (preprocess Examples.plain_libraries Examples.media_transcript true)
    as [df s|e] eqn:H; [|vm_compute in H; discriminate H].
  exists df, s. split; [reflexivity|].
  destruct (preprocess_anonymized_usernames Examples.plain_libraries
              Examples.media_transcript df s) as [Htrue _].
  apply (Htrue H).
Defined.

(** ** Timestamps *)

(** A timestamp that [parse_datetime] returns is a date and a time that
    exist: the month is between 1 and 12, the day between 1 and the number
    of days of that month in that year, the hour below 24, the minute and
    the second below 60.  The second argument plays no part. *)
Theorem parse_datetime_fields :
  forall (date_str format_type : string) (t : datetime),
    parse_datetime date_str format_type = Some t ->
    1 <= month t <= 12
    /\ 1 <= day t <= days_in_month (year t) (month t)
    /\ days_in_month (year t) (month t) <= 31
    /\ 1 <= year t
    /\ hour t <= 23 /\ minute t <= 59 /\ second t <= 59
    /\ forall other, parse_datetime date_str other = Some t.
Proof.
  intros date_str format_type t H.
  pose proof (first_parse_valid _ _ _ H) as Hv.
  unfold valid in Hv. rewrite !andb_true_iff, !Nat.leb_le in Hv.
  assert (Hd : days_in_month (year t) (month t) <= 31).
  { unfold days_in_month.
    destruct (month t) as [|[|[|[|[|[|[|[|[|[|[|[|n]]]]]]]]]]]];
      try destruct (is_leap (year t)); lia. }
  repeat split; try lia. intros other. exact H.
Qed.

Lemma parse_datetime_fields_witness :
  1 <= month (mk_datetime 2024 2 29 9 5 59) <= 12
  /\ 1 <= day (mk_datetime 2024 2 29 9 5 59)
     <= days_in_month (year (mk_datetime 2024 2 29 9 5 59))
                      (month (mk_datetime 2024 2 29 9 5 59)).
Proof.
  destruct (parse_datetime_fields "[02/29/2024, 9:05:59]" "ios"
              (mk_datetime 2024 2 29 9 5 59)) as (H1 & H2 & _).
  - vm_compute. reflexivity.
  - split; assumption.
Defined.

(** ** Words *)

Import Validation.

Lemma is_empty_length (w : string) :
  PyStr.is_empty w = true -> String.length w = 0.
Proof. destruct w; [reflexivity|discriminate]. Qed.

Lemma split_ws_lengths (s : string) :
  forall word,
    Facts.total_length (split_ws s word)
    = String.length word + PyStr.count_if Facts.not_space s.
Proof.
  induction s as [|c s IH]; intros word; cbn [split_ws PyStr.count_if].
  - destruct (PyStr.is_empty word) eqn:Hw; simpl;
      [rewrite (is_empty_length _ Hw)|]; lia.
  - unfold Facts.not_space at 1. destruct (PyStr.isspace c); cbn [negb].
    + destruct (PyStr.is_empty word) eqn:Hw; cbn [Facts.total_length];
        rewrite IH; [rewrite (is_empty_length _ Hw)|]; simpl; lia.
    + rewrite IH, string_length_app. simpl. lia.
Qed.

Lemma all_chars_app (p : ascii -> bool) (s t : string) :
  Facts.all_chars p (s ++ t)
  = Facts.all_chars p s && Facts.all_chars p t.
Proof.
  induction s as [|c s IH]; simpl; [reflexivity|].
  now rewrite IH, andb_assoc.
Qed.

Lemma split_ws_words (s : string) :
  forall word,
    Facts.all_chars Facts.not_space word = true ->
    Forall (fun w => w <> "" /\ Facts.all_chars Facts.not_space w = true)
           (split_ws s word).
Proof.
  induction s as [|c s IH]; intros word Hw; cbn [split_ws].
  - destruct word; simpl; [constructor|].
    constructor; [split; [discriminate|exact Hw]|constructor].
  - destruct (PyStr.isspace c) eqn:Hc.
    + destruct word; cbn [PyStr.is_empty].
      * now apply IH.
      * constructor; [split; [discriminate|exact Hw]|now apply IH].
    + apply IH. rewrite all_chars_app, Hw. simpl.
      unfold Facts.not_space. now rewrite Hc.
Qed.

Lemma split_ws_nil (s : string) :
  forall word,
    split_ws s word = [] <->
    word = "" /\ Facts.all_chars PyStr.isspace s = true.
Proof.
  induction s as [|c s IH]; intros word; cbn [split_ws Facts.all_chars].
  - destruct word; simpl; split; try tauto; try discriminate.
    intros [H _]. discriminate H.
  - destruct (PyStr.isspace c); cbn [andb].
    + destruct word; cbn [PyStr.is_empty].
      * rewrite IH. tauto.
      * split; [discriminate|]. intros [H _]. discriminate H.
    + rewrite IH. split; [|intros [_ H]; discriminate H].
      intros [H _]. destruct word; discriminate H.
Qed.

Lemma lstrip_by_empty (p : ascii -> bool) (s : string) :
  PyStr.lstrip_by p s = "" <-> Facts.all_chars p s = true.
Proof.
  induction s as [|c s IH]; simpl; [tauto|].
  destruct (p c); simpl; [exact IH|]. split; discriminate.
Qed.

Lemma rstrip_by_empty (p : ascii -> bool) (s : string) :
  PyStr.rstrip_by p s = "" <-> Facts.all_chars p s = true.
Proof.
  induction s as [|c s IH]; simpl; [tauto|].
  destruct (PyStr.rstrip_by p s) as [|d r].
  - destruct (p c); simpl; [tauto|]. split; discriminate.
  - split; [discriminate|]. rewrite andb_true_iff. intros [_ H].
    apply IH in H. discriminate H.
Qed.

Lemma strip_empty (s : string) :
  PyStr.strip s = "" <-> Facts.all_chars PyStr.isspace s = true.
Proof.
  unfold PyStr.strip, PyStr.strip_by. rewrite rstrip_by_empty. split.
  - intros H. apply lstrip_by_empty.
    pose proof (lstrip_by_head_ok PyStr.isspace s) as Hhead.
    destruct (PyStr.lstrip_by PyStr.isspace s) as [|c r]; [reflexivity|].
    simpl in H. rewrite Hhead in H. discriminate H.
  - intros H. apply lstrip_by_empty in H. now rewrite H.
Qed.

Lemma words_length_le (P : string -> Prop) (ws : list string) :
  Forall (fun w => w <> "" /\ P w) ws ->
  List.length ws <= Facts.total_length ws.
Proof.
  induction 1 as [|w ws [Hw _] _ IH]; simpl; [lia|].
  destruct w; [congruence|]. simpl. lia.
Qed.

(** The feature [word_count].  The words of a message are not empty and
    have no white space; together they have exactly the characters of the
    message that are not white space, so there are no more words than
    such characters; and a message has no word exactly when stripping it
    leaves nothing. *)
Theorem word_count_words :
  forall message : string,
    let words := split_ws message "" in
    Forall (fun w => w <> "" /\ Facts.all_chars Facts.not_space w = true) words
    /\ Facts.total_length words = PyStr.count_if Facts.not_space message
    /\ word_count message <= PyStr.count_if Facts.not_space message
    /\ PyStr.count_if Facts.not_space message <= String.length message
    /\ (word_count message = 0 <-> PyStr.strip message = "").
Proof.
  intros message. cbv zeta.
  pose proof (split_ws_words message "" eq_refl) as Hwords.
  pose proof (split_ws_lengths message "") as Hsum. simpl in Hsum.
  split; [exact Hwords|]. split; [exact Hsum|]. split; [|split].
  - rewrite <- Hsum. unfold word_count.
    apply (words_length_le _ _ Hwords).
  - apply count_if_le_length.
  - unfold word_count. rewrite length_zero_iff_nil, split_ws_nil, strip_empty.
    tauto.
Qed.

(** ** Validating a file *)

Lemma first_matching_patterns (t f : string) :
  first_matching patterns t = Some f ->
  (f = "android" \/ f = "ios") /\ search (pattern_for f) t = true.
Proof.
  unfold patterns. cbn [first_matching].
  destruct (search android_pattern t) eqn:Ha.
  - intros [= <-]. split; [now left|exact Ha].
  - destruct (search ios_pattern t) eqn:Hi.
    + intros [= <-]. split; [now right|exact Hi].
    + discriminate.
Qed.

(** [validate_chat_file].  A file is valid exactly when no issue is
    reported; an invalid file comes with one issue, no format and no
    warning.  A valid file has at least 100 characters, its format is
    ["android"] or ["ios"], the pattern of that format matches in the
    first 2000 characters, and the text has at least five timestamps of
    that pattern.  A file of less than 100 characters is never valid. *)
Theorem validate_chat_file_valid :
  forall file_content : string,
    let r := validate_chat_file file_content in
    (is_valid r = true <-> issues r = [])
    /\ (is_valid r = false ->
        List.length (issues r) = 1 /\ format r = None /\ warnings r = [])
    /\ (is_valid r = true ->
        100 <= String.length file_content
        /\ exists f,
            format r = Some f
            /\ (f = "android" \/ f = "ios")
            /\ search (pattern_for f) (PyStr.take 2000 file_content) = true
            /\ 5 <= List.length (findall (pattern_for f) file_content))
    /\ (String.length file_content < 100 -> is_valid r = false).
Proof.
  intros file_content. cbv zeta. unfold validate_chat_file.
  destruct (Nat.ltb_spec (String.length file_content) 100) as [Hlen|Hlen].
  { cbn. repeat split; try discriminate; auto. }
  destruct (first_matching patterns (PyStr.take 2000 file_content))
    as [f|] eqn:Hf.
  2:{ cbn. repeat split; try discriminate; auto; lia. }
  destruct (first_matching_patterns _ _ Hf) as [Hfmt Hsearch].
  destruct (extract_messages_and_dates_interleaved file_content f)
    as (Hd & Hl & _).
  destruct (Nat.ltb_spec
              (List.length (fst (extract_messages_and_dates file_content f)))
              5) as [Hfew|Hmany].
  { cbn. repeat split; try discriminate; auto; lia. }
  cbn [is_valid issues format warnings].
  split; [tauto|]. split; [discriminate|]. split; [|lia].
  intros _. split; [exact Hlen|]. exists f.
  split; [reflexivity|]. split; [exact Hfmt|]. split; [exact Hsearch|].
  rewrite <- Hd, <- Hl. exact Hmany.
Qed.

Lemma validate_chat_file_valid_witness :
  is_valid (validate_chat_file Examples.media_transcript) = false
  /\ List.length (issues (validate_chat_file Examples.media_transcript)) = 1.
Proof.
  destruct (validate_chat_file_valid Examples.media_transcript)
    as (_ & Hinvalid & _ & Hshort).
  assert (H : is_valid (validate_chat_file Examples.media_transcript) = false)
    by (apply Hshort; vm_compute; lia).
  split; [exact H|]. apply (Hinvalid H).
Defined.

(** * Further properties of the ensemble *)

Lemma np_sum_bounds (lo hi : R) (l : list R) :
  (forall x, In x l -> (lo <= x <= hi)%R) ->
  (INR (List.length l) * lo <= np_sum l <= INR (List.length l) * hi)%R.
Proof.
  induction l as [|a l IH]; intros H.
  - simpl. lra.
  - assert (Ha : (lo <= a <= hi)%R) by (apply H; now left).
    assert (Hl : forall x, In x l -> (lo <= x <= hi)%R)
      by (intros x Hx; apply H; now right).
    specialize (IH Hl). cbn [List.length]. rewrite S_INR.
    unfold np_sum in *. cbn [fold_right]. lra.
Qed.

Lemma INR_length_pos {A : Type} (l : list A) :
  l <> [] -> (0 < INR (List.length l))%R.
Proof.
  destruct l; [congruence|]. intros _. apply lt_0_INR. simpl. lia.
Qed.

(** The mean of scores lies between any bounds of the scores. *)
Lemma np_mean_bounds (lo hi : R) (l : list R) :
  l <> [] ->
  (forall x, In x l -> (lo <= x <= hi)%R) ->
  (lo <= np_mean l <= hi)%R.
Proof.
  intros Hne H. pose proof (np_sum_bounds lo hi l H) as [Hlo Hhi].
  pose proof (INR_length_pos l Hne) as Hn.
  unfold np_mean. split.
  - apply (Rmult_le_reg_r (INR (List.length l))); [exact Hn|].
    unfold Rdiv. rewrite Rmult_assoc, Rinv_l by lra. lra.
  - apply (Rmult_le_reg_r (INR (List.length l))); [exact Hn|].
    unfold Rdiv. rewrite Rmult_assoc, Rinv_l by lra. lra.
Qed.

Lemma np_sum_nonneg (l : list R) :
  (forall x, In x l -> (0 <= x)%R) -> (0 <= np_sum l)%R.
Proof.
  induction l as [|a l IH]; intros Hpos; unfold np_sum in *;
    cbn [fold_right]; [lra|].
  assert (0 <= a)%R by (apply Hpos; now left).
  assert (0 <= fold_right Rplus 0 l)%R
    by (apply IH; intros y Hy; apply Hpos; now right).
  lra.
Qed.

Lemma np_sum_nonneg_zero (l : list R) :
  (forall x, In x l -> (0 <= x)%R) ->
  np_sum l = 0%R -> forall x, In x l -> x = 0%R.
Proof.
  induction l as [|a l IH]; intros Hpos Hsum x Hx; [destruct Hx|].
  assert (Ha : (0 <= a)%R) by (apply Hpos; now left).
  assert (Hl : forall y, In y l -> (0 <= y)%R)
    by (intros y Hy; apply Hpos; now right).
  pose proof (np_sum_nonneg l Hl) as Hs.
  unfold np_sum in *. cbn [fold_right] in Hsum.
  destruct Hx as [<-|Hx]; [lra|].
  apply IH; auto. unfold np_sum. lra.
Qed.

(** The standard deviation is 0 exactly when the scores are all equal. *)
Lemma np_std_zero (l : list R) :
  l <> [] ->
  (np_std l = 0%R <-> forall x y, In x l -> In y l -> x = y).
Proof.
  intros Hne. pose proof (INR_length_pos l Hne) as Hn.
  remember (np_mean l) as m eqn:Hm.
  remember (map (fun x => ((x - m) * (x - m))%R) l) as sq eqn:Hsq.
  assert (Hstd : np_std l = sqrt (np_mean sq))
    by (unfold np_std; cbv zeta; now rewrite <- Hm, <- Hsq).
  assert (Hsq_pos : forall z, In z sq -> (0 <= z)%R).
  { intros z Hz. rewrite Hsq in Hz. apply in_map_iff in Hz.
    destruct Hz as (x & <- & _). exact (Rle_0_sqr (x - m)). }
  assert (Hlen : List.length sq = List.length l)
    by (rewrite Hsq; apply length_map).
  assert (Hmean_pos : (0 <= np_mean sq)%R).
  { unfold np_mean, Rdiv. apply Rmult_le_pos; [now apply np_sum_nonneg|].
    left. apply Rinv_0_lt_compat. now rewrite Hlen. }
  rewrite Hstd. split.
  - intros H0. apply sqrt_eq_0 in H0; [|exact Hmean_pos].
    assert (Hsum : np_sum sq = 0%R).
    { unfold np_mean in H0. rewrite Hlen in H0.
      apply (Rmult_eq_compat_r (INR (List.length l))) in H0.
      unfold Rdiv in H0. rewrite Rmult_assoc, Rinv_l in H0 by lra.
      lra. }
    assert (Hall : forall x, In x l -> x = m).
    { intros x Hx.
      assert (Hz : ((x - m) * (x - m) = 0)%R).
      { apply (np_sum_nonneg_zero sq Hsq_pos Hsum).
        rewrite Hsq. apply in_map_iff. now exists x. }
      apply Rmult_integral in Hz. lra. }
    intros x y Hx Hy. now rewrite (Hall x Hx), (Hall y Hy).
  - intros Heq.
    destruct l as [|v l']; [congruence|].
    assert (Hall : forall x, In x (v :: l') -> x = v)
      by (intros x Hx; apply Heq; [exact Hx|now left]).
    assert (Hmv : m = v).
    { assert (Hb : (v <= np_mean (v :: l') <= v)%R).
      { apply np_mean_bounds; [discriminate|].
        intros x Hx. rewrite (Hall x Hx). lra. }
      lra. }
    assert (Hzero : forall z, In z sq -> (0 <= z <= 0)%R).
    { intros z Hz. rewrite Hsq in Hz. apply in_map_iff in Hz.
      destruct Hz as (x & <- & Hx). rewrite (Hall x Hx), Hmv. lra. }
    assert (Hb : (0 <= np_mean sq <= 0)%R).
    { apply np_mean_bounds; [|exact Hzero].
      intros E. rewrite E in Hlen. discriminate Hlen. }
    replace (np_mean sq) with 0%R by lra. apply sqrt_0.
Qed.

Lemma nodup_singleton (l : list string) :
  l <> [] ->
  (List.length (nodup string_dec l) = 1
   <-> forall x y, In x l -> In y l -> x = y).
Proof.
  intros Hne. pose proof (NoDup_nodup string_dec l) as Hnd.
  assert (Hin : forall x, In x (nodup string_dec l) <-> In x l)
    by (intros x; apply nodup_In).
  split.
  - intros Hlen x y Hx Hy. apply Hin in Hx, Hy.
    destruct (nodup string_dec l) as [|a [|b r]]; try discriminate Hlen.
    destruct Hx as [<-|[]], Hy as [<-|[]]. reflexivity.
  - intros Heq. destruct l as [|a l']; [congruence|].
    assert (Ha : In a (nodup string_dec (a :: l')))
      by (apply Hin; now left).
    destruct (nodup string_dec (a :: l')) as [|x [|y r]];
      [destruct Ha|reflexivity|].
    exfalso. inversion Hnd as [|? ? Hx _]; subst. apply Hx.
    assert (x = y); [|subst; now left].
    apply Heq; apply Hin; [now left|right; now left].
Qed.

(** The verdict of the ensemble when scorers contribute.  Its
    confidence lies between 0 and 1.  [model_agreement] holds exactly
    when the contributing labels are all equal, and then every
    contributing label is the label of the ensemble; in any case the label
    of the ensemble is one of the contributing labels. *)
Theorem ensemble_verdict_ranges :
  forall (set_iter : list string -> list string)
         (analyzers : dict analyzer) (text language : string),
    Spec.iterates_set set_iter ->
    PyStr.is_empty text = false ->
    Spec.contributing analyzers text language <> [] ->
    let labels := Spec.contributing_labels analyzers text language in
    let fused := ensemble_sentiment
                   (analyze_text set_iter analyzers text language) in
    exists c a l,
      e_confidence fused = Some c
      /\ e_model_agreement fused = Some a
      /\ e_label fused = Some l
      /\ (0 <= c <= 1)%R
      /\ In l labels
      /\ (a = true <-> forall x y, In x labels -> In y labels -> x = y)
      /\ (a = true -> forall x, In x labels -> x = l).
Proof.
  intros set_iter analyzers text language Hset Hne Hc. cbv zeta.
  destruct (contributing_nonempty _ _ _ Hc) as [Hs Hl].
  destruct (elected_label set_iter Hset _ Hl)
    as (l1 & pre & post & Hmax & Hin & _).
  destruct (analyze_text_contributing set_iter Hset analyzers text language
              Hne Hc) as (res & l & Hmax0 & ->).
  rewrite Hmax in Hmax0. injection Hmax0 as <-.
  cbn [ensemble_sentiment e_label e_confidence e_model_agreement].
  assert (Hagree :
            (List.length
               (set_iter (Spec.contributing_labels analyzers text language))
             =? 1) = true
            <-> forall x y,
                In x (Spec.contributing_labels analyzers text language) ->
                In y (Spec.contributing_labels analyzers text language) ->
                x = y).
  { rewrite Nat.eqb_eq, (Permutation_length (Hset _)).
    now apply nodup_singleton. }
  eexists. eexists. eexists.
  split; [reflexivity|]. split; [reflexivity|]. split; [reflexivity|].
  split; [apply ensemble_confidence_bounds|].
  split; [exact Hin|]. split; [exact Hagree|].
  intros Ha x Hx. apply Hagree; assumption.
Qed.

Lemma ensemble_verdict_ranges_witness :
  exists c a l,
    e_confidence (ensemble_sentiment
               (analyze_text Examples.first_seen
                  (initialize_analyzers
                     (Examples.constant_engines 0.5 (-0.5) []) false)
                  "hm" "en")) = Some c
    /\ e_model_agreement (ensemble_sentiment
               (analyze_text Examples.first_seen
                  (initialize_analyzers
                     (Examples.constant_engines 0.5 (-0.5) []) false)
                  "hm" "en")) = Some a
    /\ e_label (ensemble_sentiment
               (analyze_text Examples.first_seen
                  (initialize_analyzers
                     (Examples.constant_engines 0.5 (-0.5) []) false)
                  "hm" "en")) = Some l
    /\ (0 <= c <= 1)%R
    /\ a = false
    /\ In l ["positive"; "negative"].
Proof.
  assert (Hc : Spec.contributing
                 (initialize_analyzers
                    (Examples.constant_engines 0.5 (-0.5) []) false)
                 "hm" "en"
               = [(0.5, "positive"); (-0.5, "negative")]%R)
    by (apply example_contributing; lra).
  destruct (ensemble_verdict_ranges Examples.first_seen
              (initialize_analyzers
                 (Examples.constant_engines 0.5 (-0.5) []) false)
              "hm" "en" first_seen_iterates_set eq_refl)
    as (c & a & l & H1 & H2 & H3 & H4 & H5 & H6 & _).
  - rewrite Hc. discriminate.
  - unfold Spec.contributing_labels in H5, H6. rewrite Hc in H5, H6.
    cbn [map snd] in H5, H6.
    exists c, a, l. repeat split; try assumption; try apply H4.
    destruct a; [|reflexivity].
    assert (E : "positive" = "negative");
      [apply H6; simpl; auto|discriminate E].
Defined.

(** ** Blank and long texts *)

Lemma is_empty_take (n : nat) (s : string) :
  PyStr.is_empty (PyStr.take (S n) s) = PyStr.is_empty s.
Proof. destruct s; reflexivity. Qed.

(** The models see the first 512 characters only.  Two texts that agree
    on them after stripping get the same verdict from the transformer
    scorer; two texts that agree on them get the same emotions, and the
    same toxicity when a toxicity model is loaded. *)
Theorem models_see_512_characters :
  forall (E : engines) (loads : bool)
         (emotion_pipeline : string -> option (list (string * R)))
         (toxicity_model : string -> option (string * R))
         (text1 text2 : string),
    (PyStr.take 512 (PyStr.strip text1) = PyStr.take 512 (PyStr.strip text2) ->
     transformer_analyze E text1 = transformer_analyze E text2)
    /\ (PyStr.take 512 text1 = PyStr.take 512 text2 ->
        Detectors.analyze_emotion loads emotion_pipeline text1
        = Detectors.analyze_emotion loads emotion_pipeline text2
        /\ Detectors.analyze_toxicity (Some toxicity_model) text1
           = Detectors.analyze_toxicity (Some toxicity_model) text2).
Proof.
  intros E loads emotion_pipeline toxicity_model text1 text2. split.
  - intros H. unfold transformer_analyze.
    rewrite !preprocess_text_strip, !truncate_512, H.
    rewrite <- (is_empty_take 511 (PyStr.strip text1)),
            <- (is_empty_take 511 (PyStr.strip text2)), H.
    reflexivity.
  - intros H.
    assert (He : PyStr.is_empty text1 = PyStr.is_empty text2).
    { rewrite <- (is_empty_take 511 text1), <- (is_empty_take 511 text2).
      now rewrite H. }
    unfold Detectors.analyze_emotion, Detectors.analyze_toxicity.
    rewrite !truncate_512, H, He. split; reflexivity.
Qed.

Lemma models_see_512_characters_witness :
  transformer_analyze (Examples.constant_engines 0 0 [("LABEL_2", 0.9%R)])
                      Examples.long_text_1
  = transformer_analyze (Examples.constant_engines 0 0 [("LABEL_2", 0.9%R)])
                        Examples.long_text_2
  /\ Detectors.analyze_toxicity (Some (fun _ => Some ("TOXIC", 0.9%R)))
                                Examples.long_text_1
     = Detectors.analyze_toxicity (Some (fun _ => Some ("TOXIC", 0.9%R)))
                                  Examples.long_text_2.
Proof.
  destruct (models_see_512_characters
              (Examples.constant_engines 0 0 [("LABEL_2", 0.9%R)])
              true (fun _ => None) (fun _ => Some ("TOXIC", 0.9%R))
              Examples.long_text_1 Examples.long_text_2) as [H1 H2].
  split.
  - apply H1. vm_compute. reflexivity.
  - apply H2. vm_compute. reflexivity.
Defined.

Lemma blank_contributions (E : engines) (use_transformers : bool)
      (text : string) :
  PyStr.strip text = "" ->
  vader_loads E = true ->
  exists rest,
    Spec.contributing (initialize_analyzers E use_transformers) text "en"
    = (0%R, "neutral") :: (0%R, "neutral") :: rest
    /\ forall v, In v rest -> v = (0%R, "neutral").
Proof.
  intros Hblank Hv.
  assert (Hvader : vader_analyze E text = Some neutral_result).
  { unfold vader_analyze.
    now rewrite Hv, preprocess_text_strip, Hblank. }
  assert (Htb : textblob_analyze E text = Some neutral_result).
  { unfold textblob_analyze. now rewrite preprocess_text_strip, Hblank. }
  assert (Htr : transformer_analyze E text = Some neutral_result
                \/ transformer_analyze E text = None).
  { unfold transformer_analyze.
    destruct (negb (transformers_available E && roberta_loads E));
      [now right|left].
    now rewrite preprocess_text_strip, Hblank. }
  unfold Spec.contributing, initialize_analyzers.
  destruct (use_transformers && transformers_available E);
    cbn [app flat_map snd is_language_supported supported_languages
         analyze_sentiment VADERAnalyzer TextBlobAnalyzer
         TransformerAnalyzer existsb String.eqb Ascii.eqb Bool.eqb orb];
    rewrite Hvader, Htb; cbn [score label neutral_result app].
  - destruct Htr as [-> | ->]; cbn [score label neutral_result app].
    + exists [(0%R, "neutral")]. split; [reflexivity|].
      intros v [<-|[]]. reflexivity.
    + exists []. split; [reflexivity|]. intros v [].
  - exists []. split; [reflexivity|]. intros v [].
Qed.

(** A text of white space only.  Every scorer that loads answers the
    neutral verdict on it without asking its library; and when VADER
    loads, the ensemble of such a text in English is neutral with score 0,
    confidence 1 and agreement, whatever the libraries are. *)
Theorem blank_text_verdicts :
  forall (set_iter : list string -> list string) (E : engines)
         (use_transformers : bool) (text : string),
    Spec.iterates_set set_iter ->
    PyStr.is_empty text = false ->
    PyStr.strip text = "" ->
    vader_loads E = true ->
    vader_analyze E text = Some neutral_result
    /\ textblob_analyze E text = Some neutral_result
    /\ (transformers_available E && roberta_loads E = true ->
        transformer_analyze E text = Some neutral_result)
    /\ exists s c,
        ensemble_sentiment
          (analyze_text set_iter (initialize_analyzers E use_transformers)
                        text "en")
        = mk_ensemble (Some s) (Some "neutral") (Some c) (Some true)
        /\ s = 0%R /\ c = 1%R.
Proof.
  intros set_iter E use_transformers text Hset Hne Hblank Hv.
  split; [unfold vader_analyze;
          now rewrite Hv, preprocess_text_strip, Hblank|].
  split; [unfold textblob_analyze;
          now rewrite preprocess_text_strip, Hblank|].
  split.
  { intros Ht. unfold transformer_analyze.
    now rewrite Ht, preprocess_text_strip, Hblank. }
  destruct (blank_contributions E use_transformers text Hblank Hv)
    as (rest & Hc & Hrest).
  assert (Hall : forall v,
             In v (Spec.contributing
                     (initialize_analyzers E use_transformers) text "en") ->
             v = (0%R, "neutral")).
  { rewrite Hc. intros v [<-|[<-|Hin]]; auto. }
  assert (Hcne : Spec.contributing
                   (initialize_analyzers E use_transformers) text "en" <> [])
    by (rewrite Hc; discriminate).
  destruct (contributing_nonempty _ _ _ Hcne) as [Hs Hl].
  assert (Hscores : forall x,
             In x (Spec.contributing_scores
                     (initialize_analyzers E use_transformers) text "en") ->
             x = 0%R).
  { intros x Hx. apply in_map_iff in Hx. destruct Hx as (v & <- & Hin).
    now rewrite (Hall v Hin). }
  assert (Hlabels : forall x,
             In x (Spec.contributing_labels
                     (initialize_analyzers E use_transformers) text "en") ->
             x = "neutral").
  { intros x Hx. apply in_map_iff in Hx. destruct Hx as (v & <- & Hin).
    now rewrite (Hall v Hin). }
  destruct (elected_label set_iter Hset _ Hl) as (l1 & _ & _ & Hmax1 & Hin1 & _).
  destruct (analyze_text_contributing set_iter Hset
              (initialize_analyzers E use_transformers) text "en" Hne Hcne)
    as (res & l & Hmax & ->).
  rewrite Hmax1 in Hmax. injection Hmax as <-.
  rewrite (Hlabels l1 Hin1).
  cbn [ensemble_sentiment].
  assert (Hagree : (List.length
                      (set_iter
                         (Spec.contributing_labels
                            (initialize_analyzers E use_transformers)
                            text "en")) =? 1) = true).
  { rewrite Nat.eqb_eq, (Permutation_length (Hset _)).
    apply nodup_singleton; [exact Hl|].
    intros x y Hx Hy. now rewrite (Hlabels x Hx), (Hlabels y Hy). }
  rewrite Hagree. eexists. eexists. split; [reflexivity|]. split.
  - assert (Hb : (0 <= np_mean
                         (Spec.contributing_scores
                            (initialize_analyzers E use_transformers)
                            text "en") <= 0)%R).
    { apply np_mean_bounds; [exact Hs|].
      intros x Hx. rewrite (Hscores x Hx). lra. }
    lra.
  - assert (Hstd : np_std
                     (Spec.contributing_scores
                        (initialize_analyzers E use_transformers) text "en")
                   = 0%R).
    { apply np_std_zero; [exact Hs|].
      intros x y Hx Hy. now rewrite (Hscores x Hx), (Hscores y Hy). }
    rewrite Hstd. unfold Rmin. destruct (Rle_dec 0 1); lra.
Qed.

Lemma blank_text_verdicts_witness :
  exists s c,
    ensemble_sentiment
      (analyze_text Examples.first_seen
         (initialize_analyzers (Examples.constant_engines 0.5 0.5 []) true)
         "   " "en")
    = mk_ensemble (Some s) (Some "neutral") (Some c) (Some true)
    /\ s = 0%R /\ c = 1%R.
Proof.
  apply (blank_text_verdicts Examples.first_seen
           (Examples.constant_engines 0.5 0.5 []) true "   "
           first_seen_iterates_set eq_refl eq_refl eq_refl).
Defined.

(** * The toxicity and the emotion analyzers *)

Lemma lower_char_idempotent (c : ascii) :
  PyStr.lower_char (PyStr.lower_char c) = PyStr.lower_char c.
Proof.
  destruct c as [[] [] [] [] [] [] [] []]; reflexivity.
Qed.

Lemma lower_idempotent (s : string) :
  PyStr.lower (PyStr.lower s) = PyStr.lower s.
Proof.
  induction s as [|c s IH]; simpl; [reflexivity|].
  now rewrite lower_char_idempotent, IH.
Qed.

Lemma toxic_count_le (text : string) : Detectors.toxic_count text <= 6.
Proof.
  unfold Detectors.toxic_count.
  etransitivity; [apply filter_length_le|]. simpl. lia.
Qed.

Lemma rule_score_cases (n : nat) :
  (0 <= Rmin (INR n * 0.3) 1 <= 1)%R
  /\ ((Rmin (INR n * 0.3) 1 > 0.5)%R <-> 2 <= n).
Proof.
  assert (Hn : (0 <= INR n)%R) by apply pos_INR.
  unfold Rmin. destruct (Rle_dec (INR n * 0.3) 1) as [Hle|Hgt].
  - split; [lra|].
    destruct n as [|[|n]].
    + simpl. split; [lra|lia].
    + simpl. split; [lra|lia].
    + assert (H2 : (2 <= INR (S (S n)))%R).
      { change 2%R with (INR 2). apply le_INR. lia. }
      split; [lia|lra].
  - split; [lra|]. split; [|lra]. intros _.
    destruct n as [|[|n]]; [simpl in Hgt; lra|simpl in Hgt; lra|lia].
Qed.

(** Without a model the empty text gets the verdict of the rules too. *)
Lemma analyze_toxicity_rule (text : string) :
  Detectors.analyze_toxicity None text = Detectors._rule_based_toxicity text.
Proof.
  unfold Detectors.analyze_toxicity. destruct text; [|reflexivity].
  unfold Detectors._rule_based_toxicity.
  change (Detectors.toxic_count "") with 0. simpl INR.
  replace (0 * 0.3)%R with 0%R by lra.
  unfold Rmin. destruct (Rle_dec 0 1); [|lra].
  destruct (Rgt_dec 0 0.5); [lra|reflexivity].
Qed.

(** The verdicts of [analyze_toxicity].  On every path a text that is
    reported toxic has a score above 0.5.  Without a model, the score is
    0.3 for every toxic word that occurs in the text, at most 1, it lies
    between 0 and 1, the text is toxic exactly when at least two of the
    six words occur, and the case of the letters does not matter. *)
Theorem toxicity_verdicts :
  forall (pipeline : option (string -> option (string * R)))
         (text : string),
    (snd (Detectors.analyze_toxicity pipeline text) = true ->
     (fst (Detectors.analyze_toxicity pipeline text) > 0.5)%R)
    /\ (pipeline = None ->
        fst (Detectors.analyze_toxicity pipeline text)
        = Rmin (INR (Detectors.toxic_count text) * 0.3) 1
        /\ (0 <= fst (Detectors.analyze_toxicity pipeline text) <= 1)%R
        /\ (snd (Detectors.analyze_toxicity pipeline text) = true
            <-> 2 <= Detectors.toxic_count text)
        /\ Detectors.toxic_count text <= 6
        /\ Detectors.analyze_toxicity pipeline (PyStr.lower text)
           = Detectors.analyze_toxicity pipeline text).
Proof.
  intros pipeline text. split.
  - unfold Detectors.analyze_toxicity, Detectors._rule_based_toxicity.
    destruct (PyStr.is_empty text); [discriminate|].
    destruct pipeline as [model|].
    + destruct (model _) as [[l s]|]; [|discriminate].
      destruct (String.eqb l "TOXIC"); [|discriminate].
      cbn [fst snd]. destruct (Rgt_dec s 0.5); [auto|discriminate].
    + cbn [fst snd].
      destruct (Rgt_dec (Rmin (INR (Detectors.toxic_count text) * 0.3) 1)
                        0.5); [auto|discriminate].
  - intros ->.
    destruct (rule_score_cases (Detectors.toxic_count text)) as [Hr Hi].
    rewrite !analyze_toxicity_rule. unfold Detectors._rule_based_toxicity.
    cbn [fst snd].
    split; [reflexivity|]. split; [exact Hr|]. split; [|split].
    + rewrite <- Hi.
      destruct (Rgt_dec (Rmin (INR (Detectors.toxic_count text) * 0.3) 1)
                        0.5); split; auto; discriminate.
    + apply toxic_count_le.
    + unfold Detectors.toxic_count. now rewrite lower_idempotent.
Qed.

Lemma toxicity_verdicts_witness :
  (fst (Detectors.analyze_toxicity None "I HATE this, it is Stupid")
   > 0.5)%R
  /\ (0 <= fst (Detectors.analyze_toxicity None "diet") <= 1)%R.
Proof.
  split.
  - destruct (toxicity_verdicts None "I HATE this, it is Stupid")
      as [H1 H2].
    apply H1. destruct (H2 eq_refl) as (_ & _ & H & _).
    apply H. vm_compute. lia.
  - destruct (toxicity_verdicts None "diet") as [_ H2].
    destruct (H2 eq_refl) as (_ & H & _). exact H.
Defined.

Lemma emotion_step_inv (done : list (string * R))
      (st : dict R * option string * R) (x : string * R) :
  Facts.emotion_inv done st ->
  Facts.emotion_inv (done ++ [x]) (Detectors.emotion_step st x).
Proof.
  destruct st as [[d dom] mx]. destruct x as [l s].
  intros (H0 & Hle & Hnone & Hsome).
  unfold Detectors.emotion_step. cbn [fst snd].
  destruct (Rgt_dec s mx) as [Hgt|Hngt]; unfold Facts.emotion_inv.
  - split; [lra|]. split.
    { intros y Hy. apply in_app_iff in Hy. destruct Hy as [Hy|[<-|[]]].
      - specialize (Hle y Hy). lra.
      - simpl. lra. }
    split; [discriminate|].
    intros e [= <-]. split; [lra|].
    exists done, l, []. split; [reflexivity|]. split; [reflexivity|].
    intros y Hy. specialize (Hle y Hy). lra.
  - split; [exact H0|]. split.
    { intros y Hy. apply in_app_iff in Hy. destruct Hy as [Hy|[<-|[]]].
      - now apply Hle.
      - simpl. lra. }
    split; [exact Hnone|].
    intros e He. destruct (Hsome e He) as (Hpos & pre & l0 & post & Hd & Hl & Hp).
    split; [exact Hpos|].
    exists pre, l0, (post ++ [(l, s)]). split; [|split; assumption].
    rewrite Hd, <- app_assoc. reflexivity.
Qed.

Lemma emotion_fold_inv (rest : list (string * R)) :
  forall done st,
    Facts.emotion_inv done st ->
    Facts.emotion_inv (done ++ rest)
                      (fold_left Detectors.emotion_step rest st).
Proof.
  induction rest as [|x rest IH]; intros done st Hinv; cbn [fold_left].
  - now rewrite app_nil_r.
  - replace (done ++ x :: rest) with ((done ++ [x]) ++ rest)
      by (rewrite <- app_assoc; reflexivity).
    apply IH. now apply emotion_step_inv.
Qed.

(** The dominant emotion of [analyze_emotion].  On a text that is not
    empty, when the model answers, the confidence is the greatest score of
    its classes, or 0 when none is positive; there is no dominant emotion
    exactly when no score is positive; otherwise the dominant emotion is
    the label, in lower case, of the first class that has the greatest
    score.  When the model raises, the dominant emotion is ["neutral"] with
    confidence 0. *)
Theorem analyze_emotion_dominant :
  forall (pipeline : string -> option (list (string * R))) (text : string),
    PyStr.is_empty text = false ->
    (forall results,
        pipeline (PyStr.take 512 text) = Some results ->
        exists scores dominant confidence,
          Detectors.analyze_emotion true pipeline text
          = Some (Detectors.Emotions scores dominant confidence)
          /\ (0 <= confidence)%R
          /\ (forall x, In x results -> (snd x <= confidence)%R)
          /\ (dominant = None <->
              forall x, In x results -> (snd x <= 0)%R)
          /\ (dominant = None -> confidence = 0%R)
          /\ (forall e,
                dominant = Some e ->
                (0 < confidence)%R
                /\ exists pre l post,
                    results = pre ++ (l, confidence) :: post
                    /\ PyStr.lower l = e
                    /\ forall x, In x pre -> (snd x < confidence)%R))
    /\ (pipeline (PyStr.take 512 text) = None ->
        Detectors.analyze_emotion true pipeline text
        = Some (Detectors.Emotions Detectors.zero_scores
                                   (Some "neutral") 0%R)).
Proof.
  intros pipeline text Hne. unfold Detectors.analyze_emotion.
  rewrite Hne, truncate_512. cbn [negb]. split.
  - intros results ->.
    assert (Hinit : Facts.emotion_inv [] ([], None, 0%R)).
    { unfold Facts.emotion_inv. split; [lra|].
      split; [intros x []|]. split; [reflexivity|discriminate]. }
    pose proof (emotion_fold_inv results [] _ Hinit) as Hinv.
    cbn [app] in Hinv.
    destruct (fold_left Detectors.emotion_step results ([], None, 0%R))
      as [[scores dominant] confidence].
    destruct Hinv as (H0 & Hle & Hnone & Hsome).
    exists scores, dominant, confidence.
    split; [reflexivity|]. split; [exact H0|]. split; [exact Hle|].
    split; [|split; [exact Hnone|exact Hsome]].
    split.
    + intros Hd x Hx. rewrite <- (Hnone Hd). now apply Hle.
    + intros Hall. destruct dominant as [e|]; [|reflexivity].
      destruct (Hsome e eq_refl) as (Hpos & pre & l & post & Hr & _).
      assert (Hin : In (l, confidence) results)
        by (rewrite Hr; apply in_elt).
      specialize (Hall _ Hin). simpl in Hall. lra.
  - intros ->. reflexivity.
Qed.

Lemma analyze_emotion_dominant_witness :
  (exists scores pre l post,
      Detectors.analyze_emotion true
        (fun _ => Some [("JOY", 0.2%R); ("anger", 0.7%R); ("fear", 0.7%R)])
        "what a day"
      = Some (Detectors.Emotions scores (Some "anger") 0.7%R)
      /\ [("JOY", 0.2%R); ("anger", 0.7%R); ("fear", 0.7%R)]
         = pre ++ (l, 0.7%R) :: post
      /\ PyStr.lower l = "anger"
      /\ forall x, In x pre -> (snd x < 0.7)%R)
  /\ (exists scores,
         Detectors.analyze_emotion true
           (fun _ => Some [("joy", 0%R); ("anger", (-0.1)%R)]) "what a day"
         = Some (Detectors.Emotions scores None 0%R)).
Proof.
  split.
  - destruct (analyze_emotion_dominant
                (fun _ => Some [("JOY", 0.2%R); ("anger", 0.7%R);
                                ("fear", 0.7%R)])
                "what a day" eq_refl) as [H _].
    destruct (H _ eq_refl)
      as (scores & dominant & confidence & H1 & _ & _ & _ & _ & H2).
    assert (Hrun : Detectors.analyze_emotion true
                     (fun _ => Some [("JOY", 0.2%R); ("anger", 0.7%R);
                                     ("fear", 0.7%R)])
                     "what a day"
                   = Some (Detectors.Emotions
                             [("joy", 0.2%R); ("anger", 0.7%R);
                              ("fear", 0.7%R)]
                             (Some "anger") 0.7%R)).
    { unfold Detectors.analyze_emotion, Detectors.emotion_step. simpl.
      destruct (Rgt_dec 0.2 0) as [_|Hn]; [|exfalso; lra].
      destruct (Rgt_dec 0.7 0.2) as [_|Hn]; [|exfalso; lra].
      destruct (Rgt_dec 0.7 0.7) as [Hn|_]; [exfalso; lra|]. reflexivity. }
    rewrite Hrun in H1. injection H1 as <- <- <-.
    destruct (H2 "anger" eq_refl) as (_ & pre & l & post & Hr & Hl & Hp).
    eexists. exists pre, l, post. split; [exact Hrun|].
    split; [exact Hr|]. split; [exact Hl|exact Hp].
  - destruct (analyze_emotion_dominant
                (fun _ => Some [("joy", 0%R); ("anger", (-0.1)%R)])
                "what a day" eq_refl) as [H _].
    destruct (H _ eq_refl)
      as (scores & dominant & confidence & H1 & _ & _ & H2 & H3 & _).
    assert (Hd : dominant = None).
    { apply H2. intros x [<-|[<-|[]]]; simpl; lra. }
    rewrite (H3 Hd), Hd in H1. exists scores. exact H1.
Defined.

(** * The statistics of a conversation *)

Lemma dict_get_without_unknown (k : string) (d : dict nat) :
  k <> "unknown" ->
  dict_get k (Tasks.without_unknown d) = dict_get k d.
Proof.
  intros Hk. induction d as [|[k' v] d IH]; [reflexivity|].
  unfold Tasks.without_unknown in *. cbn [List.filter fst].
  destruct (String.eqb_spec k' "unknown") as [->|Hne]; cbn [negb dict_get].
  - destruct (String.eqb_spec k "unknown"); [contradiction|exact IH].
  - destruct (String.eqb k k'); [reflexivity|exact IH].
Qed.

Lemma without_unknown_keys (k : string) (d : dict nat) :
  In k (map fst (Tasks.without_unknown d))
  <-> In k (map fst d) /\ k <> "unknown".
Proof.
  unfold Tasks.without_unknown. rewrite !in_map_iff. split.
  - intros ([k' v] & <- & Hin). apply filter_In in Hin.
    destruct Hin as [Hin Hk]. cbn [fst] in *. split.
    + exists (k', v). split; [reflexivity|exact Hin].
    + intros ->. discriminate Hk.
  - intros (([k' v] & <- & Hin) & Hk). exists (k', v).
    split; [reflexivity|]. apply filter_In. split; [exact Hin|].
    cbn [fst] in *. now destruct (String.eqb_spec k' "unknown").
Qed.

(** [_get_dominant_language].  The answer is ["unknown"] exactly when
    the counts have no other language; otherwise it is a language of the
    counts other than ["unknown"], and no such language has a greater
    count, even when ["unknown"] has. *)
Theorem get_dominant_language_known :
  forall language_counts : dict nat,
    let r := Tasks._get_dominant_language language_counts in
    (r = "unknown" <->
     forall k, In k (map fst language_counts) -> k = "unknown")
    /\ (r <> "unknown" ->
        In r (map fst language_counts)
        /\ forall k,
            In k (map fst language_counts) -> k <> "unknown" ->
            Tasks.count_of k language_counts
            <= Tasks.count_of r language_counts).
Proof.
  intros d. cbv zeta. unfold Tasks._get_dominant_language.
  destruct d as [|kv d]; [split; [split; [intros _ k []|reflexivity]|congruence]|].
  set (d0 := kv :: d).
  destruct (map fst (Tasks.without_unknown d0)) as [|k0 ks] eqn:Hkeys.
  - cbn [py_max].
    assert (Hall : forall k, In k (map fst d0) -> k = "unknown").
    { intros k Hk. destruct (string_dec k "unknown") as [E|E]; [exact E|].
      assert (Hin : In k (map fst (Tasks.without_unknown d0)))
        by (apply without_unknown_keys; now split).
      rewrite Hkeys in Hin. destruct Hin. }
    split; [split; [intros _; exact Hall|reflexivity]|congruence].
  - destruct (py_max_first
                (fun k => Tasks.count_of k (Tasks.without_unknown d0))
                (k0 :: ks)) as (r & pre & post & Hmax & Heq & Hpre & Hpost);
      [discriminate|].
    rewrite Hmax.
    assert (Hr : In r (map fst (Tasks.without_unknown d0)))
      by (rewrite Hkeys, Heq; apply in_elt).
    apply without_unknown_keys in Hr. destruct Hr as [Hrin Hrne].
    split.
    + split; [contradiction|]. intros Hall. exfalso.
      apply Hrne. now apply Hall.
    + intros _. split; [exact Hrin|].
      intros k Hk Hne.
      assert (Hkin : In k (k0 :: ks))
        by (rewrite <- Hkeys; apply without_unknown_keys; now split).
      unfold Tasks.count_of in *.
      rewrite <- (dict_get_without_unknown k d0 Hne),
        <- (dict_get_without_unknown r d0 Hrne).
      rewrite Heq in Hkin. apply in_app_iff in Hkin.
      destruct Hkin as [H|[H|H]].
      * apply Nat.lt_le_incl. now apply Hpre.
      * rewrite H. lia.
      * now apply Hpost.
Qed.

Lemma dict_get_set {V : Type} (k x : string) (v : V) (d : dict V) :
  dict_get k (dict_set x v d)
  = if String.eqb k x then Some v else dict_get k d.
Proof.
  induction d as [|[k' v'] d IH]; cbn [dict_set dict_get].
  - reflexivity.
  - destruct (String.eqb_spec x k') as [->|Hx]; cbn [dict_get].
    + destruct (String.eqb k k'); reflexivity.
    + destruct (String.eqb_spec k k') as [->|Hk].
      * destruct (String.eqb_spec k' x); [congruence|reflexivity].
      * exact IH.
Qed.

Lemma dict_set_keys {V : Type} (x : string) (v : V) (d : dict V) :
  map fst (dict_set x v d)
  = if existsb (String.eqb x) (map fst d) then map fst d
    else map fst d ++ [x].
Proof.
  induction d as [|[k' v'] d IH]; cbn [dict_set map fst existsb app].
  - reflexivity.
  - destruct (String.eqb_spec x k') as [->|Hx]; cbn [map fst orb].
    + reflexivity.
    + rewrite IH. now destruct (existsb (String.eqb x) (map fst d)).
Qed.

Lemma emotion_counts_of (emotions : list string) :
  forall (acc : dict nat) (k : string),
    Tasks.count_of k
      (fold_left
         (fun emotion_counts emotion =>
            dict_set emotion (Tasks.count_of emotion emotion_counts + 1)
                     emotion_counts)
         emotions acc)
    = Tasks.count_of k acc + count_occ string_dec emotions k.
Proof.
  induction emotions as [|x l IH]; intros acc k; cbn [fold_left count_occ].
  - lia.
  - rewrite IH. unfold Tasks.count_of at 1. rewrite dict_get_set.
    destruct (string_dec x k) as [->|Hne].
    + rewrite String.eqb_refl. lia.
    + destruct (String.eqb_spec k x); [congruence|].
      unfold Tasks.count_of. lia.
Qed.

Lemma filter_twice {A : Type} (f g h : A -> bool) (l : list A) :
  (forall y, h y = f y && g y) ->
  List.filter f (List.filter g l) = List.filter h l.
Proof.
  intros H. induction l as [|a l IH]; cbn [List.filter]; [reflexivity|].
  rewrite H. destruct (g a); cbn [List.filter].
  - rewrite andb_true_r. destruct (f a); now rewrite IH.
  - rewrite andb_false_r. exact IH.
Qed.

Lemma filter_all {A : Type} (f : A -> bool) (l : list A) :
  (forall y, f y = true) -> List.filter f l = l.
Proof.
  intros H. induction l as [|a l IH]; cbn [List.filter]; [reflexivity|].
  now rewrite H, IH.
Qed.

Lemma emotion_counts_keys (emotions : list string) :
  forall acc : dict nat,
    map fst
      (fold_left
         (fun emotion_counts emotion =>
            dict_set emotion (Tasks.count_of emotion emotion_counts + 1)
                     emotion_counts)
         emotions acc)
    = map fst acc
      ++ List.filter
           (fun y => negb (existsb (String.eqb y) (map fst acc)))
           (Facts.first_occurrences emotions).
Proof.
  induction emotions as [|x l IH]; intros acc;
    cbn [fold_left Facts.first_occurrences List.filter].
  - now rewrite app_nil_r.
  - rewrite IH, dict_set_keys.
    destruct (existsb (String.eqb x) (map fst acc)) eqn:Hx; cbn [negb].
    + f_equal. symmetry. apply filter_twice. intros y.
      destruct (String.eqb_spec y x) as [->|Hne]; cbn [negb].
      * now rewrite Hx.
      * now rewrite andb_true_r.
    + rewrite <- app_assoc. cbn [app]. f_equal. f_equal.
      symmetry. apply filter_twice. intros y.
      rewrite existsb_app. cbn [existsb].
      rewrite orb_false_r, negb_orb. reflexivity.
Qed.

Lemma first_occurrences_In (l : list string) (x : string) :
  In x (Facts.first_occurrences l) <-> In x l.
Proof.
  induction l as [|a l IH]; cbn [Facts.first_occurrences]; [reflexivity|].
  simpl. rewrite filter_In, IH.
  destruct (String.eqb_spec x a) as [->|Hne]; cbn [negb].
  - split; [intros [H|[_ H]]; [now left|discriminate]|now left].
  - split; [intros [H|[H _]]; tauto|].
    intros [H|H]; [congruence|right; now split].
Qed.

(** The dominant emotion of a conversation or of a participant.  For
    emotions that are not empty it is the emotion counted most often, and
    among those counted as often the one that was met first: in the list
    of the emotions by first occurrence, every emotion before it is
    counted less often. *)
Theorem dominant_emotion_first_most_frequent :
  forall emotion_data : list string,
    emotion_data <> [] ->
    exists r pre post,
      Tasks.dominant_emotion emotion_data = Some r
      /\ In r emotion_data
      /\ Facts.first_occurrences emotion_data = pre ++ r :: post
      /\ (forall e, count_occ string_dec emotion_data e
                    <= count_occ string_dec emotion_data r)
      /\ (forall e, In e pre ->
                    count_occ string_dec emotion_data e
                    < count_occ string_dec emotion_data r).
Proof.
  intros data Hne.
  assert (Hkeys : map fst (Tasks.count_emotions data)
                  = Facts.first_occurrences data).
  { unfold Tasks.count_emotions. rewrite emotion_counts_keys. cbn [map app].
    apply filter_all. reflexivity. }
  assert (Hcount : forall k,
             Tasks.count_of k (Tasks.count_emotions data)
             = count_occ string_dec data k).
  { intros k. unfold Tasks.count_emotions. now rewrite emotion_counts_of. }
  assert (Hfne : Facts.first_occurrences data <> []).
  { destruct data as [|a l]; [congruence|]. discriminate. }
  destruct (py_max_first
              (fun k => Tasks.count_of k (Tasks.count_emotions data))
              (Facts.first_occurrences data) Hfne)
    as (r & pre & post & Hmax & Heq & Hpre & Hpost).
  exists r, pre, post.
  assert (Hr : In r (Facts.first_occurrences data))
    by (rewrite Heq; apply in_elt).
  split.
  { unfold Tasks.dominant_emotion. destruct data as [|a l]; [congruence|].
    rewrite Hkeys. exact Hmax. }
  split; [now apply first_occurrences_In|].
  split; [exact Heq|]. split.
  - intros e. rewrite <- !Hcount.
    destruct (in_dec string_dec e data) as [Hin|Hnin].
    + apply first_occurrences_In in Hin. rewrite Heq in Hin.
      apply in_app_iff in Hin. destruct Hin as [H|[H|H]].
      * apply Nat.lt_le_incl. now apply Hpre.
      * rewrite H. lia.
      * now apply Hpost.
    + rewrite (Hcount e).
      apply (count_occ_not_In string_dec) in Hnin. rewrite Hnin. lia.
  - intros e He. rewrite <- !Hcount. now apply Hpre.
Qed.

Lemma dominant_emotion_first_most_frequent_witness :
  exists r pre post,
    Tasks.dominant_emotion ["joy"; "anger"; "anger"; "joy"; "fear"] = Some r
    /\ In r ["joy"; "anger"; "anger"; "joy"; "fear"]
    /\ Facts.first_occurrences ["joy"; "anger"; "anger"; "joy"; "fear"]
       = pre ++ r :: post.
Proof.
  destruct (dominant_emotion_first_most_frequent
              ["joy"; "anger"; "anger"; "joy"; "fear"])
    as (r & pre & post & H1 & H2 & H3 & _); [discriminate|].
  exists r, pre, post. repeat split; assumption.
Defined.

Lemma count_scores_all (p : R -> bool) (l : list R) :
  (forall x, In x l -> p x = true) ->
  Tasks.count_scores p l = List.length l.
Proof.
  intros H. unfold Tasks.count_scores.
  induction l as [|a l IH]; cbn [List.filter]; [reflexivity|].
  rewrite (H a (or_introl eq_refl)). cbn [List.length].
  rewrite IH; [reflexivity|]. intros x Hx. apply H. now right.
Qed.

Lemma count_scores_none (p : R -> bool) (l : list R) :
  (forall x, In x l -> p x = false) ->
  Tasks.count_scores p l = 0.
Proof.
  intros H. unfold Tasks.count_scores.
  induction l as [|a l IH]; cbn [List.filter]; [reflexivity|].
  rewrite (H a (or_introl eq_refl)).
  apply IH. intros x Hx. apply H. now right.
Qed.

Lemma count_scores_pos (p : R -> bool) (l : list R) :
  0 < Tasks.count_scores p l -> exists x, In x l /\ p x = true.
Proof.
  unfold Tasks.count_scores. intros H.
  destruct (List.filter p l) as [|x r] eqn:Hf; [simpl in H; lia|].
  assert (Hx : In x (List.filter p l)) by (rewrite Hf; now left).
  apply filter_In in Hx. now exists x.
Qed.

(** The label of the overall sentiment of a conversation is voted, not
    read off the overall score: it is positive exactly when more
    messages are above 0.1 than below -0.1, negative exactly when more
    are below -0.1 than above 0.1, and neutral otherwise.  So a positive
    label needs a message above 0.1 and a negative one a message below
    -0.1; messages that are all above 0.1 give positive, all below -0.1
    negative, all in between neutral. *)
Theorem overall_sentiment_label :
  forall sentiment_scores : list R,
    sentiment_scores <> [] ->
    let positive_count :=
      Tasks.count_scores
        (fun score => if Rgt_dec score 0.1 then true else false)
        sentiment_scores in
    let negative_count :=
      Tasks.count_scores
        (fun score => if Rlt_dec score (-0.1) then true else false)
        sentiment_scores in
    exists s l,
      Tasks.overall_sentiment sentiment_scores = Some (s, l)
      /\ (l = "positive" \/ l = "negative" \/ l = "neutral")
      /\ (l = "positive" <-> negative_count < positive_count)
      /\ (l = "negative" <-> positive_count < negative_count)
      /\ (l = "positive" ->
          exists x, In x sentiment_scores /\ (x > 0.1)%R)
      /\ (l = "negative" ->
          exists x, In x sentiment_scores /\ (x < -0.1)%R)
      /\ ((forall x, In x sentiment_scores -> (x > 0.1)%R) ->
          l = "positive")
      /\ ((forall x, In x sentiment_scores -> (x < -0.1)%R) ->
          l = "negative")
      /\ ((forall x, In x sentiment_scores -> (-0.1 <= x <= 0.1)%R) ->
          l = "neutral").
Proof.
  intros scores Hne. cbv zeta.
  set (pos := fun score : R => if Rgt_dec score 0.1 then true else false).
  set (neg := fun score : R => if Rlt_dec score (-0.1) then true else false).
  assert (Hpos : forall x, pos x = true <-> (x > 0.1)%R).
  { intros x. unfold pos. destruct (Rgt_dec x 0.1); split; intros H;
      try reflexivity; try assumption; try discriminate H; contradiction. }
  assert (Hneg : forall x, neg x = true <-> (x < -0.1)%R).
  { intros x. unfold neg. destruct (Rlt_dec x (-0.1)); split; intros H;
      try reflexivity; try assumption; try discriminate H; contradiction. }
  assert (Hlen : 0 < List.length scores)
    by (destruct scores; [congruence|simpl; lia]).
  assert (Hno_pos : (forall x, In x scores -> (x <= 0.1)%R) ->
                    Tasks.count_scores pos scores = 0).
  { intros Hall. apply count_scores_none. intros x Hx.
    specialize (Hall x Hx).
    destruct (pos x) eqn:E; [|reflexivity]. apply Hpos in E. lra. }
  assert (Hno_neg : (forall x, In x scores -> (-0.1 <= x)%R) ->
                    Tasks.count_scores neg scores = 0).
  { intros Hall. apply count_scores_none. intros x Hx.
    specialize (Hall x Hx).
    destruct (neg x) eqn:E; [|reflexivity]. apply Hneg in E. lra. }
  assert (Hall_pos : (forall x, In x scores -> (x > 0.1)%R) ->
                     Tasks.count_scores neg scores
                     < Tasks.count_scores pos scores).
  { intros Hall.
    rewrite (count_scores_all pos scores), Hno_neg; [exact Hlen| |].
    - intros x Hx. specialize (Hall x Hx). lra.
    - intros x Hx. apply Hpos. now apply Hall. }
  assert (Hall_neg : (forall x, In x scores -> (x < -0.1)%R) ->
                     Tasks.count_scores pos scores
                     < Tasks.count_scores neg scores).
  { intros Hall.
    rewrite (count_scores_all neg scores), Hno_pos; [exact Hlen| |].
    - intros x Hx. specialize (Hall x Hx). lra.
    - intros x Hx. apply Hneg. now apply Hall. }
  assert (Hall_mid : (forall x, In x scores -> (-0.1 <= x <= 0.1)%R) ->
                     Tasks.count_scores pos scores = 0
                     /\ Tasks.count_scores neg scores = 0).
  { intros Hall. split; [apply Hno_pos|apply Hno_neg];
      intros x Hx; specialize (Hall x Hx); lra. }
  assert (Hex_pos : 0 < Tasks.count_scores pos scores ->
                    exists x, In x scores /\ (x > 0.1)%R).
  { intros H. destruct (count_scores_pos pos scores H) as (x & Hx & Hpx).
    exists x. split; [exact Hx|now apply Hpos]. }
  assert (Hex_neg : 0 < Tasks.count_scores neg scores ->
                    exists x, In x scores /\ (x < -0.1)%R).
  { intros H. destruct (count_scores_pos neg scores H) as (x & Hx & Hnx).
    exists x. split; [exact Hx|now apply Hneg]. }
  exists (fold_right Rplus 0 scores / INR (List.length scores))%R,
    (if Tasks.count_scores neg scores <? Tasks.count_scores pos scores
     then "positive"
     else if Tasks.count_scores pos scores <? Tasks.count_scores neg scores
          then "negative" else "neutral").
  split; [destruct scores; [congruence|reflexivity]|].
  destruct (Nat.ltb_spec (Tasks.count_scores neg scores)
                         (Tasks.count_scores pos scores)) as [Hp|Hp];
    [|destruct (Nat.ltb_spec (Tasks.count_scores pos scores)
                             (Tasks.count_scores neg scores)) as [Hn|Hn]].
  - split; [now left|].
    split; [split; [intros _; exact Hp|reflexivity]|].
    split; [split; [discriminate|intros H; lia]|].
    split; [intros _; apply Hex_pos; lia|].
    split; [discriminate|].
    split; [reflexivity|].
    split; [intros Hall; specialize (Hall_neg Hall); lia|].
    intros Hall. destruct (Hall_mid Hall). lia.
  - split; [right; now left|].
    split; [split; [discriminate|intros H; lia]|].
    split; [split; [intros _; exact Hn|reflexivity]|].
    split; [discriminate|].
    split; [intros _; apply Hex_neg; lia|].
    split; [intros Hall; specialize (Hall_pos Hall); lia|].
    split; [reflexivity|].
    intros Hall. destruct (Hall_mid Hall). lia.
  - split; [right; now right|].
    split; [split; [discriminate|intros H; lia]|].
    split; [split; [discriminate|intros H; lia]|].
    split; [discriminate|].
    split; [discriminate|].
    split; [intros Hall; specialize (Hall_pos Hall); lia|].
    split; [intros Hall; specialize (Hall_neg Hall); lia|].
    reflexivity.
Qed.

(** Two messages slightly above 0.1 outvote one far below -0.1. *)
Lemma overall_sentiment_label_witness :
  exists s,
    Tasks.overall_sentiment [0.2; 0.2; (-0.9)]%R = Some (s, "positive").
Proof.
  pose proof (overall_sentiment_label [0.2; 0.2; (-0.9)]%R) as H.
  cbv zeta in H.
  destruct H as (s & l & H1 & _ & H2 & _); [discriminate|].
  assert (Hl : l = "positive").
  { apply H2. unfold Tasks.count_scores. cbn [List.filter].
    destruct (Rgt_dec 0.2 0.1) as [_|Hn]; [|exfalso; lra].
    destruct (Rgt_dec (-0.9) 0.1) as [Hn|_]; [exfalso; lra|].
    destruct (Rlt_dec 0.2 (-0.1)) as [Hn|_]; [exfalso; lra|].
    destruct (Rlt_dec (-0.9) (-0.1)) as [_|Hn]; [|exfalso; lra].
    simpl. lia. }
  exists s. now rewrite <- Hl.
Defined.

(** * More on the scorers *)

(** The confidence of VADER is the absolute value of its score, and its
    label is neutral exactly when the confidence is below 0.05. *)
Theorem vader_confidence :
  forall (E : engines) (text : string) (r : SentimentResult),
    vader_analyze E text = Some r ->
    exists s,
      score r = Some s
      /\ confidence r = Rabs s
      /\ (label r = "neutral" <-> (confidence r < 0.05)%R)
      /\ (label r = "positive" <-> (s >= 0.05)%R)
      /\ (label r = "negative" <-> (s <= -0.05)%R).
Proof.
  intros E text r. unfold vader_analyze.
  destruct (negb (vader_loads E)); [discriminate|].
  assert (Hneutral :
            exists s,
              score neutral_result = Some s
              /\ confidence neutral_result = Rabs s
              /\ (label neutral_result = "neutral"
                  <-> (confidence neutral_result < 0.05)%R)
              /\ (label neutral_result = "positive" <-> (s >= 0.05)%R)
              /\ (label neutral_result = "negative" <-> (s <= -0.05)%R)).
  { exists 0%R. cbn [score confidence label neutral_result].
    rewrite Rabs_R0.
    repeat split; intros; try reflexivity; try discriminate; lra. }
  destruct (PyStr.is_empty (preprocess_text text)); [now intros [= <-]|].
  destruct (polarity_scores E (preprocess_text text)) as [c|];
    [|now intros [= <-]].
  intros [= <-]. exists c. cbn [score confidence label].
  split; [reflexivity|]. split; [reflexivity|].
  unfold Rabs. destruct (Rcase_abs c);
    decide_reals; repeat split; intros; try reflexivity; try discriminate;
    lra.
Qed.

Lemma vader_confidence_witness :
  exists s,
    Some 0.07%R = Some s
    /\ Rabs 0.07 = Rabs s
    /\ ("positive" = "neutral" <-> (Rabs 0.07 < 0.05)%R).
Proof.
  destruct (vader_confidence (Examples.constant_engines 0.07 0 []) "ok"
              (mk_result (Some 0.07%R) "positive" (Rabs 0.07)) example_vader)
    as (s & H1 & H2 & H3 & _).
  exists s. repeat split; try assumption; apply H3.
Defined.

(** With one and the same verdict from every contributing scorer, the
    ensemble is that verdict with confidence 1. *)
Lemma ensemble_unanimous (set_iter : list string -> list string)
      (analyzers : dict analyzer) (text language : string)
      (s0 : R) (l0 : string) :
  Spec.iterates_set set_iter ->
  PyStr.is_empty text = false ->
  Spec.contributing analyzers text language <> [] ->
  (forall v, In v (Spec.contributing analyzers text language) ->
             v = (s0, l0)) ->
  exists s c,
    ensemble_sentiment (analyze_text set_iter analyzers text language)
    = mk_ensemble (Some s) (Some l0) (Some c) (Some true)
    /\ s = s0 /\ c = 1%R.
Proof.
  intros Hset Hne Hcne Hall.
  destruct (contributing_nonempty _ _ _ Hcne) as [Hs Hl].
  assert (Hscores : forall x,
             In x (Spec.contributing_scores analyzers text language) ->
             x = s0).
  { intros x Hx. apply in_map_iff in Hx. destruct Hx as (v & <- & Hin).
    now rewrite (Hall v Hin). }
  assert (Hlabels : forall x,
             In x (Spec.contributing_labels analyzers text language) ->
             x = l0).
  { intros x Hx. apply in_map_iff in Hx. destruct Hx as (v & <- & Hin).
    now rewrite (Hall v Hin). }
  destruct (elected_label set_iter Hset _ Hl)
    as (l1 & _ & _ & Hmax1 & Hin1 & _).
  destruct (analyze_text_contributing set_iter Hset analyzers text language
              Hne Hcne) as (res & l & Hmax & ->).
  rewrite Hmax1 in Hmax. injection Hmax as <-.
  rewrite (Hlabels l1 Hin1). cbn [ensemble_sentiment].
  assert (Hagree : (List.length
                      (set_iter
                         (Spec.contributing_labels analyzers text language))
                    =? 1) = true).
  { rewrite Nat.eqb_eq, (Permutation_length (Hset _)).
    apply nodup_singleton; [exact Hl|].
    intros x y Hx Hy. now rewrite (Hlabels x Hx), (Hlabels y Hy). }
  rewrite Hagree. eexists. eexists. split; [reflexivity|]. split.
  - assert (Hb : (s0 <= np_mean
                          (Spec.contributing_scores analyzers text language)
                  <= s0)%R).
    { apply np_mean_bounds; [exact Hs|].
      intros x Hx. rewrite (Hscores x Hx). lra. }
    lra.
  - assert (Hstd : np_std (Spec.contributing_scores analyzers text language)
                   = 0%R).
    { apply np_std_zero; [exact Hs|].
      intros x y Hx Hy. now rewrite (Hscores x Hx), (Hscores y Hy). }
    rewrite Hstd. unfold Rmin. destruct (Rle_dec 0 1); lra.
Qed.

(** Hinglish is supported by VADER alone.  The ensemble of a hinglish
    text is the score and the label of VADER, with agreement and with
    confidence 1, whatever confidence VADER reports; and when VADER does
    not load it is empty. *)
Theorem hinglish_is_vader_alone :
  forall (set_iter : list string -> list string) (E : engines)
         (use_transformers : bool) (text : string),
    Spec.iterates_set set_iter ->
    PyStr.is_empty text = false ->
    (forall r s,
        vader_analyze E text = Some r -> score r = Some s ->
        exists s' c,
          ensemble_sentiment
            (analyze_text set_iter (initialize_analyzers E use_transformers)
                          text "hinglish")
          = mk_ensemble (Some s') (Some (label r)) (Some c) (Some true)
          /\ s' = s /\ c = 1%R)
    /\ (vader_analyze E text = None ->
        ensemble_sentiment
          (analyze_text set_iter (initialize_analyzers E use_transformers)
                        text "hinglish")
        = empty_dict).
Proof.
  intros set_iter E use_transformers text Hset Hne.
  assert (Hc : Spec.contributing (initialize_analyzers E use_transformers)
                                 text "hinglish"
               = match vader_analyze E text with
                 | Some r => match score r with
                             | Some s => [(s, label r)]
                             | None => []
                             end
                 | None => []
                 end).
  { unfold Spec.contributing, initialize_analyzers.
    destruct (use_transformers && transformers_available E);
      cbn [app flat_map snd is_language_supported supported_languages
           analyze_sentiment VADERAnalyzer TextBlobAnalyzer
           TransformerAnalyzer];
      change (existsb (String.eqb "hinglish") ["en"; "hinglish"]) with true;
      change (existsb (String.eqb "hinglish") ["en"]) with false;
      cbv iota; now rewrite !app_nil_r. }
  split.
  - intros r s Hr Hs. rewrite Hr, Hs in Hc.
    apply ensemble_unanimous; try assumption.
    + rewrite Hc. discriminate.
    + rewrite Hc. intros v [<-|[]]. reflexivity.
  - intros Hr. rewrite Hr in Hc.
    destruct (analyze_text_unfold set_iter
                (initialize_analyzers E use_transformers) text "hinglish"
                Hne) as [res ->].
    unfold Spec.contributing_scores. now rewrite Hc.
Qed.

Lemma hinglish_is_vader_alone_witness :
  exists s' c,
    ensemble_sentiment
      (analyze_text Examples.first_seen
         (initialize_analyzers (Examples.constant_engines 0.07 0 []) true)
         "ok" "hinglish")
    = mk_ensemble (Some s') (Some "positive") (Some c) (Some true)
    /\ s' = 0.07%R /\ c = 1%R.
Proof.
  destruct (hinglish_is_vader_alone Examples.first_seen
              (Examples.constant_engines 0.07 0 []) true "ok"
              first_seen_iterates_set eq_refl) as [H _].
  apply (H (mk_result (Some 0.07%R) "positive" (Rabs 0.07)) 0.07%R
           example_vader eq_refl).
Defined.

(** * The system patterns *)

Lemma prefix_mem_char (c : ascii) (p : string) :
  forall s,
    String.prefix p s = true ->
    PyStr.mem_char c p = true -> PyStr.mem_char c s = true.
Proof.
  induction p as [|a p IH]; intros [|b s]; simpl; try discriminate.
  destruct (ascii_dec a b) as [->|]; [|discriminate].
  intros Hp. rewrite !orb_true_iff. intros [H|H]; [now left|right].
  now apply IH.
Qed.

Lemma contains_mem_char (c : ascii) (p s : string) :
  PyStr.contains p s = true ->
  PyStr.mem_char c p = true -> PyStr.mem_char c s = true.
Proof.
  induction s as [|b s IH]; cbn [PyStr.contains]; rewrite orb_true_iff.
  - intros [H|H]; [|discriminate]. now apply prefix_mem_char.
  - intros [H|H] Hc; [now apply (prefix_mem_char c p)|].
    cbn [PyStr.mem_char]. rewrite (IH H Hc). apply orb_true_r.
Qed.

Lemma lower_char_backslash (c : ascii) :
  Ascii.eqb Facts.backslash (PyStr.lower_char c)
  = Ascii.eqb Facts.backslash c.
Proof.
  destruct c as [[] [] [] [] [] [] [] []]; reflexivity.
Qed.

Lemma mem_backslash_lower (s : string) :
  PyStr.mem_char Facts.backslash (PyStr.lower s)
  = PyStr.mem_char Facts.backslash s.
Proof.
  induction s as [|c s IH]; cbn [PyStr.lower PyStr.mem_char];
    [reflexivity|].
  now rewrite lower_char_backslash, IH.
Qed.

(** One of the system patterns never applies.  The pattern for a member
    that joined by the invite link contains a backslash, so it occurs in no
    message without a backslash: such a message is a system message only
    through one of the other patterns. *)
Theorem invite_link_pattern_dead :
  forall message : string,
    PyStr.mem_char Facts.backslash message = false ->
    In Facts.invite_link_pattern system_patterns
    /\ PyStr.mem_char Facts.backslash Facts.invite_link_pattern = true
    /\ PyStr.contains (PyStr.lower Facts.invite_link_pattern)
                      (PyStr.lower message) = false
    /\ (is_system_message message = true ->
        exists pattern,
          In pattern system_patterns
          /\ pattern <> Facts.invite_link_pattern
          /\ PyStr.contains (PyStr.lower pattern) (PyStr.lower message)
             = true).
Proof.
  intros message Hm.
  assert (Hdead : PyStr.contains (PyStr.lower Facts.invite_link_pattern)
                                 (PyStr.lower message) = false).
  { destruct (PyStr.contains (PyStr.lower Facts.invite_link_pattern)
                             (PyStr.lower message)) eqn:Hc; [|reflexivity].
    apply (contains_mem_char Facts.backslash) in Hc; [|reflexivity].
    rewrite mem_backslash_lower in Hc. congruence. }
  split; [unfold Facts.invite_link_pattern, system_patterns; simpl; tauto|].
  split; [reflexivity|]. split; [exact Hdead|].
  unfold is_system_message. intros H. apply existsb_exists in H.
  destruct H as (pattern & Hin & Hc). exists pattern.
  split; [exact Hin|]. split; [|exact Hc].
  intros ->. congruence.
Qed.

Lemma invite_link_pattern_dead_witness :
  PyStr.contains (PyStr.lower Facts.invite_link_pattern)
    (PyStr.lower "Bob joined using this group's invite link") = false.
Proof.
  apply (invite_link_pattern_dead
           "Bob joined using this group's invite link").
  reflexivity.
Defined.

(** The three kinds of message.  The test of the system patterns comes
    first and hides the test of the media marker: a message is typed
    [media] exactly when it has no system pattern and has the word
    "omitted" in any case, and [text] exactly when it has neither.  The
    speaker is kept unless the message is a system message. *)
Theorem classify_kinds :
  forall user message_content : string,
    (fst (classify user message_content) = system <->
     is_system_message message_content = true)
    /\ (fst (classify user message_content) = media <->
        is_system_message message_content = false
        /\ PyStr.contains "omitted" (PyStr.lower message_content) = true)
    /\ (fst (classify user message_content) = text <->
        is_system_message message_content = false
        /\ PyStr.contains "omitted" (PyStr.lower message_content) = false)
    /\ (fst (classify user message_content) <> system ->
        snd (classify user message_content) = user
        /\ PyStr.contains "<Media omitted>" message_content = false).
Proof.
  intros user m. unfold classify.
  destruct (is_system_message m) eqn:Hsys; cbn [fst snd].
  - repeat split; try discriminate; try tauto;
      intros H; try (destruct H; discriminate); congruence.
  - assert (Hmarker : PyStr.contains "<Media omitted>" m = false).
    { destruct (PyStr.contains "<Media omitted>" m) eqn:Hc; [|reflexivity].
      pose proof (media_marker_never_media user m Hc) as H.
      unfold classify in H. rewrite Hsys in H.
      destruct (_ || _) in H; discriminate H. }
    rewrite Hmarker. cbn [orb].
    destruct (PyStr.contains "omitted" (PyStr.lower m)); cbn [fst snd];
      repeat split; try discriminate; try reflexivity;
      intros H; try (destruct H; discriminate); congruence.
Qed.
